(** * Power BI Annotator: page-scoped annotation store and export pipeline

    A shallow embedding of the extension's service worker
    ([src/background/background.js]) and content script, followed by the
    properties proved about them.  The content script is embedded in two
    revisions: [src/content/content.js] (modules [Content], [Canvas],
    [PageExport], [Drawing], [Annotate], [Labels], [Sheet] and
    [Presentation]) and the later revision whose text is carried in
    [REVIEW.md] below the review (modules [Revised] and [MultiPage]), which
    adds the handling of page changes, the screenshot cache and the export of
    all pages, and changes [getReportCanvas] and [cropScreenshotToCanvas].
    Module [InStep] states what it means for the boxes on the page to agree
    with the annotation list, and module [PageScript] embeds the script that
    runs in the page context ([src/content/powerbi-page-script.js]).

    Conventions of the embedding.
    - Every event handler or callback of the JavaScript code is one
      function on an explicit state: JavaScript runs a handler to
      completion before the next one starts.
    - A chrome API whose answer comes from the browser (a capture, a
      storage read or write that may set [chrome.runtime.lastError]) takes
      that answer as an argument.
    - Where a handler issues an asynchronous read and other handlers can
      run before the callback of that read, the call and the callback are
      two functions, the second on the state it finds when it runs:
      [Content.saveAnnotations] and [Content.saveAnnotations_read].
    - JavaScript numbers that hold lengths and coordinates are exact
      rationals ([Q]); counters, tab ids and timestamps are integers.
    - A JavaScript object used as a map is a [gmap] when only lookups
      matter and an association list in insertion order when
      [Object.keys] is used. *)

From Stdlib Require Import ZArith QArith Qround Qabs Qminmax Lia Lqa List Sorted String Ascii DecimalString.
From Stdlib Require Floats.
From stdpp Require Import gmap strings list sorting.
Import ListNotations.

Local Open Scope string_scope.
Local Open Scope list_scope.
Local Open Scope Z_scope.

(* ===================================================================== *)
(** * The browser objects the scripts read                                *)
(* ===================================================================== *)

Module Dom.

(** The double quote character, as it occurs inside selectors and CSV cells. *)
Definition dquote : string := String (ascii_of_nat 34) EmptyString.

(** What [getBoundingClientRect()] returns, in CSS pixels. *)
Record DOMRect := { left : Q; top : Q; width : Q; height : Q }.

(** An element of the host page: a name to tell elements apart and its
    on-screen rectangle. *)
Record Element := { name : string; rect : DOMRect }.

(** The host document as the scripts query it: [querySelector] for a
    selector, and the result of [querySelectorAll('div')] in document order. *)
Record Document := {
  querySelector : string -> option Element;
  divs : list Element
}.

(** The properties of [window] that the crop reads. *)
Record Window := { innerWidth : Q; innerHeight : Q; devicePixelRatio : Q }.

(** A decoded [Image]: [img.width] and [img.height]. *)
Record Image := { image_width : Q; image_height : Q }.

(** [a > b] on numbers. *)
Definition gt (a b : Q) : bool := negb (Qle_bool a b).

(** Assigning a number to [canvas.width] or [canvas.height] (an unsigned
    long): the fraction is dropped and the value is taken modulo [2^32]. *)
Definition to_unsigned_long (q : Q) : Z := Z.modulo (Z.quot (Qnum q) (Zpos (Qden q))) (2 ^ 32).

End Dom.

(* ===================================================================== *)
(** * Service worker: [src/background/background.js]                      *)
(* ===================================================================== *)

Module Background.

(** [{ tabId: number }], the value of [pendingCapture]. *)
Record PendingCapture := { tabId : Z }.

(** The [tab] object handed to listeners: only [id] and [windowId] are read. *)
Record Tab := { id : Z; windowId : Z }.

(** What [chrome.tabs.captureVisibleTab] hands to its callback: a data URL,
    or [chrome.runtime.lastError] with its message. *)
Inductive CaptureOutcome :=
| Captured (dataUrl : string)
| CaptureFailed (lastErrorMessage : string).

(** Messages the worker sends to a tab with [chrome.tabs.sendMessage]. *)
Inductive TabMessage :=
| toggleSidebar
| hideForCapture
| screenshotResult (screenshot : option string) (error : option string).

(** Requests the worker receives through [chrome.runtime.onMessage]. *)
Inductive Request :=
| prepareCapture
| cancelCapture
| captureForCache
| otherAction (action : string).

(** Answers given with [sendResponse]. *)
Inductive Response :=
| ok_true
| cacheShot (screenshot : option string) (error : option string).

(** State that outlives the service worker: [chrome.storage.session], the
    action badge, and the messages delivered to tabs so far (oldest first). *)
Record Browser := {
  session_pendingCapture : option PendingCapture;
  badgeText : string;
  badgeBackgroundColor : string;
  sent : list (Z * TabMessage)
}.

(** The worker's module variable [pendingCapture] next to the browser state. *)
Record Worker := {
  pendingCapture : option PendingCapture;
  browser : Browser
}.

Definition send (to : Z) (m : TabMessage) (b : Browser) : Browser :=
  {| session_pendingCapture := session_pendingCapture b;
     badgeText := badgeText b;
     badgeBackgroundColor := badgeBackgroundColor b;
     sent := sent b ++ [(to, m)] |}.

(** A fresh browser session and a freshly started worker. *)
Definition start : Worker :=
  {| pendingCapture := None;
     browser := {| session_pendingCapture := None; badgeText := "";
                   badgeBackgroundColor := ""; sent := [] |} |}.

(** The browser tears the worker down and starts it again: the script is
    evaluated anew ([let pendingCapture = null]), the browser state stays. *)
Definition restart (w : Worker) : Worker :=
  {| pendingCapture := None; browser := browser w |}.

Definition camera : string := "📸".

(** [setPendingCapture(tabId)] *)
Definition setPendingCapture (t : Z) (w : Worker) : Worker :=
  let p := {| tabId := t |} in
  {| pendingCapture := Some p;
     browser := {| session_pendingCapture := Some p;
                   badgeText := camera;
                   badgeBackgroundColor := "#0078d4";
                   sent := sent (browser w) |} |}.

(** [clearPendingCapture()] *)
Definition clearPendingCapture (w : Worker) : Worker :=
  {| pendingCapture := None;
     browser := {| session_pendingCapture := None;
                   badgeText := "";
                   badgeBackgroundColor := badgeBackgroundColor (browser w);
                   sent := sent (browser w) |} |}.

(** The [screenshotResult] message built in the callback of
    [captureVisibleTab]. *)
Definition resultMessage (o : CaptureOutcome) : TabMessage :=
  match o with
  | CaptureFailed msg => screenshotResult None (Some msg)
  | Captured dataUrl => screenshotResult (Some dataUrl) None
  end.

(** [captureAndSend(tab)]: hide the overlay, wait, capture, send the
    result, clear the token.  The chain of callbacks is taken as one step;
    [o] is what the capture produced. *)
Definition captureAndSend (tab : Tab) (o : CaptureOutcome) (w : Worker) : Worker :=
  let w1 := {| pendingCapture := pendingCapture w;
               browser := send (id tab) hideForCapture (browser w) |} in
  let w2 := {| pendingCapture := pendingCapture w1;
               browser := send (id tab) (resultMessage o) (browser w1) |} in
  clearPendingCapture w2.

(** [pendingCapture && pendingCapture.tabId === tab.id] *)
Definition armedFor (p : option PendingCapture) (tab : Tab) : bool :=
  match p with
  | Some r => tabId r =? id tab
  | None => false
  end.

(** The [chrome.action.onClicked] listener. *)
Definition onClicked (tab : Tab) (o : CaptureOutcome) (w : Worker) : Worker :=
  if armedFor (pendingCapture w) tab then
    captureAndSend tab o w
  else
    let result := session_pendingCapture (browser w) in
    if armedFor result tab then
      captureAndSend tab o {| pendingCapture := result; browser := browser w |}
    else
      {| pendingCapture := pendingCapture w;
         browser := send (id tab) toggleSidebar (browser w) |}.

(** The [chrome.runtime.onMessage] listener; [o] is the capture made for
    [captureForCache]. *)
Definition onMessage (request : Request) (sender : Tab) (o : CaptureOutcome)
    (w : Worker) : Worker * option Response :=
  match request with
  | prepareCapture => (setPendingCapture (id sender) w, Some ok_true)
  | cancelCapture => (clearPendingCapture w, Some ok_true)
  | captureForCache =>
      (w, Some match o with
               | CaptureFailed msg => cacheShot None (Some msg)
               | Captured dataUrl => cacheShot (Some dataUrl) None
               end)
  | otherAction _ => (w, None)
  end.

(** What can happen to the worker. *)
Inductive Event :=
| IconClicked (tab : Tab) (o : CaptureOutcome)
| Message (request : Request) (sender : Tab) (o : CaptureOutcome)
| Restarted.

Definition step (w : Worker) (e : Event) : Worker :=
  match e with
  | IconClicked tab o => onClicked tab o w
  | Message request sender o => fst (onMessage request sender o w)
  | Restarted => restart w
  end.

Definition run (w : Worker) (es : list Event) : Worker := fold_left step es w.

(** The states the worker can be in. *)
Inductive reachable : Worker -> Prop :=
| reach_start : reachable start
| reach_step w e : reachable w -> reachable (step w e).

(** The messages a step added to the ones already sent. *)
Definition newly_sent (before after : Worker) : list (Z * TabMessage) :=
  drop (length (sent (browser before))) (sent (browser after)).

End Background.

(* ===================================================================== *)
(** * Content script: [src/content/content.js]                            *)
(* ===================================================================== *)

Module Content.

(** ** Annotations and the page-keyed store *)

Record Point := { px : Q; py : Q }.

(** The object built in [handleMouseUp]. *)
Record Annotation := {
  id : Z;
  x : Z;
  y : Z;
  width : Q;
  height : Q;
  comment : string;
  timestamp : string;
  url : string;
  tool : string;
  color : string;
  freehandPath : option (list Point);
  startPoint : Point;
  endPoint : Point
}.

(** [window.location]: the two parts [getPageKey] reads. *)
Record Location := { pathname : string; search : string }.

(** [getPageKey()] *)
Definition getPageKey (l : Location) : string := pathname l +:+ search l.

(** [chrome.storage.local]: the value under the key ["annotations"], absent
    until the first write.  Storage holds serialised copies. *)
Record Storage := { stored_annotations : option (gmap string (list Annotation)) }.

(** A bucket of the in-memory cache is a JavaScript array.  An array that
    was at some time bound to the variable [annotations] can be reached both
    from that variable and from cache entries, so it is held by reference
    ([Alias r], the [r]-th such array); an array that only one cache entry
    refers to is held by value ([Own]). *)
Inductive Cell :=
| Own (l : list Annotation)
| Alias (r : nat).

(** The module variables of the content script that the store reads and
    writes.  [arrays] are the arrays ever bound to [annotations], which is
    the index of the current one; [allAnnotationsCache] is [None] for
    [null]. *)
Record Script := {
  location : Location;
  arrays : list (list Annotation);
  annotations : nat;
  allAnnotationsCache : option (gmap string Cell);
  annotationIdCounter : Z
}.

(** The script as first evaluated: [let annotations = []],
    [let allAnnotationsCache = null], [let annotationIdCounter = 0]. *)
Definition fresh (l : Location) : Script :=
  {| location := l; arrays := [[]]; annotations := 0%nat;
     allAnnotationsCache := None; annotationIdCounter := 0 |}.

Definition array (t : Script) (r : nat) : list Annotation := default [] (arrays t !! r).

(** The elements of [annotations]. *)
Definition contents (t : Script) : list Annotation := array t (annotations t).

Definition read (t : Script) (c : Cell) : list Annotation :=
  match c with
  | Own l => l
  | Alias r => array t r
  end.

(** What [chrome.storage.local.set] serialises when handed the cache. *)
Definition snapshot (t : Script) (cache : gmap string Cell) : gmap string (list Annotation) :=
  read t <$> cache.

(** Whether a storage call ends with [chrome.runtime.lastError] set. *)
Record StorageIO := { getFails : bool; setFails : bool }.

Definition io_ok : StorageIO := {| getFails := false; setFails := false |}.

(** [result.annotations || {}] *)
Definition annotations_or_empty (s : Storage) : gmap string (list Annotation) :=
  default ∅ (stored_annotations s).

(** The bucket storage holds for a page key. *)
Definition bucket (s : Storage) (k : string) : option (list Annotation) :=
  annotations_or_empty s !! k.

(** [chrome.storage.local.set({ annotations: m })] *)
Definition storage_set (io : StorageIO) (m : gmap string (list Annotation))
    (s : Storage) : Storage :=
  if setFails io then s else {| stored_annotations := Some m |}.

Definition with_cache (c : option (gmap string Cell)) (t : Script) : Script :=
  {| location := location t; arrays := arrays t; annotations := annotations t;
     allAnnotationsCache := c; annotationIdCounter := annotationIdCounter t |}.

(** [saveAnnotations()], the call itself.  While the cache is still [null]
    the call writes nothing and changes no variable: it hands a read to
    [chrome.storage.local.get] ([saveAnnotations_issues]) and returns; the
    merge and the write are done by the callback of that read
    ([saveAnnotations_read]), which runs later.  With a loaded cache the
    call stores at once.  The assignment
    [allAnnotationsCache[pageKey] = annotations] stores the array itself. *)
Definition saveAnnotations (io : StorageIO) (t : Script) (s : Storage) : Script * Storage :=
  let pageKey := getPageKey (location t) in
  match allAnnotationsCache t with
  | None => (t, s)
  | Some cache =>
      let c := <[pageKey := Alias (annotations t)]> cache in
      (with_cache (Some c) t, storage_set io (snapshot t c) s)
  end.

(** The read [saveAnnotations()] issues: none with a loaded cache, and
    otherwise one whose callback closes over [pageKey], the key computed when
    the call was made. *)
Definition saveAnnotations_issues (t : Script) : option string :=
  match allAnnotationsCache t with
  | None => Some (getPageKey (location t))
  | Some _ => None
  end.

(** The callback [(result) => { ... }] of that read.  [result] is the value
    the read found under the key ["annotations"]; [t] and [s] are the script
    and the storage when the callback runs, so [annotations] is the array
    bound to the variable then, not when [saveAnnotations()] was called.
    [getFails] says whether the read ended with [lastError] set, [setFails]
    whether the write does. *)
Definition saveAnnotations_read (io : StorageIO) (pageKey : string)
    (result : option (gmap string (list Annotation))) (t : Script) (s : Storage)
    : Script * Storage :=
  if getFails io then (t, s)
  else
    let c := <[pageKey := Alias (annotations t)]> (Own <$> default ∅ result) in
    (with_cache (Some c) t, storage_set io (snapshot t c) s).

(** [annotations = cache[key] || []]: bind the variable to the array of a
    bucket, or to a new empty array. *)
Definition bind_bucket (key : string) (cache : gmap string Cell) (t : Script)
    : Script :=
  match cache !! key with
  | Some (Alias r) =>
      {| location := location t; arrays := arrays t; annotations := r;
         allAnnotationsCache := Some cache;
         annotationIdCounter := annotationIdCounter t |}
  | Some (Own l) =>
      let r := length (arrays t) in
      {| location := location t; arrays := arrays t ++ [l]; annotations := r;
         allAnnotationsCache := Some (<[key := Alias r]> cache);
         annotationIdCounter := annotationIdCounter t |}
  | None =>
      {| location := location t; arrays := arrays t ++ [[]];
         annotations := length (arrays t);
         allAnnotationsCache := Some cache;
         annotationIdCounter := annotationIdCounter t |}
  end.

(** [loadAnnotations()], without the rendering of the loaded list. *)
Definition loadAnnotations (io : StorageIO) (t : Script) (s : Storage) : Script * Storage :=
  let pageKey := getPageKey (location t) in
  let legacyKey := pathname (location t) in
  if getFails io then (t, s)
  else
    let cache := Own <$> annotations_or_empty s in
    let t1 := bind_bucket pageKey cache t in
    if Nat.eqb (length (contents t1)) 0
       && negb (String.eqb legacyKey pageKey)
       && bool_decide (is_Some (cache !! legacyKey))
    then
      let t2 := bind_bucket legacyKey (default ∅ (allAnnotationsCache t1)) t1 in
      let c := delete legacyKey
                 (<[pageKey := Alias (annotations t2)]>
                    (default ∅ (allAnnotationsCache t2))) in
      (with_cache (Some c) t2, storage_set io (snapshot t2 c) s)
    else (t1, s).

(** Whether [loadAnnotations] at location [l] moves the bucket of the legacy
    key, given the stored map. *)
Definition migrates (l : Location) (m : gmap string (list Annotation)) : bool :=
  Nat.eqb (length (default [] (m !! getPageKey l))) 0
  && negb (String.eqb (pathname l) (getPageKey l))
  && bool_decide (is_Some (m !! pathname l)).

(** [annotations.push(annotation)]: the array is extended in place. *)
Definition push (a : Annotation) (t : Script) : Script :=
  {| location := location t;
     arrays := alter (fun l => l ++ [a]) (annotations t) (arrays t);
     annotations := annotations t;
     allAnnotationsCache := allAnnotationsCache t;
     annotationIdCounter := annotationIdCounter t |}.

(** The host application changes the URL without reloading the page: the
    script and its variables stay. *)
Definition navigate (l : Location) (t : Script) : Script :=
  {| location := l; arrays := arrays t; annotations := annotations t;
     allAnnotationsCache := allAnnotationsCache t;
     annotationIdCounter := annotationIdCounter t |}.

(** The frame property of one save: every bucket but the current page's is
    the same in storage before and after. *)
Definition save_leaves_other_pages (io : StorageIO) (t : Script) (s : Storage) : Prop :=
  forall k : string,
    k <> getPageKey (location t) ->
    bucket (snd (saveAnnotations io t s)) k = bucket s k.

(** ** Annotation ids *)

(** [generateAnnotationId()]: [Date.now() * 100 + (annotationIdCounter++ % 100)],
    given the clock reading; returns the id and the incremented counter.
    [Z.rem] is JavaScript's [%]. *)
Definition generateAnnotationId (now : Z) (counter : Z) : Z * Z :=
  (now * 100 + Z.rem counter 100, counter + 1).

(** The ids of the calls made in one session, one call per clock reading,
    starting from the given counter. *)
Fixpoint session_ids (counter : Z) (clock : list Z) : list Z :=
  match clock with
  | [] => []
  | now :: later =>
      let '(i, counter') := generateAnnotationId now counter in
      i :: session_ids counter' later
  end.


(** ** Waiting for the capture *)

(** The [message] object of a [screenshotResult] message, as the awaiting
    code reads it: [message.screenshot] and [message.error]. *)
Record ScreenshotResult := { screenshot : option string; error : option string }.

(** A promise returned by [waitForScreenshotOrCancel]: pending, or resolved
    with a result ([None] is [null]). *)
Inductive Promise :=
| Pending
| Resolved (result : option ScreenshotResult).

(** The instruction overlay created for a promise, while it is in the
    document. *)
Record Overlay := { owner : nat; displayed : bool }.

(** The part of the page the handshake touches.  Promises are numbered in
    the order [waitForScreenshotOrCancel] created them; [screenshotResolver]
    holds the number of the promise its closure resolves. *)
Record Page := {
  promises : list Promise;
  screenshotResolver : option nat;
  overlays : list Overlay;
  sidebarOpen : bool;
  requests : list Background.Request
}.

(** Calling [resolve] of promise [p]: a settled promise stays as it is. *)
Definition resolve (p : nat) (v : option ScreenshotResult) (ps : list Promise) : list Promise :=
  match ps !! p with
  | Some Pending => <[p := Resolved v]> ps
  | _ => ps
  end.

(** [overlay.remove()] for the overlay of promise [p]. *)
Definition remove_overlay (p : nat) (os : list Overlay) : list Overlay :=
  filter (fun o => owner o <> p) os.



(** [document.querySelector('.pbi-modal-overlay')] followed by
    [modal.style.display = 'none']: the first overlay of the document. *)
Definition hide_first (os : list Overlay) : list Overlay :=
  match os with
  | o :: rest => {| owner := owner o; displayed := false |} :: rest
  | [] => []
  end.

(** The [chrome.runtime.onMessage] listener of the content script. *)
Definition onMessage (m : Background.TabMessage) (g : Page) : Page :=
  match m with
  | Background.toggleSidebar =>
      {| promises := promises g; screenshotResolver := screenshotResolver g;
         overlays := overlays g; sidebarOpen := negb (sidebarOpen g);
         requests := requests g |}
  | Background.hideForCapture =>
      {| promises := promises g; screenshotResolver := screenshotResolver g;
         overlays := hide_first (overlays g); sidebarOpen := sidebarOpen g;
         requests := requests g |}
  | Background.screenshotResult shot err =>
      match screenshotResolver g with
      | Some p =>
          {| promises := resolve p (Some {| screenshot := shot; error := err |}) (promises g);
             screenshotResolver := None;
             overlays := remove_overlay p (overlays g);
             sidebarOpen := sidebarOpen g;
             requests := requests g |}
      | None => g
      end
  end.









End Content.

(* ===================================================================== *)
(** * Content script: finding and cropping the report canvas              *)
(* ===================================================================== *)

Module Canvas.
Import Dom.
Local Open Scope Q_scope.

(** [canvasSelectors], in the order they are tried. *)
Definition canvasSelectors : list string :=
  [ "div[class*=" +:+ dquote +:+ "explorationContainer" +:+ dquote +:+ "]";
    "div.explorationContainer";
    "visual-container-repeat";
    "explore-canvas-modern";
    "iframe[title*=" +:+ dquote +:+ "Report" +:+ dquote +:+ "]";
    ".reportCanvas";
    ".visualContainer" ].

(** The [for] loop over the selectors: the first element found. *)
Fixpoint first_match (doc : Document) (selectors : list string) : option Element :=
  match selectors with
  | [] => None
  | selector :: rest =>
      match querySelector doc selector with
      | Some element => Some element
      | None => first_match doc rest
      end
  end.

Definition area (e : Element) : Q := width (rect e) * height (rect e).

(** [contentDivs.reduce(...)]: the element of largest area, the earlier one
    on a tie. *)
Definition largest (first : Element) (rest : list Element) : Element :=
  fold_left (fun largest current => if gt (area current) (area largest) then current else largest)
            rest first.

(** [getReportCanvas()] of [src/content/content.js]. *)
Definition getReportCanvas (doc : Document) : option Element :=
  match first_match doc canvasSelectors with
  | Some element => Some element
  | None =>
      let contentDivs :=
        List.filter (fun div => gt (width (rect div)) 800 && gt (height (rect div)) 400)
                    (divs doc) in
      match contentDivs with
      | first :: rest => Some (largest first rest)
      | [] => None
      end
  end.

(** The arguments of the single [drawImage] call and the size given to the
    canvas; the destination rectangle is the whole canvas. *)
Record Crop := {
  canvas_width : Z;
  canvas_height : Z;
  sourceX : Q;
  sourceY : Q;
  sourceWidth : Q;
  sourceHeight : Q
}.

(** What the promise of [cropScreenshotToCanvas] resolves with: the cropped
    image, or the screenshot as it was when it cannot be decoded. *)
Inductive Cropped :=
| CroppedTo (c : Crop)
| Uncropped.

(** [window.devicePixelRatio || 1] *)
Definition dpr_of (w : Window) : Q :=
  if Qeq_bool (devicePixelRatio w) 0 then 1 else devicePixelRatio w.

(** [cropScreenshotToCanvas(screenshotDataUrl, canvasElement)] of
    [src/content/content.js]; [img] is the decoded screenshot, [None] when
    [img.onerror] fires. *)
Definition cropScreenshotToCanvas (w : Window) (img : option Image) (canvasElement : Element)
    : Cropped :=
  match img with
  | None => Uncropped
  | Some img =>
      let rect := rect canvasElement in
      let dpr := dpr_of w in
      let scaleX := image_width img / (innerWidth w * dpr) in
      let scaleY := image_height img / (innerHeight w * dpr) in
      CroppedTo {| canvas_width := to_unsigned_long (width rect * dpr);
                   canvas_height := to_unsigned_long (height rect * dpr);
                   sourceX := left rect * dpr * scaleX;
                   sourceY := top rect * dpr * scaleY;
                   sourceWidth := width rect * dpr * scaleX;
                   sourceHeight := height rect * dpr * scaleY |}
  end.

(** The crop the claim describes: the source rectangle is the target
    rectangle scaled, per axis, by image size over viewport size. *)
Definition scaled_by_image_over_viewport (w : Window) (img : Image) (r : DOMRect) (c : Crop) : Prop :=
  sourceX c == left r * (image_width img / innerWidth w)
  /\ sourceY c == top r * (image_height img / innerHeight w)
  /\ sourceWidth c == width r * (image_width img / innerWidth w)
  /\ sourceHeight c == height r * (image_height img / innerHeight w).

(** The crop of a target that spans the viewport: the whole image, drawn
    from its origin, onto a canvas of the viewport's size times the device
    pixel ratio. *)
Definition whole_image_at_dpr (w : Window) (img : Image) (c : Crop) : Prop :=
  sourceX c == 0 /\ sourceY c == 0
  /\ sourceWidth c == image_width img /\ sourceHeight c == image_height img
  /\ canvas_width c = to_unsigned_long (innerWidth w * dpr_of w)
  /\ canvas_height c = to_unsigned_long (innerHeight w * dpr_of w).

(** An element whose rectangle is the viewport. *)
Definition viewport_element (w : Window) : Element :=
  {| name := "viewport";
     rect := {| left := 0; top := 0; width := innerWidth w; height := innerHeight w |} |}.

End Canvas.

(* ===================================================================== *)
(** * Content script: single-page export ([generatePptx], [generatePdf])  *)
(* ===================================================================== *)

Module PageExport.
Import Dom.
Local Open Scope Q_scope.

(** An element of the [comments] array built in [generatePresentation]. *)
Record Comment := {
  number : nat;
  comment : string;
  date : string;
  tool : string;
  color : string
}.

(** A screenshot whose image has been decoded: the data URL with
    [img.naturalWidth] and [img.naturalHeight]. *)
Record Screenshot := { data : string; naturalWidth : Q; naturalHeight : Q }.

(** The number as the template literals and [String(...)] print it. *)
Definition decimal (n : nat) : string := NilZero.string_of_uint (Nat.to_uint n).

(** The image fitted into a box of the given size, keeping its aspect
    ratio: returns width and height. *)
Definition fit (s : Screenshot) (boxW boxH : Q) : Q * Q :=
  let imgAspect := naturalWidth s / naturalHeight s in
  let boxAspect := boxW / boxH in
  if gt imgAspect boxAspect then (boxW, boxW / imgAspect)
  else (boxH * imgAspect, boxH).

(** ** [generatePptx] *)

(** What is put on a slide; fonts and colours are left out. *)
Inductive SlideItem :=
| TextBox (text : string) (x y w h : Q)
| Picture (data : string) (x y w h : Q)
| NumberBadge (text : string) (x y w h : Q).

Definition Slide := list SlideItem.

Module Pptx.
Definition slideW : Q := 13.33.
Definition slideH : Q := 7.5.
Definition margin : Q := 0.3.
Definition contentW : Q := slideW - margin * 2.
Definition titleH : Q := 0.4.
Definition titleY : Q := margin.
Definition contentY : Q := titleY + titleH + 0.2.
Definition contentH : Q := slideH - contentY - margin.
Definition screenshotW : Q := contentW * 0.80.
Definition commentsW : Q := contentW * 0.18.
Definition gap : Q := contentW - screenshotW - commentsW.
Definition commentsX : Q := margin + screenshotW + gap.
Definition commentsListY : Q := contentY + 0.35.
Definition commentsListH : Q := contentH - 0.35.
Definition commentLineH : Q := 0.28.
(** [Math.floor(commentsListH / commentLineH)] *)
Definition maxCommentsPerSlide : nat := Z.to_nat (Qfloor (commentsListH / commentLineH)).
End Pptx.
Import Pptx.

(** The two text boxes that open an overflow slide. *)
Definition continued_slide (pageName : string) : Slide :=
  [ TextBox (pageName +:+ " (continued)") margin margin contentW titleH;
    TextBox "Comments (continued)" margin contentY contentW 0.3 ].

(** The badge and the text of one comment at height [currentY]. *)
Definition comment_items (c : Comment) (currentY : Q) : Slide :=
  [ NumberBadge (decimal (number c) +:+ "  ") commentsX currentY 0.25 0.25;
    TextBox (comment c) (commentsX + 0.28) currentY (commentsW - 0.28) commentLineH ].

(** The [for] loop over the comments.  [finished] are the slides before the
    current one, [slide] the current slide. *)
Fixpoint pptx_comments (pageName : string) (comments : list Comment)
    (finished : list Slide) (slide : Slide) (currentY : Q) (commentsOnSlide : nat)
    : list Slide :=
  match comments with
  | [] => finished ++ [slide]
  | c :: rest =>
      let '(finished, slide, currentY, commentsOnSlide) :=
        if (maxCommentsPerSlide <=? commentsOnSlide)%nat
        then (finished ++ [slide], continued_slide pageName, commentsListY, 0%nat)
        else (finished, slide, currentY, commentsOnSlide) in
      pptx_comments pageName rest finished (slide ++ comment_items c currentY)
                    (currentY + commentLineH) (S commentsOnSlide)
  end.

(** The first slide up to the comments header. *)
Definition first_slide (screenshot : option Screenshot) (pageName : string) : Slide :=
  [ TextBox pageName margin titleY contentW titleH;
    match screenshot with
    | Some s =>
        let '(imgW, imgH) := fit s screenshotW contentH in
        Picture (data s) margin (contentY + (contentH - imgH) / 2) imgW imgH
    | None => TextBox "Screenshot capture failed" margin contentY screenshotW contentH
    end;
    TextBox "Comments" commentsX contentY commentsW 0.3 ].

(** [generatePptx(screenshot, comments, pageName)]: the slides of the
    presentation that is written to the file. *)
Definition generatePptx (screenshot : option Screenshot) (comments : list Comment)
    (pageName : string) : list Slide :=
  pptx_comments pageName comments [] (first_slide screenshot pageName) commentsListY 0.

(** ** [generatePdf] *)

(** What is drawn on a page of the document; fonts and colours are left out. *)
Inductive PdfItem :=
| Text (lines : list string) (x y : Q)
| CenteredText (text : string) (x y : Q)
| PdfImage (data : string) (x y w h : Q)
| Circle (x y r : Q).

Definition PdfPage := list PdfItem.

Module Pdf.
Definition pageW : Z := 297.
Definition pageH : Z := 210.
Definition margin : Z := 10.
Definition contentW : Z := (pageW - margin * 2)%Z.
Definition titleH : Z := 12.
Definition contentY : Z := (margin + titleH + 5)%Z.
Definition contentH : Z := (pageH - contentY - margin)%Z.
Definition screenshotW : Q := inject_Z contentW * 0.75.
Definition commentsW : Q := inject_Z contentW * 0.25.
Definition gap : Q := 5.
Definition commentsX : Q := inject_Z margin + screenshotW + gap.
Definition lineHeight : Z := 8.
Definition badgeRadius : Q := 3.
Definition textX : Q := commentsX + badgeRadius * 2 + 3.
Definition maxWidth : Q := commentsW - (badgeRadius * 2 + 3) - 2.
End Pdf.

Section Renderer.

(** [doc.getTextWidth] and [doc.splitTextToSize] of the PDF library. *)
Variable getTextWidth : string -> Q.
Variable splitTextToSize : string -> Q -> list string.

(** The header that opens an overflow page, and the cursor below it. *)
Definition continued_page : PdfPage :=
  [ Text ["Comments (continued)"] (inject_Z Pdf.margin) (inject_Z (Pdf.margin + 10)) ].

(** The badge, its number and the wrapped text of one comment at [currentY]. *)
Definition pdf_comment_items (c : Comment) (currentY : Z) : PdfPage :=
  [ Circle (Pdf.commentsX + Pdf.badgeRadius) (inject_Z (currentY - 1)) Pdf.badgeRadius;
    CenteredText (decimal (number c)) (Pdf.commentsX + Pdf.badgeRadius) (inject_Z (currentY + 1));
    Text (splitTextToSize (comment c) Pdf.maxWidth) Pdf.textX (inject_Z (currentY + 1)) ].

(** The [for] loop over the comments.  [finished] are the pages before the
    current one, [page] the current page; the cursor only takes whole values. *)
Fixpoint pdf_comments (comments : list Comment) (finished : list PdfPage) (page : PdfPage)
    (currentY : Z) : list PdfPage :=
  match comments with
  | [] => finished ++ [page]
  | c :: rest =>
      let '(finished, page, currentY) :=
        if (Pdf.pageH - Pdf.margin <? currentY + Pdf.lineHeight)%Z
        then (finished ++ [page], continued_page, (Pdf.margin + 10 + 10)%Z)
        else (finished, page, currentY) in
      let lines := splitTextToSize (comment c) Pdf.maxWidth in
      pdf_comments rest finished (page ++ pdf_comment_items c currentY)
                   (currentY + Z.max Pdf.lineHeight (Z.of_nat (length lines) * 4))%Z
  end.

(** The first page up to the comments header. *)
Definition first_page (screenshot : option Screenshot) (comments : list Comment)
    (pageName : string) : PdfPage :=
  let annotationText :=
    decimal (length comments) +:+ " Annotation"
      +:+ (if (1 <? length comments)%nat then "s" else "") in
  [ Text [pageName] (inject_Z Pdf.margin) (inject_Z (Pdf.margin + 8));
    Text [annotationText]
         (inject_Z Pdf.pageW - inject_Z Pdf.margin - getTextWidth annotationText)
         (inject_Z (Pdf.margin + 8));
    match screenshot with
    | Some s =>
        let '(imgW, imgH) := fit s Pdf.screenshotW (inject_Z Pdf.contentH) in
        PdfImage (data s) (inject_Z Pdf.margin)
                 (inject_Z Pdf.contentY + (inject_Z Pdf.contentH - imgH) / 2) imgW imgH
    | None =>
        CenteredText "Screenshot capture failed"
                     (inject_Z Pdf.margin + Pdf.screenshotW / 2)
                     (inject_Z Pdf.contentY + inject_Z Pdf.contentH / 2)
    end;
    Text ["Comments"] Pdf.commentsX (inject_Z (Pdf.contentY + 5)) ].

(** [generatePdf(screenshot, comments, pageName)]: the pages of the
    document that is saved. *)
Definition generatePdf (screenshot : option Screenshot) (comments : list Comment)
    (pageName : string) : list PdfPage :=
  pdf_comments comments [] (first_page screenshot comments pageName) (Pdf.contentY + 12)%Z.

(** Every comment fits on one line. *)
Definition one_line_each (comments : list Comment) : Prop :=
  Forall (fun c => length (splitTextToSize (comment c) Pdf.maxWidth) = 1%nat) comments.

End Renderer.

(** A slide that opens as an overflow slide does: the repeated title with
    its suffix, the repeated header, and a first comment at the top of the
    comment column. *)
Definition opens_continued_slide (pageName : string) (s : Slide) : Prop :=
  exists c rest,
    s = continued_slide pageName ++ comment_items c Pptx.commentsListY ++ rest.

(** A page that opens as an overflow page does: the header at height 20 and
    a first comment at height 30. *)
Definition opens_continued_page (splitTextToSize : string -> Q -> list string)
    (p : PdfPage) : Prop :=
  exists c rest,
    p = continued_page ++ pdf_comment_items splitTextToSize c 30 ++ rest.

(** [ceil(n / m)] for natural numbers. *)
Definition ceil_div (n m : nat) : nat := ((n + m - 1) / m)%nat.

(** The height of the comment column on the first page of the PDF, between
    the first row at [contentY + 12] and the limit [pageH - margin], and on
    an overflow page, below its header. *)
Definition pdf_first_column : Z := (Pdf.pageH - Pdf.margin - (Pdf.contentY + 12))%Z.
Definition pdf_next_column : Z := (Pdf.pageH - Pdf.margin - (Pdf.margin + 10 + 10))%Z.

(** [n] comments numbered from 1, each with a one-word text. *)
Definition short_comments (n : nat) : list Comment :=
  map (fun i => {| number := i; comment := "ok"; date := "5/1/2024";
                   tool := "rectangle"; color := "#0078d4" |})
      (seq 1 n).

End PageExport.

(* ===================================================================== *)
(** * Content script, later revision (the [content.js] carried in
      [REVIEW.md]): canvas lookup, crop, screenshot cache, CSV rows       *)
(* ===================================================================== *)

Module Revised.
Import Dom.

(** [getReportCanvas()]: the selector list is the one of [Canvas]; nothing
    follows the loop but [return null]. *)
Definition getReportCanvas (doc : Document) : option Element :=
  Canvas.first_match doc Canvas.canvasSelectors.

(** [cropScreenshotToCanvas(screenshotDataUrl, canvasElement)] *)
Definition cropScreenshotToCanvas (w : Window) (img : option Image) (canvasElement : Element)
    : Canvas.Cropped :=
  match img with
  | None => Canvas.Uncropped
  | Some img =>
      let rect := rect canvasElement in
      let dpr := Canvas.dpr_of w in
      let scaleX := (image_width img / innerWidth w)%Q in
      let scaleY := (image_height img / innerHeight w)%Q in
      Canvas.CroppedTo
        {| Canvas.canvas_width := to_unsigned_long (width rect * dpr);
           Canvas.canvas_height := to_unsigned_long (height rect * dpr);
           Canvas.sourceX := (left rect * scaleX)%Q;
           Canvas.sourceY := (top rect * scaleY)%Q;
           Canvas.sourceWidth := (width rect * scaleX)%Q;
           Canvas.sourceHeight := (height rect * scaleY)%Q |}
  end.

(** ** Page changes *)

(** [onPageChanged(oldKey, newKey)], called by the navigation watcher once
    [getPageKey()] differs from [lastPageKey], so [location t] is already
    the new page.  [saveAnnotations] of this revision is the one of
    [Content].  Only the case of a loaded cache is described (with the cache
    still [null] the save is asynchronous); the DOM updates and the
    screenshot caching are left out.  [oldKey] is only used for the
    screenshot. *)
Definition onPageChanged (io : Content.StorageIO) (oldKey newKey : string)
    (t : Content.Script) (s : Content.Storage) : option (Content.Script * Content.Storage) :=
  match Content.allAnnotationsCache t with
  | Some _ =>
      let '(t1, s1) := Content.saveAnnotations io t s in
      Some (Content.bind_bucket newKey (default ∅ (Content.allAnnotationsCache t1)) t1, s1)
  | None => None
  end.

(** ** The screenshot cache *)

(** [screenshotCache], a JavaScript object from page key to data URL.  Its
    entries are kept in insertion order, which is the order of
    [Object.keys] for keys that are not array indices; page keys start
    with ["/"]. *)
Definition ScreenshotCache := list (string * string).

(** [cache[key]] *)
Fixpoint cache_get (key : string) (c : ScreenshotCache) : option string :=
  match c with
  | [] => None
  | (k, v) :: rest => if String.eqb k key then Some v else cache_get key rest
  end.

(** [cache[key] = image]: an existing key keeps its place, a new key goes
    last. *)
Fixpoint cache_set (key image : string) (c : ScreenshotCache) : ScreenshotCache :=
  match c with
  | [] => [(key, image)]
  | (k, v) :: rest =>
      if String.eqb k key then (k, image) :: rest else (k, v) :: cache_set key image rest
  end.

(** [delete cache[key]] *)
Definition cache_delete (key : string) (c : ScreenshotCache) : ScreenshotCache :=
  List.filter (fun e => negb (String.eqb (fst e) key)) c.

(** [Object.keys(cache)] *)
Definition keys (c : ScreenshotCache) : list string := map fst c.

(** The module variable and the copy under ["screenshotCache"] in
    [chrome.storage.local]. *)
Record Screenshots := {
  screenshotCache : ScreenshotCache;
  stored_screenshotCache : option ScreenshotCache
}.

(** How [chrome.runtime.sendMessage({ action: 'captureForCache' })] ends:
    it throws, its callback sees [chrome.runtime.lastError], or the worker
    replied with [response.screenshot]. *)
Inductive CacheReply :=
| Threw
| LastError
| Replied (screenshot : option string).

(** JavaScript truthiness of a string or [null]. *)
Definition truthy (s : option string) : bool :=
  match s with
  | Some v => negb (String.eqb v "")
  | None => false
  end.

(** [chrome.storage.local.set({ screenshotCache })]; a failure is not looked at. *)
Definition persist (setFails : bool) (c : ScreenshotCache) (st : Screenshots) : Screenshots :=
  {| screenshotCache := c;
     stored_screenshotCache := if setFails then stored_screenshotCache st else Some c |}.

(** [cacheCurrentScreenshot(pageKey)]: [current] is [getPageKey()],
    [allAnnotationsCache] the annotation cache ([None] for [null]). *)
Definition cacheCurrentScreenshot (pageKey current : string)
    (allAnnotationsCache : option (gmap string (list Content.Annotation)))
    (reply : CacheReply) (setFails : bool) (st : Screenshots) : Screenshots :=
  let key := if String.eqb pageKey "" then current else pageKey in
  let nothing_to_show :=
    match allAnnotationsCache with
    | Some cache =>
        match cache !! key with
        | Some l => Nat.eqb (length l) 0
        | None => true
        end
    | None => false
    end in
  if nothing_to_show then st
  else
    match reply with
    | Replied shot =>
        if truthy shot then
          let c1 := cache_set key (default "" shot) (screenshotCache st) in
          let c2 :=
            if (20 <? length (keys c1))%nat then
              match keys c1 with
              | oldest :: _ => cache_delete oldest c1
              | [] => c1
              end
            else c1 in
          persist setFails c2 st
        else st
    | _ => st
    end.

(** The cache update inside [generateMultiPagePresentation], after the
    capture for the current page:
    [if (currentScreenshot) { screenshotCache[currentKey] = currentScreenshot;
    chrome.storage.local.set({ screenshotCache }); }]. *)
Definition generateMultiPagePresentation_cache (currentKey : string)
    (currentScreenshot : option string) (setFails : bool) (st : Screenshots) : Screenshots :=
  if truthy currentScreenshot then
    persist setFails (cache_set currentKey (default "" currentScreenshot) (screenshotCache st)) st
  else st.

(** ** CSV rows *)

(** One element of the [pages] array handed to [buildCsvRows]. *)
Record Page := { name : string; annotations : list Content.Annotation }.

(** A cell of a row: the running number, or a string. *)
Inductive Cell :=
| Num (n : nat)
| Str (s : string).

(** [String(cell)] *)
Definition String_of (c : Cell) : string :=
  match c with
  | Num n => NilZero.string_of_uint (Nat.to_uint n)
  | Str s => s
  end.

Definition quote_char : ascii := ascii_of_nat 34.
Definition comma_char : ascii := ascii_of_nat 44.
Definition newline_char : ascii := ascii_of_nat 10.

(** [s.includes(c)] for a one-character [c]. *)
Fixpoint includes (c : ascii) (s : string) : bool :=
  match s with
  | EmptyString => false
  | String a rest => Ascii.eqb a c || includes c rest
  end.

(** [s.replace] with the global pattern for a double quote and two double
    quotes as the replacement. *)
Fixpoint double_quotes (s : string) : string :=
  match s with
  | EmptyString => EmptyString
  | String a rest =>
      if Ascii.eqb a quote_char then String quote_char (String quote_char (double_quotes rest))
      else String a (double_quotes rest)
  end.

(** The function mapped over the cells of a row. *)
Definition csvCell (cell : Cell) : string :=
  let cellStr := String_of cell in
  if includes comma_char cellStr || includes quote_char cellStr || includes newline_char cellStr
  then String quote_char (double_quotes cellStr +:+ String quote_char EmptyString)
  else cellStr.

Definition headers : list string := ["No"; "Page Name"; "Date"; "Comment"].

Section BuildCsvRows.

(** [new Date(timestamp).toLocaleDateString()], which depends on the
    browser's locale. *)
Variable toLocaleDateString : string -> string.

(** The body of the inner loop: push one row, then [globalNumber++]. *)
Definition push_row (page : Page) (st : list (list Cell) * nat) (annotation : Content.Annotation)
    : list (list Cell) * nat :=
  let '(allRows, globalNumber) := st in
  (allRows ++ [[Num globalNumber; Str (name page);
                Str (toLocaleDateString (Content.timestamp annotation));
                Str (Content.comment annotation)]],
   S globalNumber).

(** The two nested [for] loops; [allRows] starts empty and [globalNumber] at 1. *)
Definition allRows (pages : list Page) : list (list Cell) :=
  fst (fold_left (fun st page => fold_left (push_row page) (annotations page) st)
                 pages ([], 1%nat)).

(** [buildCsvRows(pages)] *)
Definition buildCsvRows (pages : list Page) : string :=
  String.concat (String newline_char EmptyString)
    (String.concat "," headers
     :: map (fun row => String.concat "," (map csvCell row)) (allRows pages)).

End BuildCsvRows.

(** The rows as the claim describes them: the annotations of all pages, page
    by page in the order they are stored, each with its page's name, numbered
    from 1. *)
Definition flattened (pages : list Page) : list (Page * Content.Annotation) :=
  flat_map (fun page => map (pair page) (annotations page)) pages.

(** The row of an annotation of a page that is given the number [n]. *)
Definition row_at (toLocaleDateString : string -> string) (n : nat)
    (pa : Page * Content.Annotation) : list Cell :=
  [Num n; Str (name (fst pa));
   Str (toLocaleDateString (Content.timestamp (snd pa)));
   Str (Content.comment (snd pa))].

Definition numbered_rows (toLocaleDateString : string -> string) (pages : list Page)
    : list (list Cell) :=
  imap (fun i pa => row_at toLocaleDateString (S i) pa) (flattened pages).

(** A character of the cell text is a comma, a double quote or a newline. *)
Definition has_special (s : string) : Prop :=
  In comma_char (list_ascii_of_string s)
  \/ In quote_char (list_ascii_of_string s)
  \/ In newline_char (list_ascii_of_string s).

End Revised.


(* ===================================================================== *)
(** * Content script: drawing an annotation
      ([handleMouseDown], [handleMouseMove], [updateAnnotationVisual],
      [handleMouseUp], [createAnnotationElement] of [src/content/content.js]) *)
(* ===================================================================== *)

Module Drawing.
Import Content.
Local Open Scope Q_scope.

(** [a < b] on numbers. *)
Definition lt (a b : Q) : bool := Dom.gt b a.

(** The coordinates a mouse handler reads from its event. *)
Record MouseEvent := { pageX : Q; pageY : Q }.

Definition point (e : MouseEvent) : Point := {| px := pageX e; py := pageY e |}.

Record Segment := { x1 : Q; y1 : Q; x2 : Q; y2 : Q }.

(** What is drawn inside an annotation box.  A rectangle has no [svg]
    child, the border of the box is the drawing.  The head of an arrow is
    computed from the end points of its shaft alone and is left out.  A
    freehand path is the list of its points, relative to the box: the first
    is moved to, the others are joined by lines. *)
Inductive Shape :=
| Border
| Arrow (shaft : Segment)
| Line (segment : Segment)
| Ellipse (cx cy rx ry : Q)
| Path (d : list Point).

(** [style.left], [style.top], [style.width] and [style.height] of a box,
    in pixels; [None] while a size has not been assigned. *)
Record Style := {
  style_left : Q;
  style_top : Q;
  style_width : option Q;
  style_height : option Q
}.

(** The end points both [updateAnnotationVisual] and the line element use
    for a drag of signed extent [width] by [height]. *)
Definition drag_segment (width height : Q) : Segment :=
  let absWidth := Qabs width in
  let absHeight := Qabs height in
  {| x1 := if lt width 0 then absWidth else 0;
     y1 := if lt height 0 then absHeight else 0;
     x2 := if lt width 0 then 0 else absWidth;
     y2 := if lt height 0 then 0 else absHeight |}.

(** [updateAnnotationVisual(element, width, height)]: the drawing that
    replaces the one the element had. *)
Definition updateAnnotationVisual (currentDrawingTool : string) (width height : Q) : Shape :=
  let absWidth := Qabs width in
  let absHeight := Qabs height in
  if bool_decide (currentDrawingTool = "arrow") then Arrow (drag_segment width height)
  else if bool_decide (currentDrawingTool = "line") then Line (drag_segment width height)
  else if bool_decide (currentDrawingTool = "circle") then
    Ellipse (absWidth / 2) (absHeight / 2) (absWidth / 2) (absHeight / 2)
  else Border.

(** The box of [handleMouseMove] for the tools other than freehand. *)
Definition drag_style (startX startY : Q) (e : MouseEvent) : Style :=
  let width := pageX e - startX in
  let height := pageY e - startY in
  {| style_width := Some (Qabs width);
     style_height := Some (Qabs height);
     style_left := if lt width 0 then pageX e else startX;
     style_top := if lt height 0 then pageY e else startY |}.

(** [Math.min(x, ...xs)] and [Math.max(x, ...xs)]. *)
Definition Math_min (x : Q) (xs : list Q) : Q := fold_left Qmin xs x.
Definition Math_max (x : Q) (xs : list Q) : Q := fold_left Qmax xs x.

Record Bounds := { minX : Q; minY : Q; maxX : Q; maxY : Q }.

(** The bounds of a list of points; [None] for the empty list, where
    [Math.min()] is [Infinity]. *)
Definition bounds (points : list Point) : option Bounds :=
  match points with
  | [] => None
  | p :: ps =>
      Some {| minX := Math_min (px p) (map px ps); minY := Math_min (py p) (map py ps);
              maxX := Math_max (px p) (map px ps); maxY := Math_max (py p) (map py ps) |}
  end.

(** The path data: every point relative to the corner [(minX, minY)]. *)
Definition pathData (minX minY : Q) (points : list Point) : list Point :=
  map (fun p => {| px := px p - minX; py := py p - minY |}) points.

(** The box and the path of [handleMouseMove] for the freehand tool, from
    the points recorded so far. *)
Definition freehand_style (b : Bounds) : Style :=
  {| style_left := minX b; style_top := minY b;
     style_width := Some (maxX b - minX b); style_height := Some (maxY b - minY b) |}.

Definition freehand_path (b : Bounds) (points : list Point) : Shape :=
  Path (pathData (minX b) (minY b) points).

(** [parseInt(style.left)] of a length printed in pixels: the fraction is
    dropped (page coordinates are printed in plain decimal notation). *)
Definition parseInt (q : Q) : Z := Z.quot (Qnum q) (Zpos (Qden q)).

(** [annotation.tool || 'rectangle'] *)
Definition tool_or_rectangle (a : Annotation) : string :=
  if bool_decide (tool a = "") then "rectangle" else tool a.

(** [getDirection()] of [createAnnotationElement].  The stored points are
    absent in annotations saved by versions that did not record them. *)
Definition getDirection (startPoint endPoint : option Point) (width height : Q) : Segment :=
  match startPoint, endPoint with
  | Some s, Some e =>
      {| x1 := if Qle_bool (px s) (px e) then 0 else width;
         y1 := if Qle_bool (py s) (py e) then 0 else height;
         x2 := if Qle_bool (px s) (px e) then width else 0;
         y2 := if Qle_bool (py s) (py e) then height else 0 |}
  | _, _ => {| x1 := 0; y1 := 0; x2 := width; y2 := height |}
  end.

(** The drawing [createAnnotationElement] puts into the box of a stored
    annotation.  An [Annotation] record carries both points, as every
    annotation built by [handleMouseUp] does. *)
Definition stored_shape (a : Annotation) : Shape :=
  let tool := tool_or_rectangle a in
  let dir := getDirection (Some (startPoint a)) (Some (endPoint a)) (width a) (height a) in
  match bool_decide (tool = "freehand"), freehandPath a with
  | true, Some points =>
      match bounds points with
      | Some b => Path (pathData (minX b) (minY b) points)
      | None => Path []
      end
  | _, _ =>
      if bool_decide (tool = "arrow") then Arrow dir
      else if bool_decide (tool = "line") then Line dir
      else if bool_decide (tool = "circle") then
        Ellipse (width a / 2) (height a / 2) (width a / 2) (height a / 2)
      else Border
  end.

Definition stored_style (a : Annotation) : Style :=
  {| style_left := inject_Z (x a); style_top := inject_Z (y a);
     style_width := Some (width a); style_height := Some (height a) |}.

(** The annotation object built in [handleMouseUp]. *)
Definition new_annotation (id : Z) (style : Style) (rect_width rect_height : Q)
    (comment timestamp href toolUsed colorUsed : string)
    (capturedFreehandPoints : option (list Point))
    (drawStartX drawStartY drawEndX drawEndY : Q) : Annotation :=
  {| Content.id := id;
     x := parseInt (style_left style);
     y := parseInt (style_top style);
     width := rect_width;
     height := rect_height;
     comment := comment;
     timestamp := timestamp;
     url := href;
     tool := toolUsed;
     color := colorUsed;
     freehandPath := capturedFreehandPoints;
     startPoint := {| px := drawStartX; py := drawStartY |};
     endPoint := {| px := drawEndX; py := drawEndY |} |}.

End Drawing.

(* ===================================================================== *)
(** * Content script: the annotation boxes on the page and the list
      ([handleMouseDown] ... [handleMouseUp], [renumberAnnotations],
      [deleteAnnotation], [clearAllAnnotations], [renderComments],
      [showAnnotationComment], the rendering of [loadAnnotations])        *)
(* ===================================================================== *)

Module Annotate.
Import Content Drawing.

(** A [.pbi-annotation-box] element: its identity, whether it is in the
    document, [dataset.id], its style and drawing, and the text of its
    [.pbi-annotation-number] child, if it has one. *)
Record Box := {
  node : nat;
  attached : bool;
  dataset_id : option Z;
  style : Style;
  shape : Shape;
  number : option nat
}.

(** The module variables of the drawing code. *)
Record Pen := {
  isAnnotationMode : bool;
  currentDrawingTool : string;
  currentColor : string;
  currentAnnotation : option nat;
  startX : Q;
  startY : Q;
  freehandPoints : list Point
}.

(** The script with the annotation boxes it has created, in the order in
    which they were appended to the body. *)
Record View := {
  script : Script;
  boxes : list Box;
  pen : Pen
}.

Definition with_boxes (bs : list Box) (v : View) : View :=
  {| script := script v; boxes := bs; pen := pen v |}.

Definition with_number (n : option nat) (b : Box) : Box :=
  {| node := node b; attached := attached b; dataset_id := dataset_id b;
     style := style b; shape := shape b; number := n |}.

Definition with_drawing (st : Style) (sh : Shape) (b : Box) : Box :=
  {| node := node b; attached := attached b; dataset_id := dataset_id b;
     style := st; shape := sh; number := number b |}.

(** [element.remove()] *)
Definition detach (b : Box) : Box :=
  {| node := node b; attached := false; dataset_id := dataset_id b;
     style := style b; shape := shape b; number := number b |}.

(** Apply [f] to the first box that satisfies [P]. *)
Fixpoint update_first (P : Box -> bool) (f : Box -> Box) (bs : list Box) : list Box :=
  match bs with
  | [] => []
  | b :: rest => if P b then f b :: rest else b :: update_first P f rest
  end.

(** The element a variable refers to. *)
Definition is_node (n : nat) (b : Box) : bool := Nat.eqb (node b) n.

(** The selector [.pbi-annotation-box[data-id=...]] with the given id. *)
Definition has_id (i : Z) (b : Box) : bool :=
  attached b && bool_decide (dataset_id b = Some i).

Definition querySelector (i : Z) (bs : list Box) : option Box := find (has_id i) bs.

(** The id under which a box can be found in the document. *)
Definition page_id (b : Box) : option Z := if attached b then dataset_id b else None.

(** The badge shown on the page for an annotation id: [None] when no box
    or no badge is found. *)
Definition badge (i : Z) (bs : list Box) : option nat :=
  match querySelector i bs with
  | Some b => number b
  | None => None
  end.

(** ** Mode, tool and colour *)

Definition with_pen (p : Pen) (v : View) : View :=
  {| script := script v; boxes := boxes v; pen := p |}.

(** [toggleAnnotationMode()], without the texts of the sidebar. *)
Definition toggleAnnotationMode (v : View) : View :=
  with_pen {| isAnnotationMode := negb (isAnnotationMode (pen v));
              currentDrawingTool := currentDrawingTool (pen v);
              currentColor := currentColor (pen v);
              currentAnnotation := currentAnnotation (pen v);
              startX := startX (pen v); startY := startY (pen v);
              freehandPoints := freehandPoints (pen v) |} v.

(** [selectDrawingTool(tool)] *)
Definition selectDrawingTool (tool : string) (v : View) : View :=
  with_pen {| isAnnotationMode := isAnnotationMode (pen v);
              currentDrawingTool := tool;
              currentColor := currentColor (pen v);
              currentAnnotation := currentAnnotation (pen v);
              startX := startX (pen v); startY := startY (pen v);
              freehandPoints := freehandPoints (pen v) |} v.

(** The [change] listener of the colour picker. *)
Definition pickColor (color : string) (v : View) : View :=
  with_pen {| isAnnotationMode := isAnnotationMode (pen v);
              currentDrawingTool := currentDrawingTool (pen v);
              currentColor := color;
              currentAnnotation := currentAnnotation (pen v);
              startX := startX (pen v); startY := startY (pen v);
              freehandPoints := freehandPoints (pen v) |} v.

(** ** Drawing *)

(** [handleMouseDown(e)]; [insideUi] tells whether the target lies in the
    sidebar, the toolbar or a modal. *)
Definition handleMouseDown (e : MouseEvent) (insideUi : bool) (v : View) : View :=
  if negb (isAnnotationMode (pen v)) then v
  else if insideUi then v
  else
    let freehand := bool_decide (currentDrawingTool (pen v) = "freehand") in
    let box :=
      {| node := length (boxes v); attached := true; dataset_id := None;
         style := {| style_left := pageX e; style_top := pageY e;
                     style_width := if freehand then None else Some 0%Q;
                     style_height := if freehand then None else Some 0%Q |};
         shape := if freehand then Path [] else Border;
         number := None |} in
    {| script := script v;
       boxes := boxes v ++ [box];
       pen := {| isAnnotationMode := true;
                 currentDrawingTool := currentDrawingTool (pen v);
                 currentColor := currentColor (pen v);
                 currentAnnotation := Some (length (boxes v));
                 startX := pageX e;
                 startY := pageY e;
                 freehandPoints := if freehand then [point e] else freehandPoints (pen v) |} |}.

Definition with_points (points : list Point) (p : Pen) : Pen :=
  {| isAnnotationMode := isAnnotationMode p;
     currentDrawingTool := currentDrawingTool p;
     currentColor := currentColor p;
     currentAnnotation := currentAnnotation p;
     startX := startX p; startY := startY p;
     freehandPoints := points |}.

(** The freehand branch of [handleMouseMove] on the element: an element
    without an [svg] makes the handler throw before it is touched, one whose
    [svg] has no [path] after its style has been set. *)
Definition freehand_move (b : Bounds) (points : list Point) (box : Box) : Box :=
  match shape box with
  | Border => box
  | Line _ | Ellipse _ _ _ _ => with_drawing (freehand_style b) (shape box) box
  | Arrow _ | Path _ => with_drawing (freehand_style b) (freehand_path b points) box
  end.

(** [handleMouseMove(e)] *)
Definition handleMouseMove (e : MouseEvent) (v : View) : View :=
  match currentAnnotation (pen v) with
  | None => v
  | Some n =>
      let width := (pageX e - startX (pen v))%Q in
      let height := (pageY e - startY (pen v))%Q in
      if bool_decide (currentDrawingTool (pen v) = "freehand") then
        let points := freehandPoints (pen v) ++ [point e] in
        match bounds points with
        | None => v
        | Some b =>
            {| script := script v;
               boxes := update_first (is_node n) (freehand_move b points) (boxes v);
               pen := with_points points (pen v) |}
        end
      else
        with_boxes
          (update_first (is_node n)
             (with_drawing (drag_style (startX (pen v)) (startY (pen v)) e)
                           (updateAnnotationVisual (currentDrawingTool (pen v)) width height))
             (boxes v))
          v
  end.

(** What the continuation of [handleMouseUp] has captured when the prompt
    opens; [rect] is the size [getBoundingClientRect] gave. *)
Record Pending := {
  finishedAnnotation : nat;
  drawStartX : Q;
  drawStartY : Q;
  drawEndX : Q;
  drawEndY : Q;
  toolUsed : string;
  colorUsed : string;
  capturedFreehandPoints : option (list Point);
  rect_width : Q;
  rect_height : Q
}.

Definition with_current (c : option nat) (p : Pen) : Pen :=
  {| isAnnotationMode := isAnnotationMode p;
     currentDrawingTool := currentDrawingTool p;
     currentColor := currentColor p;
     currentAnnotation := c;
     startX := startX p; startY := startY p;
     freehandPoints := freehandPoints p |}.

(** [handleMouseUp(e)] up to the prompt: [None] when there is nothing to
    finish or the box is smaller than 10 pixels and is removed. *)
Definition handleMouseUp (e : MouseEvent) (rect_width rect_height : Q) (v : View)
    : View * option Pending :=
  match currentAnnotation (pen v) with
  | None => (v, None)
  | Some n =>
      let p := {| finishedAnnotation := n;
                  drawStartX := startX (pen v); drawStartY := startY (pen v);
                  drawEndX := pageX e; drawEndY := pageY e;
                  toolUsed := currentDrawingTool (pen v);
                  colorUsed := currentColor (pen v);
                  capturedFreehandPoints :=
                    if bool_decide (currentDrawingTool (pen v) = "freehand")
                    then Some (freehandPoints (pen v)) else None;
                  rect_width := rect_width; rect_height := rect_height |} in
      let v1 := {| script := script v; boxes := boxes v;
                   pen := with_current None (pen v) |} in
      if lt rect_width 10 || lt rect_height 10
      then (with_boxes (update_first (is_node n) detach (boxes v)) v1, None)
      else (v1, Some p)
  end.

Definition with_counter (c : Z) (t : Script) : Script :=
  {| location := location t; arrays := arrays t; annotations := annotations t;
     allAnnotationsCache := allAnnotationsCache t; annotationIdCounter := c |}.

(** The finished box once its annotation is stored: it gets the id and a
    badge; a rectangle loses what it contained. *)
Definition finish (i : Z) (toolUsed : string) (count : nat) (b : Box) : Box :=
  {| node := node b; attached := attached b; dataset_id := Some i;
     style := style b;
     shape := if bool_decide (toolUsed = "rectangle") then Border else shape b;
     number := Some count |}.

Section Prompt.

(** [String.prototype.trim] *)
Variable trim : string -> string.

(** Whether [comment && comment.trim()] holds; [None] is [null]. *)
Definition accepted (comment : option string) : bool :=
  match comment with
  | Some c => negb (bool_decide (c = "")) && negb (bool_decide (trim c = ""))
  | None => false
  end.

(** [handleMouseUp] from the answer of the prompt on: [now] is [Date.now()],
    [iso] the time printed by [toISOString], [href] the address of the
    page.  The save at its end is the call [Content.saveAnnotations]: while
    the cache is still [null] it stores nothing in this step and only issues
    the read [Content.saveAnnotations_issues], whose callback
    [Content.saveAnnotations_read] is a later step of its own. *)
Definition promptAnswered (io : StorageIO) (now : Z) (iso href : string) (p : Pending)
    (comment : option string) (v : View) (s : Storage) : View * Storage :=
  match find (is_node (finishedAnnotation p)) (boxes v) with
  | None => (v, s)
  | Some element =>
      if accepted comment then
        let '(i, counter) := generateAnnotationId now (annotationIdCounter (script v)) in
        let annotation :=
          new_annotation i (style element) (rect_width p) (rect_height p)
            (trim (default "" comment)) iso href (toolUsed p) (colorUsed p)
            (capturedFreehandPoints p)
            (drawStartX p) (drawStartY p) (drawEndX p) (drawEndY p) in
        let t := push annotation (with_counter counter (script v)) in
        let '(t', s') := saveAnnotations io t s in
        ({| script := t';
            boxes := update_first (is_node (finishedAnnotation p))
                       (finish i (toolUsed p) (length (contents t))) (boxes v);
            pen := pen v |}, s')
      else
        (with_boxes (update_first (is_node (finishedAnnotation p)) detach (boxes v)) v, s)
  end.

(** [handleMouseUp(e)] run to its end, the prompt being answered with
    [comment] and nothing else happening meanwhile. *)
Definition finishDrag (io : StorageIO) (now : Z) (iso href : string) (e : MouseEvent)
    (rect_width rect_height : Q) (comment : option string) (v : View) (s : Storage)
    : View * Storage :=
  let '(v1, pending) := handleMouseUp e rect_width rect_height v in
  match pending with
  | Some p => promptAnswered io now iso href p comment v1 s
  | None => (v1, s)
  end.

End Prompt.

(** ** Stored annotations on the page *)

(** [createAnnotationElement(annotation, number)]; [n] is the identity of
    the new element. *)
Definition createAnnotationElement (annotation : Annotation) (number : nat) (n : nat) : Box :=
  {| node := n; attached := false; dataset_id := Some (Content.id annotation);
     style := stored_style annotation;
     shape := stored_shape annotation;
     number := Some number |}.

(** [document.body.appendChild(box)] *)
Definition appendChild (b : Box) (bs : list Box) : list Box :=
  bs ++ [{| node := node b; attached := true; dataset_id := dataset_id b;
            style := style b; shape := shape b; number := number b |}].

(** The loop that ends [loadAnnotations]: one box per annotation, numbered
    from [index + 1]. *)
Fixpoint render (index : nat) (annotations : list Annotation) (bs : list Box) : list Box :=
  match annotations with
  | [] => bs
  | a :: rest =>
      render (S index) rest (appendChild (createAnnotationElement a (S index) (length bs)) bs)
  end.

(** [loadAnnotations()] with its rendering. *)
Definition loadAnnotations (io : StorageIO) (v : View) (s : Storage) : View * Storage :=
  if getFails io then (v, s)
  else
    let '(t, s') := Content.loadAnnotations io (script v) s in
    ({| script := t; boxes := render 0 (contents t) (boxes v); pen := pen v |}, s').

(** The rows of the sidebar list built by [renderComments]: the number
    shown, the annotation id the buttons carry, and the comment. *)
Record Item := { item_number : nat; item_id : Z; item_text : string }.

Definition renderComments (annotations : list Annotation) : list Item :=
  imap (fun index a => {| item_number := S index; item_id := Content.id a;
                          item_text := comment a |}) annotations.

(** [showAnnotationComment(id)]: the number and the text the modal shows. *)
Fixpoint indexOf (i : Z) (annotations : list Annotation) : option (nat * Annotation) :=
  match annotations with
  | [] => None
  | a :: rest =>
      if Z.eqb (Content.id a) i then Some (0%nat, a)
      else match indexOf i rest with
           | Some (k, found) => Some (S k, found)
           | None => None
           end
  end.

Definition showAnnotationComment (i : Z) (annotations : list Annotation)
    : option (nat * string) :=
  match indexOf i annotations with
  | Some (k, a) => Some (S k, comment a)
  | None => None
  end.

(** [renumberAnnotations()], from [index] on. *)
Definition set_badge (n : nat) (b : Box) : Box :=
  match number b with
  | Some _ => with_number (Some n) b
  | None => b
  end.

Fixpoint renumber (index : nat) (annotations : list Annotation) (bs : list Box) : list Box :=
  match annotations with
  | [] => bs
  | a :: rest =>
      renumber (S index) rest (update_first (has_id (Content.id a)) (set_badge (S index)) bs)
  end.

Definition renumberAnnotations (annotations : list Annotation) (bs : list Box) : list Box :=
  renumber 0 annotations bs.

(** [annotations = l]: the variable is bound to a new array. *)
Definition assign (l : list Annotation) (t : Script) : Script :=
  {| location := location t; arrays := arrays t ++ [l]; annotations := length (arrays t);
     allAnnotationsCache := allAnnotationsCache t;
     annotationIdCounter := annotationIdCounter t |}.

(** [deleteAnnotation(id)] once the user has confirmed.  Its save is the
    call [Content.saveAnnotations], as in [promptAnswered]. *)
Definition deleteAnnotation (io : StorageIO) (i : Z) (v : View) (s : Storage) : View * Storage :=
  let t := assign (filter (fun a => Content.id a <> i) (contents (script v))) (script v) in
  let bs := update_first (has_id i) detach (boxes v) in
  let '(t', s') := saveAnnotations io t s in
  ({| script := t'; boxes := renumberAnnotations (contents t') bs; pen := pen v |}, s').

(** [clearAllAnnotations()] once the user has confirmed.  Its save is the
    call [Content.saveAnnotations], as in [promptAnswered]. *)
Definition clearAllAnnotations (io : StorageIO) (v : View) (s : Storage) : View * Storage :=
  let t := assign [] (script v) in
  let '(t', s') := saveAnnotations io t s in
  ({| script := t'; boxes := map detach (boxes v); pen := pen v |}, s').

(** The badges on the page agree with the sidebar: for every row of the
    list, the box found for its id shows the row's number. *)
Definition badges_agree (annotations : list Annotation) (bs : list Box) : Prop :=
  Forall (fun item => badge (item_id item) bs = Some (item_number item))
         (renderComments annotations).

(** Every annotation has a box with a badge on the page. *)
Definition all_boxed (annotations : list Annotation) (bs : list Box) : Prop :=
  Forall (fun a => is_Some (badge (Content.id a) bs)) annotations.

End Annotate.

(* ===================================================================== *)
(** * Content script: labels ([formatTime], [getPageName])                *)
(* ===================================================================== *)

Module Labels.

(** [String(n)] for an integer that is not negative. *)
Definition decimal (n : Z) : string := PageExport.decimal (Z.to_nat n).

(** [formatTime(timestamp)].  [now] and [date] are the two times in
    milliseconds; [date] is [None] for an invalid date, whose time value is
    [NaN].  [Math.floor] of the quotient is [Z.div]. *)
Definition formatTime (toLocaleDateString : option Z -> string) (now : Z) (date : option Z)
    : string :=
  match date with
  | None => toLocaleDateString date
  | Some d =>
      let diffMinutes := (now - d) / 60000 in
      if diffMinutes <? 1 then "Just now"
      else if diffMinutes <? 60 then decimal diffMinutes +:+ "m ago"
      else if diffMinutes <? 1440 then decimal (diffMinutes / 60) +:+ "h ago"
      else toLocaleDateString date
  end.

(** What [getPageName] reads of an element: two attributes, [None] when
    absent, and the text. *)
Record Node := {
  aria_label : option string;
  title : option string;
  textContent : string
}.

(** What [getPageName] reads of the page. *)
Record Page := {
  querySelector : string -> option Node;
  document_title : string;
  pathname : string
}.

(** [q s] is [s] between double quotes. *)
Definition q (s : string) : string := Dom.dquote +:+ s +:+ Dom.dquote.

Definition activePageSelectors : list string :=
  [ "button[aria-selected=" +:+ q "true" +:+ "][aria-label]";
    "button[aria-selected=" +:+ q "true" +:+ "][title]";
    ".navigationPane .active button[title]";
    ".navigationPane .selected button[title]";
    ".navigationPane button.is-selected[title]";
    ".pagesNav .active .itemName";
    "button[role=" +:+ q "tab" +:+ "][aria-selected=" +:+ q "true" +:+ "]";
    ".navigationPane .itemContainer.active .itemName";
    "div[role=" +:+ q "tablist" +:+ "] button[aria-selected=" +:+ q "true" +:+ "]" ].

(** [a || b] where [a] is a string or [null]. *)
Definition or_else (a : option string) (b : string) : string :=
  match a with
  | Some s => if bool_decide (s = "") then b else s
  | None => b
  end.

(** [path.split("/")] *)
Fixpoint split_slash (current : string) (s : string) : list string :=
  match s with
  | EmptyString => [current]
  | String c rest =>
      if Ascii.eqb c "/"%char then current :: split_slash "" rest
      else split_slash (current +:+ String c EmptyString) rest
  end.

(** [path.split("/").filter((p) => p)] *)
Definition parts (path : string) : list string :=
  filter (fun p => p <> "") (split_slash "" path).

Section Strings.

(** [String.prototype.trim] and the three [replace] calls with their
    regular expressions. *)
Variable trim : string -> string.
Variable without_selected : string -> string.
Variable without_active : string -> string.
Variable without_power_bi : string -> string.

(** The body of the loop for one selector: the name to return, if any. *)
Definition label_of (element : Node) : option string :=
  let pageName :=
    or_else (aria_label element) (or_else (title element) (trim (textContent element))) in
  if negb (bool_decide (pageName = "")) && negb (bool_decide (pageName = "Page navigation"))
  then
    let pageName := trim (without_active (without_selected pageName)) in
    if bool_decide (pageName = "") then None else Some pageName
  else None.

Fixpoint first_label (d : Page) (selectors : list string) : option string :=
  match selectors with
  | [] => None
  | selector :: rest =>
      match querySelector d selector with
      | Some element =>
          match label_of element with
          | Some pageName => Some pageName
          | None => first_label d rest
          end
      | None => first_label d rest
      end
  end.

(** [getPageName()] *)
Definition getPageName (d : Page) : string :=
  match first_label d activePageSelectors with
  | Some pageName => pageName
  | None =>
      let cleanTitle := trim (without_power_bi (document_title d)) in
      if negb (bool_decide (document_title d = ""))
         && negb (bool_decide (cleanTitle = ""))
         && (5 <? String.length cleanTitle)%nat
      then cleanTitle
      else
        match last (parts (pathname d)) with
        | Some part => part
        | None => "Power BI Report"
        end
  end.

End Strings.

End Labels.

(* ===================================================================== *)
(** * Content script: the CSV file of one page ([exportAnnotations] of
      [src/content/content.js])                                           *)
(* ===================================================================== *)

Module Sheet.
Import Content.

(** The fields of [new Date()] the file names are built from. *)
Record Clock := {
  getFullYear : nat;
  getMonth : nat;
  getDate : nat;
  getHours : nat;
  getMinutes : nat
}.

(** [s.padStart(2, "0")] *)
Definition padStart2 (s : string) : string :=
  match String.length s with
  | 0%nat => "00"
  | 1%nat => "0" +:+ s
  | _ => s
  end.

Definition two (n : nat) : string := padStart2 (PageExport.decimal n).

(** The date and time in a file name. *)
Definition stamp (now : Clock) : string :=
  PageExport.decimal (getFullYear now) +:+ "-" +:+ two (getMonth now + 1) +:+ "-"
    +:+ two (getDate now) +:+ "_" +:+ two (getHours now) +:+ "-" +:+ two (getMinutes now).

Definition filename (now : Clock) : string := "PowerBI_Comments_" +:+ stamp now +:+ ".csv".

Section ExportAnnotations.

Variable toLocaleDateString : string -> string.

(** The [rows] array. *)
Definition rows (pageName : string) (annotations : list Annotation) : list (list Revised.Cell) :=
  imap (fun index annotation =>
          [ Revised.Num (S index); Revised.Str pageName;
            Revised.Str (toLocaleDateString (timestamp annotation));
            Revised.Str (comment annotation) ])
       annotations.

(** [csvContent]; the function mapped over the cells is the one of
    [Revised.csvCell]. *)
Definition csvContent (pageName : string) (annotations : list Annotation) : string :=
  String.concat (String Revised.newline_char EmptyString)
    (String.concat "," ["No"; "Page Name"; "Date"; "Comment"]
     :: map (fun row => String.concat "," (map Revised.csvCell row)) (rows pageName annotations)).

(** What [exportAnnotations] does: the file it downloads, if any, and the
    message of the modal it ends with. *)
Record Exported := { download : option (string * string); message : string }.

Definition exportAnnotations (now : Clock) (pageName : string) (annotations : list Annotation)
    : Exported :=
  if Nat.eqb (length annotations) 0 then
    {| download := None;
       message := "No comments to export. Create some annotations first!" |}
  else
    {| download := Some (filename now, csvContent pageName annotations);
       message := "Exported " +:+ PageExport.decimal (length annotations)
                    +:+ " comment(s) to " +:+ filename now |}.

End ExportAnnotations.

End Sheet.

(* ===================================================================== *)
(** * Content script: [exportPages], [allAnnotationsInViewport] and
      [generatePresentation] of [src/content/content.js]                  *)
(* ===================================================================== *)

Module Presentation.
Import Content.

(** The styles of the sidebar and of the toggle button that
    [generatePresentation] writes, and whether the sidebar has the class
    [open]. *)
Record Chrome := {
  sidebar_display : string;
  sidebar_open : bool;
  toggle_display : string;
  toggle_visibility : string;
  toggle_opacity : string;
  toggle_zIndex : string
}.

Definition hide (c : Chrome) : Chrome :=
  {| sidebar_display := "none"; sidebar_open := sidebar_open c;
     toggle_display := "none"; toggle_visibility := "hidden";
     toggle_opacity := "0"; toggle_zIndex := "-9999" |}.

(** The five assignments of the empty string, then
    [if (sidebarWasOpen) sidebar.classList.add('open')]. *)
Definition restore (sidebarWasOpen : bool) (c : Chrome) : Chrome :=
  {| sidebar_display := ""; sidebar_open := if sidebarWasOpen then true else sidebar_open c;
     toggle_display := ""; toggle_visibility := "";
     toggle_opacity := ""; toggle_zIndex := "" |}.

(** How [generatePresentation] ends. *)
Inductive Outcome :=
| Modal (message : string)
| Cancelled
| Pptx (screenshot : option string) (comments : list PageExport.Comment) (pageName : string)
| Pdf (screenshot : option string) (comments : list PageExport.Comment) (pageName : string).

Record Run := {
  chrome : Chrome;
  sent : list Background.Request;
  outcome : Outcome
}.

(** [window.scrollX], [window.scrollY], [window.innerWidth] and
    [window.innerHeight]. *)
Record Viewport := { scrollX : Q; scrollY : Q; innerWidth : Q; innerHeight : Q }.

(** [a >= b] and [a <= b] on numbers. *)
Definition ge (a b : Q) : bool := Qle_bool b a.
Definition le (a b : Q) : bool := Qle_bool a b.

(** [allAnnotationsInViewport()] *)
Definition allAnnotationsInViewport (w : Viewport) (annotations : list Annotation) : bool :=
  let viewTop := scrollY w in
  let viewBottom := (viewTop + innerHeight w)%Q in
  let viewLeft := scrollX w in
  let viewRight := (viewLeft + innerWidth w)%Q in
  forallb (fun a =>
             ge (inject_Z (x a)) viewLeft && le (inject_Z (x a) + width a)%Q viewRight
             && ge (inject_Z (y a)) viewTop && le (inject_Z (y a) + height a)%Q viewBottom)
          annotations.

Section Generate.

Variable toLocaleDateString : string -> string.

(** [cropScreenshotToCanvas], as the data URL it resolves with. *)
Variable crop : string -> Dom.Element -> string.

(** The [comments] array. *)
Definition comments_of (annotations : list Annotation) : list PageExport.Comment :=
  imap (fun index annotation =>
          {| PageExport.number := S index;
             PageExport.comment := comment annotation;
             PageExport.date := toLocaleDateString (timestamp annotation);
             PageExport.tool := if bool_decide (tool annotation = "") then "rectangle"
                                else tool annotation;
             PageExport.color := if bool_decide (color annotation = "") then "#0078d4"
                                 else color annotation |})
       annotations.

(** [generatePresentation(format)].  [sendThrows] tells whether
    [chrome.runtime.sendMessage] throws when asked for [prepareCapture];
    [result] is what [waitForScreenshotOrCancel] resolves with, [None] after
    a cancel.  The only way to [None] is the Cancel button of the wait,
    whose handler sends [cancelCapture] before it resolves the promise;
    [cancelThrows] tells whether that send throws (it is caught).  [sent]
    lists the messages that reached the worker. *)
Definition generatePresentation (format : string) (doc : Dom.Document) (sendThrows : bool)
    (result : option ScreenshotResult) (cancelThrows : bool)
    (annotations : list Annotation) (pageName : string) (c : Chrome) : Run :=
  let sidebarWasOpen := sidebar_open c in
  let c := hide c in
  match Canvas.getReportCanvas doc with
  | None =>
      {| chrome := restore sidebarWasOpen c; sent := [];
         outcome := Modal "Could not find Power BI report canvas. Make sure you are on a report page." |}
  | Some reportCanvas =>
      if sendThrows then
        {| chrome := restore sidebarWasOpen c; sent := [];
           outcome := Modal "Unable to communicate with extension background. Try refreshing the page." |}
      else
        match result with
        | None =>
            {| chrome := restore sidebarWasOpen c;
               sent := if cancelThrows then [Background.prepareCapture]
                       else [Background.prepareCapture; Background.cancelCapture];
               outcome := Cancelled |}
        | Some result =>
            let screenshot :=
              if Revised.truthy (screenshot result)
              then Some (crop (default "" (screenshot result)) reportCanvas)
              else None in
            {| chrome := restore sidebarWasOpen c; sent := [Background.prepareCapture];
               outcome := if bool_decide (format = "ppt")
                          then Pptx screenshot (comments_of annotations) pageName
                          else Pdf screenshot (comments_of annotations) pageName |}
        end
  end.

(** [exportPages()]: [proceed] is the answer to the warning, [format] the
    answer of the format dialog ([None] for a cancel).  [None] is returned
    when the function ends before [generatePresentation]. *)
Definition exportPages (w : Viewport) (proceed : bool) (format : option string)
    (doc : Dom.Document) (sendThrows : bool) (result : option ScreenshotResult)
    (cancelThrows : bool) (annotations : list Annotation) (pageName : string)
    (c : Chrome) : Run :=
  if Nat.eqb (length annotations) 0 then
    {| chrome := c; sent := [];
       outcome := Modal "No comments to export. Create some annotations first!" |}
  else if negb (allAnnotationsInViewport w annotations) && negb proceed then
    {| chrome := c; sent := []; outcome := Cancelled |}
  else if Revised.truthy format then
    generatePresentation (default "" format) doc sendThrows result cancelThrows
      annotations pageName c
  else {| chrome := c; sent := []; outcome := Cancelled |}.

End Generate.

End Presentation.

(* ===================================================================== *)
(** * Content script, later revision: exports over all pages
      ([getAnnotatedPages], [exportAnnotations],
      [generateMultiPagePresentation], [generateMultiPagePptx] of the
      [content.js] carried in [REVIEW.md])                                *)
(* ===================================================================== *)

Module MultiPage.
Import Content.

(** [allAnnotationsCache] as an object whose keys are listed in insertion
    order by [Object.keys]; a key occurs once. *)
Definition AnnotationsCache := list (string * list Annotation).

(** [cache[key]] *)
Fixpoint bucket_of (key : string) (cache : AnnotationsCache) : option (list Annotation) :=
  match cache with
  | [] => None
  | (k, l) :: rest => if String.eqb k key then Some l else bucket_of key rest
  end.

(** The cache of the script as the exports read it.  [keys] is
    [Object.keys(allAnnotationsCache)], the keys in the order they were
    first assigned; each bucket is the array its entry refers to. *)
Definition cache_of (keys : list string) (t : Script) : option AnnotationsCache :=
  (fun cache => omap (fun k => (fun c => (k, read t c)) <$> cache !! k) keys)
    <$> allAnnotationsCache t.

(** An element of the array [getAnnotatedPages] returns. *)
Record AnnotatedPage := {
  key : string;
  name : string;
  count : nat;
  isCurrent : bool;
  hasScreenshot : bool
}.

Section Names.

(** [getPageName()] at the time of the call; [new URL(u).pathname], [None]
    when the constructor throws; [decodeURIComponent], [None] when it
    throws. *)
Variable getPageName : string.
Variable URL_pathname : string -> option string.
Variable decodeURIComponent : string -> option string.

(** The name given to a page with annotations. *)
Definition name_of (currentKey key : string) (pageAnnotations : list Annotation) : string :=
  match pageAnnotations with
  | first :: _ =>
      if bool_decide (url first = "") then key
      else
        match URL_pathname (url first) with
        | None => key
        | Some path =>
            if String.eqb key currentKey then getPageName
            else
              match last (Labels.parts path) with
              | Some part => default key (decodeURIComponent part)
              | None => key
              end
        end
  | [] => key
  end.

(** [getAnnotatedPages()]; the cache is [None] for [null]. *)
Definition getAnnotatedPages (currentKey : string) (allAnnotationsCache : option AnnotationsCache)
    (screenshotCache : Revised.ScreenshotCache) : list AnnotatedPage :=
  match allAnnotationsCache with
  | None => []
  | Some cache =>
      map (fun '(k, pageAnnotations) =>
             {| key := k;
                name := name_of currentKey k pageAnnotations;
                count := length pageAnnotations;
                isCurrent := String.eqb k currentKey;
                hasScreenshot := Revised.truthy (Revised.cache_get k screenshotCache) |})
          (List.filter (fun '(k, pageAnnotations) => (0 <? length pageAnnotations)%nat) cache)
  end.

(** The [pages] array [exportAnnotations] builds for the scope [all]. *)
Definition csv_pages (cache : AnnotationsCache) (pages : list AnnotatedPage) : list Revised.Page :=
  map (fun p => {| Revised.name := name p;
                   Revised.annotations := default [] (bucket_of (key p) cache) |})
      pages.

End Names.

(** An element of [pageDataList]. *)
Record PageData := {
  pageName : string;
  screenshot : option string;
  comments : list PageExport.Comment
}.

Section PageDataList.

Variable toLocaleDateString : string -> string.

(** The inner [map] with its running [globalNumber]. *)
Fixpoint number_comments (globalNumber : nat) (pageAnnotations : list Annotation)
    : list PageExport.Comment * nat :=
  match pageAnnotations with
  | [] => ([], globalNumber)
  | annotation :: rest =>
      let c := {| PageExport.number := globalNumber;
                  PageExport.comment := comment annotation;
                  PageExport.date := toLocaleDateString (timestamp annotation);
                  PageExport.tool := if bool_decide (tool annotation = "") then "rectangle"
                                     else tool annotation;
                  PageExport.color := if bool_decide (color annotation = "") then "#0078d4"
                                      else color annotation |} in
      let '(cs, n) := number_comments (S globalNumber) rest in
      (c :: cs, n)
  end.

(** The outer [map]. *)
Fixpoint page_data (globalNumber : nat) (cache : AnnotationsCache)
    (screenshotCache : Revised.ScreenshotCache) (pages : list AnnotatedPage) : list PageData :=
  match pages with
  | [] => []
  | page :: rest =>
      let '(cs, n) := number_comments globalNumber (default [] (bucket_of (key page) cache)) in
      {| pageName := name page;
         screenshot := match Revised.cache_get (key page) screenshotCache with
                       | Some shot => if String.eqb shot "" then None else Some shot
                       | None => None
                       end;
         comments := cs |}
      :: page_data n cache screenshotCache rest
  end.

(** [pageDataList] of [generateMultiPagePresentation]; [globalNumber]
    starts at 1. *)
Definition pageDataList (cache : AnnotationsCache) (screenshotCache : Revised.ScreenshotCache)
    (pages : list AnnotatedPage) : list PageData :=
  page_data 1 cache screenshotCache pages.

End PageDataList.

(** The row of the CSV file that corresponds to a comment of a page of the
    presentation. *)
Definition row_of (d : PageData) (c : PageExport.Comment) : list Revised.Cell :=
  [Revised.Num (PageExport.number c); Revised.Str (pageName d);
   Revised.Str (PageExport.date c); Revised.Str (PageExport.comment c)].

(** ** [generateMultiPagePptx] *)

Import PageExport PageExport.Pptx.

(** The title of the slide that opens page [p] of [n]. *)
Definition titleText (pageName : string) (p n : nat) : string :=
  pageName +:+ (if (1 <? n)%nat
                then " (" +:+ decimal (p + 1) +:+ "/" +:+ decimal n +:+ ")"
                else "").

(** The slide that opens a page, up to the comments header.  [loaded]
    gives the decoded image of a data URL, [None] when it fails to load. *)
Definition opening_slide (loaded : string -> option Screenshot) (d : PageData) (p n : nat)
    : Slide :=
  [ TextBox (titleText (pageName d) p n) margin titleY contentW titleH;
    match screenshot d with
    | Some shot =>
        match loaded shot with
        | Some s =>
            let '(imgW, imgH) := fit s screenshotW contentH in
            Picture shot margin (contentY + (contentH - imgH) / 2)%Q imgW imgH
        | None => TextBox "Screenshot failed to load" margin contentY screenshotW contentH
        end
    | None =>
        TextBox ("No screenshot available" +:+ String Revised.newline_char EmptyString
                   +:+ "(Visit this page to cache a screenshot)")
                margin contentY screenshotW contentH
    end;
    TextBox "Comments" commentsX contentY commentsW 0.3%Q ].

(** The outer loop from page [p] on; [pres] are the slides added so far.
    The inner loop is the loop of [generatePptx]. *)
Fixpoint multi_slides (loaded : string -> option Screenshot) (n p : nat)
    (pages : list PageData) (pres : list Slide) : list Slide :=
  match pages with
  | [] => pres
  | d :: rest =>
      multi_slides loaded n (S p) rest
        (pptx_comments (pageName d) (comments d) pres (opening_slide loaded d p n)
                       commentsListY 0)
  end.

(** [generateMultiPagePptx(pageDataList)]: the slides of the presentation. *)
Definition generateMultiPagePptx (loaded : string -> option Screenshot)
    (pageDataList : list PageData) : list Slide :=
  multi_slides loaded (length pageDataList) 0 pageDataList [].

(** The slides one page of the report takes: one, or as many as its
    comments need at [maxCommentsPerSlide] to a slide. *)
Definition slides_of (d : PageData) : nat :=
  Nat.max 1 (ceil_div (length (comments d)) maxCommentsPerSlide).

(** ** [generateMultiPagePdf] *)

Section Renderer.

Variable getTextWidth : string -> Q.
Variable splitTextToSize : string -> Q -> list string.

(** The header that opens an overflow page of a report page. *)
Definition continued_page_of (pageName : string) : PdfPage :=
  [ Text [pageName +:+ " — Comments (continued)"]
         (inject_Z Pdf.margin) (inject_Z (Pdf.margin + 10)) ].

(** The inner loop: the loop of [generatePdf] with that header. *)
Fixpoint multi_pdf_comments (pageName : string) (comments : list Comment)
    (finished : list PdfPage) (page : PdfPage) (currentY : Z) : list PdfPage :=
  match comments with
  | [] => finished ++ [page]
  | c :: rest =>
      let '(finished, page, currentY) :=
        if (Pdf.pageH - Pdf.margin <? currentY + Pdf.lineHeight)%Z
        then (finished ++ [page], continued_page_of pageName, (Pdf.margin + 10 + 10)%Z)
        else (finished, page, currentY) in
      let lines := splitTextToSize (comment c) Pdf.maxWidth in
      multi_pdf_comments pageName rest finished
        (page ++ pdf_comment_items splitTextToSize c currentY)
        (currentY + Z.max Pdf.lineHeight (Z.of_nat (length lines) * 4))%Z
  end.

Definition pageLabel (p n count : nat) : string :=
  "Page " +:+ decimal (p + 1) +:+ " of " +:+ decimal n +:+ " • " +:+ decimal count
    +:+ " Annotation" +:+ (if Nat.eqb count 1 then "" else "s").

(** The PDF page that opens a report page, up to the comments header. *)
Definition opening_page (loaded : string -> option Screenshot) (d : PageData) (p n : nat)
    : PdfPage :=
  let label := pageLabel p n (length (comments d)) in
  let middleX := (inject_Z Pdf.margin + Pdf.screenshotW / 2)%Q in
  let middleY := (inject_Z Pdf.contentY + inject_Z Pdf.contentH / 2)%Q in
  [ Text [pageName d] (inject_Z Pdf.margin) (inject_Z (Pdf.margin + 8));
    Text [label] (inject_Z Pdf.pageW - inject_Z Pdf.margin - getTextWidth label)%Q
         (inject_Z (Pdf.margin + 8)) ]
  ++ match screenshot d with
     | Some shot =>
         match loaded shot with
         | Some s =>
             let '(imgW, imgH) := fit s Pdf.screenshotW (inject_Z Pdf.contentH) in
             [ PdfImage shot (inject_Z Pdf.margin)
                        (inject_Z Pdf.contentY + (inject_Z Pdf.contentH - imgH) / 2)%Q
                        imgW imgH ]
         | None => [ CenteredText "Screenshot failed to load" middleX middleY ]
         end
     | None =>
         [ CenteredText "No screenshot available" middleX middleY;
           CenteredText "(Visit and annotate this page to cache a screenshot)"
                        middleX (middleY + 6)%Q ]
     end
  ++ [ Text ["Comments"] Pdf.commentsX (inject_Z (Pdf.contentY + 5)) ].

(** The outer loop from report page [p] on; [doc] are the PDF pages so
    far.  The first report page is drawn on the page the document starts
    with, every other one on a page added for it. *)
Fixpoint multi_pages (loaded : string -> option Screenshot) (n p : nat)
    (pages : list PageData) (doc : list PdfPage) : list PdfPage :=
  match pages with
  | [] => doc
  | d :: rest =>
      multi_pages loaded n (S p) rest
        (multi_pdf_comments (pageName d) (comments d) doc (opening_page loaded d p n)
                            (Pdf.contentY + 12)%Z)
  end.

(** [generateMultiPagePdf(pageDataList)]: the pages of the document.  A
    new document has one empty page, which stays when there is no report
    page to draw. *)
Definition generateMultiPagePdf (loaded : string -> option Screenshot)
    (pageDataList : list PageData) : list PdfPage :=
  match pageDataList with
  | [] => [[]]
  | _ => multi_pages loaded (length pageDataList) 0 pageDataList []
  end.

End Renderer.

End MultiPage.

(* ===================================================================== *)
(** * The page kept in step with the list: events and invariant           *)
(* ===================================================================== *)

Module InStep.
Import Content Drawing Annotate.

(** What the user does on the page (switching the annotation mode, picking
    a tool or a colour, drawing, deleting, clearing), each with what the
    browser answers:
    the size measured for the finished box, the clock, the address of the
    page, the answer typed into the prompt, and how the storage calls end.
    A delete or a clear is the event of its confirmation. *)
Inductive Event :=
| ToggleMode
| SelectTool (tool : string)
| PickColor (color : string)
| MouseDown (e : MouseEvent) (insideUi : bool)
| MouseMove (e : MouseEvent)
| MouseUp (io : StorageIO) (e : MouseEvent) (rect_width rect_height : Q)
          (now : Z) (iso href : string) (comment : option string)
| DeleteConfirmed (io : StorageIO) (i : Z)
| ClearConfirmed (io : StorageIO).

Section Run.

Variable trim : string -> string.

Definition handle (vs : View * Storage) (ev : Event) : View * Storage :=
  match ev with
  | ToggleMode => (toggleAnnotationMode (fst vs), snd vs)
  | SelectTool tool => (selectDrawingTool tool (fst vs), snd vs)
  | PickColor color => (pickColor color (fst vs), snd vs)
  | MouseDown e insideUi => (handleMouseDown e insideUi (fst vs), snd vs)
  | MouseMove e => (handleMouseMove e (fst vs), snd vs)
  | MouseUp io e w h now iso href comment =>
      finishDrag trim io now iso href e w h comment (fst vs) (snd vs)
  | DeleteConfirmed io i => deleteAnnotation io i (fst vs) (snd vs)
  | ClearConfirmed io => clearAllAnnotations io (fst vs) (snd vs)
  end.

Definition run (vs : View * Storage) (evs : list Event) : View * Storage :=
  fold_left handle evs vs.

(** The conditions under which an event is considered: the id the
    generator gives a new annotation is not the id of an annotation of the
    list, and the list is not cleared in the middle of a drag. *)
Definition admissible (v : View) (ev : Event) : Prop :=
  match ev with
  | MouseUp _ _ _ _ now _ _ _ =>
      fst (generateAnnotationId now (annotationIdCounter (script v)))
        ∉ (Content.id <$> contents (script v))
  | ClearConfirmed _ => currentAnnotation (pen v) = None
  | _ => True
  end.

Fixpoint admissible_run (vs : View * Storage) (evs : list Event) : Prop :=
  match evs with
  | [] => True
  | ev :: rest => admissible (fst vs) ev /\ admissible_run (handle vs ev) rest
  end.

End Run.

(** The id and the number a box shows in the document, if it has an id. *)
Definition label (b : Box) : option (Z * option nat) :=
  if attached b then (fun i => (i, number b)) <$> dataset_id b else None.

Definition labels (bs : list Box) : list (Z * option nat) := omap label bs.

(** The labels a list of annotations calls for: one box per annotation, in
    the order of the list, numbered from 1. *)
Definition expected (annotations : list Annotation) : list (Z * option nat) :=
  imap (fun k a => (Content.id a, Some (S k))) annotations.

(** Every box is identified by its place in the order of creation. *)
Definition nodes_ok (bs : list Box) : Prop :=
  forall k b, bs !! k = Some b -> node b = k.

(** The box being drawn is in the document, has no id yet, and no box
    created after it has one. *)
Definition pen_ok (v : View) : Prop :=
  forall n, currentAnnotation (pen v) = Some n ->
    exists el, boxes v !! n = Some el /\ attached el = true /\ dataset_id el = None
               /\ Forall (fun b => label b = None) (drop (S n) (boxes v)).

(** The variable [annotations] refers to an array. *)
Definition bound (t : Script) : Prop := (annotations t < length (arrays t))%nat.

(** The page is in step with the list. *)
Definition in_step (v : View) : Prop :=
  bound (script v)
  /\ nodes_ok (boxes v)
  /\ labels (boxes v) = expected (contents (script v))
  /\ NoDup (Content.id <$> contents (script v))
  /\ pen_ok v.

(** On a list of labels: give the first label with id [i] the number [n]
    if it has a number; drop the first label with id [i]. *)
Fixpoint set_first (i : Z) (n : nat) (ls : list (Z * option nat)) : list (Z * option nat) :=
  match ls with
  | [] => []
  | (j, m) :: rest =>
      if Z.eqb j i then (j, match m with Some _ => Some n | None => None end) :: rest
      else (j, m) :: set_first i n rest
  end.

Fixpoint remove_first (i : Z) (ls : list (Z * option nat)) : list (Z * option nat) :=
  match ls with
  | [] => []
  | (j, m) :: rest => if Z.eqb j i then rest else (j, m) :: remove_first i rest
  end.

End InStep.

(* ===================================================================== *)
(** * Page context script: [src/content/powerbi-page-script.js]           *)
(* ===================================================================== *)

Module PageScript.

(** The variables of the script that change. *)
Record State := {
  lastSentUrl : string;
  lastSentName : string;
  retryCount : nat;
  hasLoggedStatus : bool
}.

Definition maxRetries : nat := 30.

Definition start : State :=
  {| lastSentUrl := ""; lastSentName := ""; retryCount := 0; hasLoggedStatus := false |}.

(** What a call of [getActivePageInfo] finds: no [powerbi] object, no
    embedded report, a report without [getActivePage], an exception or a
    rejected promise, or the page the promise resolves with
    ([displayName] is [None] when the page or its name is missing) together
    with the address read when the call was made. *)
Inductive Found :=
| NoPowerbi
| NoEmbeds
| NoGetActivePage
| Failed
| ActivePage (displayName : option string) (name : string) (currentUrl : string).

(** The message posted to the content script. *)
Record PageInfo := { info_displayName : string; info_name : string; info_url : string }.

(** The part of [getActivePageInfo] that runs before it returns. *)
Definition called (found : Found) (st : State) : State :=
  match found with
  | NoPowerbi | NoEmbeds =>
      {| lastSentUrl := lastSentUrl st; lastSentName := lastSentName st;
         retryCount := if (retryCount st <? maxRetries)%nat then S (retryCount st)
                       else retryCount st;
         hasLoggedStatus := true |}
  | _ => st
  end.

(** The callback of [report.getActivePage().then]: the state it leaves and
    the message it posts, if any. *)
Definition resolved (forceUpdate : bool) (found : Found) (st : State)
    : State * option PageInfo :=
  match found with
  | ActivePage (Some displayName) name currentUrl =>
      if bool_decide (displayName = "") then (st, None)
      else if forceUpdate || negb (String.eqb displayName (lastSentName st))
              || negb (String.eqb currentUrl (lastSentUrl st))
      then ({| lastSentUrl := currentUrl; lastSentName := displayName;
               retryCount := 0; hasLoggedStatus := false |},
            Some {| info_displayName := displayName; info_name := name;
                    info_url := currentUrl |})
      else ({| lastSentUrl := lastSentUrl st; lastSentName := lastSentName st;
               retryCount := 0; hasLoggedStatus := false |}, None)
  | _ => (st, None)
  end.

(** [getActivePageInfo(forceUpdate)], the promise being settled before
    anything else happens. *)
Definition getActivePageInfo (forceUpdate : bool) (found : Found) (st : State)
    : State * option PageInfo :=
  resolved forceUpdate found (called found st).

(** A sequence of calls: the state it leaves and the messages posted, each
    with the [forceUpdate] of its call. *)
Fixpoint calls (cs : list (bool * Found)) (st : State) (posted : list (bool * PageInfo))
    : State * list (bool * PageInfo) :=
  match cs with
  | [] => (st, posted)
  | (forceUpdate, found) :: rest =>
      let '(st', m) := getActivePageInfo forceUpdate found st in
      calls rest st' (match m with
                      | Some info => posted ++ [(forceUpdate, info)]
                      | None => posted
                      end)
  end.

(** The fast polling: each tick calls [getActivePageInfo(false)] and then
    looks at [retryCount], before the promise of that call is settled; it
    ends with the tick at which [retryCount] is 0 or has reached
    [maxRetries].  [Some] gives the number of ticks made and the state when
    the slower polling takes over; [None] when the ticks given do not get
    there. *)
Fixpoint fast_polling (ticks : list Found) (st : State) : option (nat * State) :=
  match ticks with
  | [] => None
  | found :: rest =>
      let st1 := called found st in
      let st2 := fst (resolved false found st1) in
      if Nat.eqb (retryCount st1) 0 || (maxRetries <=? retryCount st1)%nat
      then Some (1%nat, st2)
      else match fast_polling rest st2 with
           | Some (k, st') => Some (S k, st')
           | None => None
           end
  end.

(** No message repeats the one before it unless it was forced. *)
Fixpoint no_repeat (last : string * string) (posted : list (bool * PageInfo)) : Prop :=
  match posted with
  | [] => True
  | (forced, info) :: rest =>
      (forced = false -> (info_displayName info, info_url info) <> last)
      /\ no_repeat (info_displayName info, info_url info) rest
  end.

End PageScript.
(* ===================================================================== *)
(** * Sample inputs                                                       *)
(* ===================================================================== *)

Module Samples.

Definition tab7 : Background.Tab := {| Background.id := 7; Background.windowId := 1 |}.
Definition tab9 : Background.Tab := {| Background.id := 9; Background.windowId := 1 |}.


(** A rectangle annotation with the given id and comment. *)
Definition note (i : Z) (c : string) : Content.Annotation :=
  {| Content.id := i; Content.x := 100; Content.y := 120;
     Content.width := 40%Q; Content.height := 30%Q;
     Content.comment := c;
     Content.timestamp := "2024-05-01T10:00:00.000Z";
     Content.url := "https://app.powerbi.com/r/1";
     Content.tool := "rectangle"; Content.color := "#0078d4";
     Content.freehandPath := None;
     Content.startPoint := {| Content.px := 100%Q; Content.py := 120%Q |};
     Content.endPoint := {| Content.px := 140%Q; Content.py := 150%Q |} |}.

Definition page1 : Content.Location := {| Content.pathname := "/r/1"; Content.search := "" |}.
Definition page2 : Content.Location := {| Content.pathname := "/r/2"; Content.search := "" |}.

Definition page1_query : Content.Location :=
  {| Content.pathname := "/r/1"; Content.search := "?pageName=Overview" |}.

Definition empty_storage : Content.Storage := {| Content.stored_annotations := None |}.

(** Two tabs of one browser share [chrome.storage.local].  Tab A loads while
    storage is empty; tab B then saves a comment on page [/r/2]. *)
Definition tabA_loaded : Content.Script := fst (Content.loadAnnotations Content.io_ok (Content.fresh page1) empty_storage).
Definition storage_after_B : Content.Storage :=
  let b := fst (Content.loadAnnotations Content.io_ok (Content.fresh page2) empty_storage) in
  snd (Content.saveAnnotations Content.io_ok (Content.push (note 2 "B") b) empty_storage).

(** One tab: page [/r/1] holds a saved comment and is loaded; the host
    application then moves to [/r/2] without a reload and a comment is added. *)
Definition storage_with_page1 : Content.Storage :=
  {| Content.stored_annotations := Some {[ "/r/1" := [note 1 "A"] ]} |}.
Definition moved_and_annotated : Content.Script :=
  Content.push (note 2 "B") (Content.navigate page2 (fst (Content.loadAnnotations Content.io_ok (Content.fresh page1) storage_with_page1))).

(** Comments A and B are saved on [/r/1]; the host then moves to [/r/2]. *)
Definition two_on_page1 : Content.Script * Content.Storage :=
  let t0 := fst (Content.loadAnnotations Content.io_ok (Content.fresh page1) empty_storage) in
  let '(t1, s1) := Content.saveAnnotations Content.io_ok (Content.push (note 1 "A") t0) empty_storage in
  let '(t2, s2) := Content.saveAnnotations Content.io_ok (Content.push (note 2 "B") t1) s1 in
  (Content.navigate page2 t2, s2).

End Samples.

Module CanvasSamples.
Import Dom.

(** A page on which no canvas selector matches; its largest block is the
    navigation pane. *)
Definition navigation : Element :=
  {| name := "div.navigation-pane";
     rect := {| left := 0; top := 0; width := 1280; height := 600 |} |}.
Definition banner : Element :=
  {| name := "div.banner";
     rect := {| left := 0; top := 0; width := 1280; height := 48 |} |}.
Definition page_without_canvas : Document :=
  {| querySelector := fun _ => None; divs := [banner; navigation] |}.

(** A window zoomed to 150% on a display of pixel ratio 1: 1280x720 device
    pixels, two thirds of that in CSS pixels. *)
Definition zoomed : Window :=
  {| innerWidth := 2560 / 3; innerHeight := 480; devicePixelRatio := 1.5 |}.
Definition capture : Image := {| image_width := 1280; image_height := 720 |}.
Definition chart : Element :=
  {| name := "div.explorationContainer";
     rect := {| left := 100; top := 50; width := 600; height := 400 |} |}.

End CanvasSamples.

Module CacheSamples.

(** Page keys ["/p/1"], ..., ["/p/n"], each with a screenshot, oldest first. *)
Definition shots (n : nat) : Revised.ScreenshotCache :=
  map (fun i => ("/p/" +:+ NilZero.string_of_uint (Nat.to_uint i), "data:image/png;base64,AAAA"))
      (seq 1 n).

Definition twenty : Revised.Screenshots :=
  {| Revised.screenshotCache := shots 20; Revised.stored_screenshotCache := Some (shots 20) |}.

Definition annotated (key : string) : gmap string (list Content.Annotation) :=
  {[ key := [Samples.note 1 "A"] ]}.

End CacheSamples.


Module DrawSamples.
Import Content Drawing Annotate Samples.

(** A page in annotation mode with the given tool selected and nothing
    drawn. *)
Definition ready (tool : string) : View :=
  {| script := fst (Content.loadAnnotations io_ok (fresh page1) empty_storage);
     boxes := [];
     pen := {| isAnnotationMode := true; currentDrawingTool := tool;
               currentColor := "#0078d4"; currentAnnotation := None;
               startX := 0; startY := 0; freehandPoints := [] |} |}.

Definition pointer (x y : Q) : MouseEvent := {| pageX := x; pageY := y |}.

(** The mouse has gone down at (100, 200). *)
Definition started (tool : string) : View :=
  handleMouseDown (pointer 100 200) false (ready tool).

(** A page showing the boxes of three stored rectangle annotations. *)
Definition three_notes : View * Storage :=
  let s := {| stored_annotations :=
                Some {[ "/r/1" := [note 11 "A"; note 12 "B"; note 13 "C"] ]} |} in
  Annotate.loadAnnotations io_ok
    {| script := fresh page1; boxes := []; pen := pen (ready "rectangle") |} s.

End DrawSamples.

Module ExportSamples.
Import Samples.


(** A circle with comment C, drawn on page [/r/2]. *)
Definition circle_C : Content.Annotation :=
  {| Content.id := 3; Content.x := 300; Content.y := 220;
     Content.width := 80%Q; Content.height := 60%Q;
     Content.comment := "C";
     Content.timestamp := "2024-05-01T10:05:00.000Z";
     Content.url := "https://app.powerbi.com/r/2";
     Content.tool := "circle"; Content.color := "#0078d4";
     Content.freehandPath := None;
     Content.startPoint := {| Content.px := 300%Q; Content.py := 220%Q |};
     Content.endPoint := {| Content.px := 380%Q; Content.py := 280%Q |} |}.

(** The script starts on [/r/1] with nothing stored and loads; rectangles
    with comments A and B are drawn, each pushed and saved; the host moves
    to [/r/2] without a reload and the navigation watcher calls
    [onPageChanged("/r/1", "/r/2")]; the circle with comment C is drawn,
    pushed and saved. *)
Definition two_pages_annotated : option (Content.Script * Content.Storage) :=
  let '(t0, s0) := Content.loadAnnotations Content.io_ok (Content.fresh page1) empty_storage in
  let '(t1, s1) := Content.saveAnnotations Content.io_ok (Content.push (note 1 "A") t0) s0 in
  let '(t2, s2) := Content.saveAnnotations Content.io_ok (Content.push (note 2 "B") t1) s1 in
  match Revised.onPageChanged Content.io_ok "/r/1" "/r/2" (Content.navigate page2 t2) s2 with
  | Some (t3, s3) =>
      Some (Content.saveAnnotations Content.io_ok (Content.push circle_C t3) s3)
  | None => None
  end.

End ExportSamples.
(* ===================================================================== *)
(** * Properties                                                          *)
(* ===================================================================== *)

Section BackgroundFacts.
Import Background.

(** The module variable is either empty or a copy of the session record. *)
Lemma memory_mirrors_session w :
  reachable w ->
  pendingCapture w = None \/ pendingCapture w = session_pendingCapture (browser w).
Proof.
  induction 1 as [|w e Hw IH]; [by left|].
  destruct e as [tab o|request sender o|]; simpl.
  - unfold onClicked.
    destruct (armedFor (pendingCapture w) tab); [by left|].
    destruct (armedFor (session_pendingCapture (browser w)) tab); [by left|].
    simpl. exact IH.
  - destruct request; simpl; auto.
  - by left.
Qed.

Lemma armedFor_spec p tab :
  armedFor p tab = true <-> p = Some {| tabId := id tab |}.
Proof.
  destruct p as [[t]|]; simpl; [|split; discriminate].
  rewrite Z.eqb_eq. split; [by intros ->|by intros [= ->]].
Qed.

Lemma newly_sent_app w l w' :
  sent (browser w') = sent (browser w) ++ l -> newly_sent w w' = l.
Proof. unfold newly_sent. intros ->. by rewrite drop_app_length. Qed.

End BackgroundFacts.

Section CaptureToken.
Import Background Samples.


Lemma captureAndSend_clears tab o w :
  pendingCapture (captureAndSend tab o w) = None
  /\ session_pendingCapture (browser (captureAndSend tab o w)) = None
  /\ badgeText (browser (captureAndSend tab o w)) = "".
Proof. by repeat split. Qed.

(** A click on a tab for which neither the module variable nor the session
    record is armed only toggles the sidebar. *)
Lemma onClicked_default tab o w :
  armedFor (pendingCapture w) tab = false ->
  armedFor (session_pendingCapture (browser w)) tab = false ->
  onClicked tab o w =
  {| pendingCapture := pendingCapture w;
     browser := send (id tab) toggleSidebar (browser w) |}.
Proof. unfold onClicked. by intros -> ->. Qed.

(** C3.  A capture armed before the service worker is restarted is still
    resolved by the next click on the arming tab: the click finds the token in
    session storage, hides the overlay, sends the capture result to that tab
    and clears the token and the badge.  In every reachable state, a click on
    a tab that session storage holds no token for sends [toggleSidebar] to
    that tab and changes nothing else. *)
Theorem capture_survives_worker_restart (w : Worker) (tab : Tab) (o : CaptureOutcome) :
  reachable w ->
  (session_pendingCapture (browser w) = Some {| tabId := id tab |} ->
   let w' := onClicked tab o (restart w) in
   newly_sent (restart w) w' = [(id tab, hideForCapture); (id tab, resultMessage o)]
   /\ pendingCapture w' = None
   /\ session_pendingCapture (browser w') = None
   /\ badgeText (browser w') = "")
  /\ (let armed := restart (setPendingCapture (id tab) w) in
      newly_sent armed (onClicked tab o armed) =
      [(id tab, hideForCapture); (id tab, resultMessage o)])
  /\ (session_pendingCapture (browser w) <> Some {| tabId := id tab |} ->
      onClicked tab o w =
      {| pendingCapture := pendingCapture w;
         browser := send (id tab) toggleSidebar (browser w) |}
      /\ newly_sent w (onClicked tab o w) = [(id tab, toggleSidebar)]).
Proof.
  intros Hw. split; [|split].
  - intros Hs w'. subst w'. unfold onClicked. simpl.
    assert (Ha : armedFor (session_pendingCapture (browser w)) tab = true)
      by by apply armedFor_spec.
    rewrite Ha. split; [|by repeat split].
    apply newly_sent_app. simpl. by rewrite <- app_assoc.
  - intros armed. subst armed. unfold onClicked. simpl.
    rewrite Z.eqb_refl. apply newly_sent_app. simpl. by rewrite <- app_assoc.
  - intros Hs.
    assert (Hsess : armedFor (session_pendingCapture (browser w)) tab = false).
    { destruct (armedFor _ tab) eqn:E; [|done]. by apply armedFor_spec in E. }
    assert (Hmem : armedFor (pendingCapture w) tab = false).
    { destruct (memory_mirrors_session w Hw) as [-> | ->]; [done | exact Hsess]. }
    rewrite (onClicked_default tab o w Hmem Hsess). split; [done|].
    by apply newly_sent_app.
Qed.

Lemma capture_survives_worker_restart_witness :
  let w := step start (Message prepareCapture tab7 (Captured "data:image/png;base64,AAAA")) in
  let o := CaptureFailed "The tab was closed" in
  newly_sent (restart w) (onClicked tab7 o (restart w)) =
    [(7, hideForCapture); (7, screenshotResult None (Some "The tab was closed"))]
  /\ onClicked tab9 o w =
     {| pendingCapture := pendingCapture w;
        browser := send 9 toggleSidebar (browser w) |}.
Proof.
  intros w o.
  destruct (capture_survives_worker_restart w tab7 o (reach_step _ _ reach_start))
    as [H1 _].
  destruct (capture_survives_worker_restart w tab9 o (reach_step _ _ reach_start))
    as (_ & _ & H3).
  split.
  - apply H1. reflexivity.
  - apply H3. simpl. discriminate.
Defined.

(** C10.  The worker holds one token for the whole browser.  [prepareCapture]
    from any tab replaces whatever token there was, in memory and in session
    storage; [cancelCapture] from any tab removes the token and the badge,
    whichever tab armed it, so that the arming tab's next click only toggles
    its sidebar. *)
Theorem single_global_capture_token (w : Worker) (a b : Tab) (o o' : CaptureOutcome) :
  let armed := fst (onMessage prepareCapture a o w) in
  let rearmed := fst (onMessage prepareCapture b o armed) in
  let cancelled := fst (onMessage cancelCapture b o armed) in
  (pendingCapture armed = Some {| tabId := id a |}
   /\ session_pendingCapture (browser armed) = Some {| tabId := id a |})
  /\ (pendingCapture rearmed = Some {| tabId := id b |}
      /\ session_pendingCapture (browser rearmed) = Some {| tabId := id b |})
  /\ (pendingCapture cancelled = None
      /\ session_pendingCapture (browser cancelled) = None
      /\ badgeText (browser cancelled) = "")
  /\ newly_sent cancelled (onClicked a o' cancelled) = [(id a, toggleSidebar)].
Proof.
  intros armed rearmed cancelled. repeat split.
  subst cancelled armed. apply newly_sent_app. reflexivity.
Qed.

End CaptureToken.

Section AnnotationStore.
Import Content Samples.

Lemma snapshot_lookup t (cache : gmap string Cell) k :
  snapshot t cache !! k = read t <$> cache !! k.
Proof. unfold snapshot. by rewrite lookup_fmap. Qed.

Lemma snapshot_insert_alias t (cache : gmap string Cell) k :
  snapshot t (<[k := Alias (annotations t)]> cache) = <[k := contents t]> (snapshot t cache).
Proof. unfold snapshot. by rewrite fmap_insert. Qed.

Lemma snapshot_own t (m : gmap string (list Annotation)) :
  snapshot t (Own <$> m) = m.
Proof.
  unfold snapshot. rewrite <- map_fmap_compose.
  apply map_eq. intros k. rewrite lookup_fmap. by destruct (m !! k).
Qed.

Lemma bucket_storage_set io m s k :
  setFails io = false -> bucket (storage_set io m s) k = m !! k.
Proof. unfold storage_set, bucket. by intros ->. Qed.

(** A save that finds the cache still [null] writes nothing by itself. *)
Lemma saveAnnotations_unloaded io t s :
  allAnnotationsCache t = None -> saveAnnotations io t s = (t, s).
Proof. intros Hc. unfold saveAnnotations. by rewrite Hc. Qed.

(** The stored map after the callback of the read such a save issued. *)
Lemma saveAnnotations_read_map io pageKey result t s :
  getFails io = false ->
  setFails io = false ->
  annotations_or_empty (snd (saveAnnotations_read io pageKey result t s)) =
  <[pageKey := contents t]> (default ∅ result).
Proof.
  intros Hg Hs. unfold saveAnnotations_read. rewrite Hg. simpl.
  unfold storage_set. rewrite Hs. simpl.
  by rewrite snapshot_insert_alias, snapshot_own.
Qed.

Lemma saveAnnotations_read_failed io pageKey result t s :
  getFails io = true \/ setFails io = true ->
  snd (saveAnnotations_read io pageKey result t s) = s.
Proof.
  intros H. unfold saveAnnotations_read, storage_set.
  destruct (getFails io); [done|]. by destruct H as [H|H]; [|rewrite H].
Qed.

(** The stored map after a save made with a loaded cache. *)
Lemma saveAnnotations_loaded io t s cache :
  allAnnotationsCache t = Some cache ->
  setFails io = false ->
  annotations_or_empty (snd (saveAnnotations io t s)) =
  <[getPageKey (location t) := contents t]> (snapshot t cache).
Proof.
  intros Hc Hs. unfold saveAnnotations. rewrite Hc. simpl.
  unfold storage_set. rewrite Hs. simpl.
  by rewrite snapshot_insert_alias.
Qed.

Lemma saveAnnotations_failed_write io t s :
  setFails io = true -> snd (saveAnnotations io t s) = s.
Proof.
  intros Hs. unfold saveAnnotations, storage_set.
  destruct (allAnnotationsCache t); [by rewrite Hs|done].
Qed.

(** C1, as amended.  A save that finds the cache still [null] writes nothing
    at once: it issues a read of the stored map, closing over the page key
    computed at the call.  When that read returns, its callback replaces, in
    the map read, the bucket of that key by the list then bound to
    [annotations] and writes the result: every other bucket of the map read
    is written back as read, so that storage keeps its other buckets when
    the map read is what storage still holds; nothing is written when the
    read or the write fails.  A save made with a loaded cache does not read
    storage: it stores the cache with the current page's bucket replaced, so
    another page's stored bucket becomes what the cache holds for it, and it
    is left unchanged when the cache agrees with storage on it. *)
Theorem save_merges_before_load_and_writes_cache_after
    (io : StorageIO) (t : Script) (s : Storage) :
  let pageKey := getPageKey (location t) in
  let s' := snd (saveAnnotations io t s) in
  (allAnnotationsCache t = None ->
     saveAnnotations io t s = (t, s)
     /\ saveAnnotations_issues t = Some pageKey
     /\ forall (io1 : StorageIO) (result : option (gmap string (list Annotation)))
               (t1 : Script) (s1 : Storage),
          let s2 := snd (saveAnnotations_read io1 pageKey result t1 s1) in
          (getFails io1 = true \/ setFails io1 = true -> s2 = s1)
          /\ (getFails io1 = false -> setFails io1 = false ->
              annotations_or_empty s2 = <[pageKey := contents t1]> (default ∅ result)
              /\ (forall k, k <> pageKey -> bucket s2 k = default ∅ result !! k))
          /\ (result = stored_annotations s1 ->
              forall k, k <> pageKey -> bucket s2 k = bucket s1 k))
  /\ (forall cache, allAnnotationsCache t = Some cache ->
        (setFails io = false ->
         annotations_or_empty s' = <[pageKey := contents t]> (snapshot t cache))
        /\ (setFails io = false ->
            forall k, k <> pageKey -> bucket s' k = read t <$> cache !! k)
        /\ ((forall k, k <> pageKey -> read t <$> cache !! k = bucket s k) ->
            save_leaves_other_pages io t s)).
Proof.
  intros pageKey s'. split.
  - intros Hc. split; [by apply saveAnnotations_unloaded|]. split.
    { unfold saveAnnotations_issues. by rewrite Hc. }
    intros io1 result t1 s1 s2. split; [|split].
    + apply saveAnnotations_read_failed.
    + intros Hg Hs. subst s2. unfold bucket.
      rewrite saveAnnotations_read_map by done. split; [done|].
      intros k Hk. by rewrite lookup_insert_ne.
    + intros -> k Hk.
      destruct (getFails io1) eqn:Hg.
      { subst s2. rewrite saveAnnotations_read_failed; auto. }
      destruct (setFails io1) eqn:Hs.
      { subst s2. rewrite saveAnnotations_read_failed; auto. }
      subst s2. unfold bucket. rewrite saveAnnotations_read_map by done.
      by rewrite lookup_insert_ne.
  - intros cache Hc. split; [|split].
    + intros Hs. by apply saveAnnotations_loaded.
    + intros Hs k Hk. subst s'. unfold bucket.
      rewrite (saveAnnotations_loaded io t s cache) by done.
      rewrite lookup_insert_ne by done. apply snapshot_lookup.
    + intros Hagree k Hk. destruct (setFails io) eqn:Hs.
      { by rewrite saveAnnotations_failed_write. }
      unfold bucket at 1. rewrite (saveAnnotations_loaded io t s cache) by done.
      rewrite lookup_insert_ne by done. rewrite snapshot_lookup. by apply Hagree.
Qed.

(** Tab A adds comment A on [/r/1] and saves before its load has answered,
    while storage holds tab B's comment on [/r/2].  If the load failed, the
    callback of the save's read stores comment A and keeps the bucket of
    [/r/2]; if the load's callback ran first, the list stored for [/r/1] is
    the empty list the load bound, and the bucket of [/r/2] is kept as
    well.  A save made after the load stores the cache, here without the
    bucket of [/r/2]. *)
Lemma save_merges_before_load_and_writes_cache_after_witness :
  let t := push (note 1 "A") (fresh page1) in
  let loaded := fst (loadAnnotations io_ok t storage_after_B) in
  let read_back := stored_annotations storage_after_B in
  saveAnnotations io_ok t storage_after_B = (t, storage_after_B)
  /\ annotations_or_empty (snd (saveAnnotations_read io_ok "/r/1" read_back t storage_after_B))
     = <[ "/r/1" := [note 1 "A"] ]> (annotations_or_empty storage_after_B)
  /\ bucket (snd (saveAnnotations_read io_ok "/r/1" read_back t storage_after_B)) "/r/2"
     = Some [note 2 "B"]
  /\ annotations_or_empty (snd (saveAnnotations_read io_ok "/r/1" read_back loaded storage_after_B))
     = <[ "/r/1" := [] ]> (annotations_or_empty storage_after_B)
  /\ bucket (snd (saveAnnotations_read io_ok "/r/1" read_back loaded storage_after_B)) "/r/2"
     = Some [note 2 "B"]
  /\ annotations_or_empty (snd (saveAnnotations io_ok (push (note 1 "A") tabA_loaded) storage_after_B))
     = <[ "/r/1" := [note 1 "A"] ]> ∅.
Proof.
  intros t loaded read_back.
  pose proof (save_merges_before_load_and_writes_cache_after io_ok t storage_after_B)
    as [H1 _].
  pose proof (save_merges_before_load_and_writes_cache_after
                io_ok (push (note 1 "A") tabA_loaded) storage_after_B) as [_ H2].
  destruct (H1 eq_refl) as (Hcall & _ & Hread).
  destruct (Hread io_ok read_back t storage_after_B) as (_ & Hmap & Hframe).
  destruct (Hread io_ok read_back loaded storage_after_B) as (_ & Hmap' & Hframe').
  destruct (Hmap eq_refl eq_refl) as [Hm _].
  destruct (Hmap' eq_refl eq_refl) as [Hm' _].
  destruct (H2 ∅ eq_refl) as (Hloaded & _).
  split; [exact Hcall|]. split; [exact Hm|]. split.
  { etransitivity; [apply (Hframe eq_refl "/r/2"); discriminate|].
    vm_compute. reflexivity. }
  split; [exact Hm'|]. split.
  { etransitivity; [apply (Hframe' eq_refl "/r/2"); discriminate|].
    vm_compute. reflexivity. }
  rewrite (Hloaded eq_refl). vm_compute. reflexivity.
Defined.

(** C1, as stated, fails.  With two tabs, tab A's save after its load
    removes the bucket tab B stored for [/r/2]; with one tab, a save on
    [/r/2] after an in-place navigation also rewrites the bucket of [/r/1],
    whose array the variable [annotations] still refers to. *)
Lemma save_changes_other_pages :
  ~ save_leaves_other_pages io_ok (push (note 1 "A") tabA_loaded) storage_after_B
  /\ ~ save_leaves_other_pages io_ok moved_and_annotated storage_with_page1.
Proof.
  split.
  - intros H. specialize (H "/r/2"). vm_compute in H.
    specialize (H ltac:(discriminate)). discriminate.
  - intros H. specialize (H "/r/1"). vm_compute in H.
    specialize (H ltac:(discriminate)). discriminate.
Qed.

End AnnotationStore.

Section LegacyMigration.
Import Content Samples.

Lemma array_app_new t l (arrays' := arrays t ++ [l]) :
  default [] (arrays' !! length (arrays t)) = l.
Proof. subst arrays'. rewrite lookup_app_r by lia. by rewrite Nat.sub_diag. Qed.

(** Binding [annotations] to a bucket of a cache just read from storage. *)
Lemma contents_bind_bucket t (m : gmap string (list Annotation)) k :
  contents (bind_bucket k (Own <$> m) t) = default [] (m !! k).
Proof.
  unfold bind_bucket. rewrite lookup_fmap.
  destruct (m !! k) as [l|]; simpl; unfold contents, array; simpl; apply array_app_new.
Qed.

(** The cache after that binding holds the values that were read. *)
Lemma snapshot_bind_bucket t (m : gmap string (list Annotation)) k :
  let t1 := bind_bucket k (Own <$> m) t in
  snapshot t1 (default ∅ (allAnnotationsCache t1)) = m.
Proof.
  unfold bind_bucket. rewrite lookup_fmap.
  destruct (m !! k) as [l|] eqn:E; simpl.
  - apply map_eq. intros j. rewrite snapshot_lookup.
    destruct (decide (k = j)) as [<-|Hne].
    + rewrite lookup_insert_eq. simpl. unfold array. simpl.
      rewrite lookup_app_r by lia. by rewrite Nat.sub_diag, E.
    + rewrite lookup_insert_ne by done. rewrite lookup_fmap. by destruct (m !! j).
  - apply map_eq. intros j. rewrite snapshot_lookup, lookup_fmap. by destruct (m !! j).
Qed.

Lemma loadAnnotations_unfold t s :
  loadAnnotations io_ok t s =
  let m := annotations_or_empty s in
  let t1 := bind_bucket (getPageKey (location t)) (Own <$> m) t in
  if migrates (location t) m then
    let t2 := bind_bucket (pathname (location t)) (default ∅ (allAnnotationsCache t1)) t1 in
    let c := delete (pathname (location t))
               (<[getPageKey (location t) := Alias (annotations t2)]>
                  (default ∅ (allAnnotationsCache t2))) in
    (with_cache (Some c) t2, storage_set io_ok (snapshot t2 c) s)
  else (t1, s).
Proof.
  unfold loadAnnotations, migrates. cbn [getFails io_ok].
  rewrite contents_bind_bucket.
  replace (bool_decide (is_Some ((Own <$> annotations_or_empty s) !! pathname (location t))))
    with (bool_decide (is_Some (annotations_or_empty s !! pathname (location t)))); [done|].
  apply bool_decide_ext. rewrite lookup_fmap. by rewrite fmap_is_Some.
Qed.

Lemma migrates_spec l m :
  migrates l m = true <->
  default [] (m !! getPageKey l) = []
  /\ pathname l <> getPageKey l
  /\ is_Some (m !! pathname l).
Proof.
  unfold migrates. rewrite !andb_true_iff, Nat.eqb_eq, negb_true_iff,
    bool_decide_eq_true, String.eqb_neq.
  split.
  - intros [[H1 H2] H3]. split; [by apply nil_length_inv|done].
  - intros (H1 & H2 & H3). by rewrite H1.
Qed.

(** The other buckets of the cache after binding [annotations] to one. *)
Lemma bind_bucket_other t (m : gmap string (list Annotation)) k j :
  j <> k ->
  default ∅ (allAnnotationsCache (bind_bucket k (Own <$> m) t)) !! j = Own <$> m !! j.
Proof.
  intros Hne. unfold bind_bucket. rewrite lookup_fmap.
  destruct (m !! k) as [l|]; simpl; [rewrite lookup_insert_ne by done|]; apply lookup_fmap.
Qed.

Lemma bind_bucket_own k (cache : gmap string Cell) t l :
  cache !! k = Some (Own l) ->
  bind_bucket k cache t =
  {| location := location t; arrays := arrays t ++ [l];
     annotations := length (arrays t);
     allAnnotationsCache := Some (<[k := Alias (length (arrays t))]> cache);
     annotationIdCounter := annotationIdCounter t |}.
Proof. intros H. unfold bind_bucket. by rewrite H. Qed.

(** What a load that migrates leaves in storage and in [annotations]: the
    legacy bucket moved to the page key, the legacy key gone. *)
Lemma loadAnnotations_migrated t s legacy :
  migrates (location t) (annotations_or_empty s) = true ->
  annotations_or_empty s !! pathname (location t) = Some legacy ->
  annotations_or_empty (snd (loadAnnotations io_ok t s)) =
    delete (pathname (location t))
      (<[getPageKey (location t) := legacy]> (annotations_or_empty s))
  /\ contents (fst (loadAnnotations io_ok t s)) = legacy.
Proof.
  intros Hmig Hleg. rewrite loadAnnotations_unfold. cbv zeta. rewrite Hmig.
  apply migrates_spec in Hmig as (_ & Hne & _).
  set (m := annotations_or_empty s) in *.
  set (pk := getPageKey (location t)) in *.
  set (lk := pathname (location t)) in *.
  set (t1 := bind_bucket pk (Own <$> m) t).
  assert (Hc1 : default ∅ (allAnnotationsCache t1) !! lk = Some (Own legacy)).
  { subst t1. rewrite bind_bucket_other by done. by rewrite Hleg. }
  rewrite (bind_bucket_own lk _ t1 legacy Hc1).
  cbn [annotations allAnnotationsCache with_cache fst snd].
  unfold storage_set. cbn [io_ok setFails]. unfold annotations_or_empty at 1.
  cbn [stored_annotations]. simpl (default _ (Some _)).
  split.
  - apply map_eq. intros j. rewrite snapshot_lookup.
    destruct (decide (j = lk)) as [->|Hjl].
    { by rewrite !lookup_delete_eq. }
    rewrite !lookup_delete_ne by done.
    destruct (decide (j = pk)) as [->|Hjp].
    { rewrite !lookup_insert_eq. simpl. unfold array. simpl.
      rewrite lookup_app_r by lia. by rewrite Nat.sub_diag. }
    rewrite !lookup_insert_ne by done.
    subst t1. rewrite bind_bucket_other by done.
    destruct (m !! j); reflexivity.
  - unfold contents, array. simpl. rewrite lookup_app_r by lia. by rewrite Nat.sub_diag.
Qed.

Lemma loadAnnotations_not_migrated t s :
  migrates (location t) (annotations_or_empty s) = false ->
  snd (loadAnnotations io_ok t s) = s
  /\ contents (fst (loadAnnotations io_ok t s)) =
     default [] (annotations_or_empty s !! getPageKey (location t)).
Proof.
  intros Hmig. rewrite loadAnnotations_unfold. cbv zeta. rewrite Hmig.
  split; [done|]. apply contents_bind_bucket.
Qed.

(** Loading a second time, from the storage the first load left and at the
    same location, changes nothing in storage and shows the same list:
    data that was migrated from the legacy key is not migrated again. *)
Lemma legacy_migration_happens_once t t' s :
  location t' = location t ->
  let s1 := snd (loadAnnotations io_ok t s) in
  snd (loadAnnotations io_ok t' s1) = s1
  /\ contents (fst (loadAnnotations io_ok t' s1)) = contents (fst (loadAnnotations io_ok t s)).
Proof.
  intros Hloc s1.
  destruct (migrates (location t) (annotations_or_empty s)) eqn:Hmig.
  - pose proof Hmig as Hspec. apply migrates_spec in Hspec as (Hempty & Hne & [legacy Hleg]).
    destruct (loadAnnotations_migrated t s legacy Hmig Hleg) as [Hs1 Hc].
    fold s1 in Hs1.
    assert (Hno : migrates (location t') (annotations_or_empty s1) = false).
    { rewrite Hloc, Hs1. unfold migrates.
      rewrite lookup_delete_eq. rewrite bool_decide_eq_false_2 by (by intros [? ?]).
      by rewrite andb_false_r. }
    destruct (loadAnnotations_not_migrated t' s1 Hno) as [-> ->].
    split; [done|]. rewrite Hc, Hloc, Hs1.
    rewrite lookup_delete_ne by done. by rewrite lookup_insert_eq.
  - destruct (loadAnnotations_not_migrated t s Hmig) as [Hs1 Hc].
    fold s1 in Hs1. rewrite Hs1.
    assert (Hno : migrates (location t') (annotations_or_empty s) = false) by by rewrite Hloc.
    destruct (loadAnnotations_not_migrated t' s Hno) as [-> ->].
    split; [done|]. by rewrite Hc, Hloc.
Qed.

Lemma legacy_migration_happens_once_witness :
  let s1 := snd (loadAnnotations io_ok (fresh page1_query) storage_with_page1) in
  bucket s1 "/r/1?pageName=Overview" = Some [note 1 "A"]
  /\ bucket s1 "/r/1" = None
  /\ snd (loadAnnotations io_ok (fresh page1_query) s1) = s1
  /\ contents (fst (loadAnnotations io_ok (fresh page1_query) s1)) = [note 1 "A"].
Proof.
  intros s1.
  destruct (legacy_migration_happens_once (fresh page1_query) (fresh page1_query)
              storage_with_page1 eq_refl) as [H1 H2].
  split; [vm_compute; reflexivity|]. split; [vm_compute; reflexivity|].
  split; [exact H1|]. etransitivity; [exact H2|]. vm_compute. reflexivity.
Defined.

End LegacyMigration.

Section AnnotationIds.
Import Content.

Lemma session_ids_length counter clock :
  length (session_ids counter clock) = length clock.
Proof.
  revert counter. induction clock as [|now later IH]; intros counter; [done|].
  simpl. by rewrite IH.
Qed.







End AnnotationIds.

Section CaptureHandshake.
Import Content Samples.


















End CaptureHandshake.

Section ReportCanvas.
Import Dom Canvas.

Lemma first_match_none doc selectors :
  (forall s, In s selectors -> querySelector doc s = None) ->
  first_match doc selectors = None.
Proof.
  induction selectors as [|s rest IH]; intros Hmiss; [done|].
  simpl. rewrite (Hmiss s) by (by left). apply IH. intros s' Hs'. apply Hmiss. by right.
Qed.

(** The revised [getReportCanvas] reports that nothing was found whenever
    no selector of the list matches. *)
Lemma revised_getReportCanvas_not_found doc :
  (forall s, In s canvasSelectors -> querySelector doc s = None) ->
  Revised.getReportCanvas doc = None.
Proof. apply first_match_none. Qed.

Lemma largest_is_a_candidate first rest :
  In (largest first rest) (first :: rest).
Proof.
  unfold largest. revert first. induction rest as [|d rest IH]; intros first; [by left|].
  cbn [fold_left]. destruct (gt (area d) (area first)).
  - right. apply IH.
  - destruct (IH first) as [<- | H]; [by left|by right; right].
Qed.

(** [getReportCanvas] of [src/content/content.js] answers with a [div] of
    the page whenever no selector matches and some [div] is wider than 800
    and taller than 400 pixels. *)
Lemma getReportCanvas_guesses doc big :
  (forall s, In s canvasSelectors -> querySelector doc s = None) ->
  In big (divs doc) ->
  gt (width (rect big)) 800 && gt (height (rect big)) 400 = true ->
  exists div, getReportCanvas doc = Some div /\ In div (divs doc).
Proof.
  intros Hmiss Hin Hbig. unfold getReportCanvas.
  rewrite (first_match_none doc canvasSelectors Hmiss).
  destruct (List.filter _ (divs doc)) as [|first rest] eqn:E.
  - exfalso.
    assert (Hf : In big (List.filter
      (fun div => gt (width (rect div)) 800 && gt (height (rect div)) 400) (divs doc))).
    { apply filter_In. by split. }
    rewrite E in Hf. destruct Hf.
  - exists (largest first rest). split; [done|].
    pose proof (largest_is_a_candidate first rest) as H.
    rewrite <- E in H. by apply filter_In in H as [H _].
Qed.

End ReportCanvas.

Section ReportCanvasCases.
Import Dom Canvas CanvasSamples.

(** C5 at a page without a report canvas: every selector misses, and
    [getReportCanvas] of [src/content/content.js] returns the navigation
    pane, the largest [div] wider than 800 and taller than 400 pixels, where
    the revised function returns [null]. *)
Theorem getReportCanvas_returns_largest_div :
  (forall s, In s canvasSelectors -> querySelector page_without_canvas s = None)
  /\ getReportCanvas page_without_canvas = Some navigation
  /\ Revised.getReportCanvas page_without_canvas = None.
Proof. split; [done|]. split; reflexivity. Qed.

End ReportCanvasCases.

Section Crop.
Import Dom Canvas CanvasSamples.
Local Open Scope Q_scope.

Lemma dpr_of_nonzero w : ~ dpr_of w == 0.
Proof.
  unfold dpr_of. destruct (Qeq_bool (devicePixelRatio w) 0) eqn:E.
  - discriminate.
  - by apply Qeq_bool_neq.
Qed.

Lemma positive_nonzero q : 0 < q -> ~ q == 0.
Proof. intros H E. rewrite E in H. by apply Qlt_irrefl in H. Qed.

(** C4.  Reading numbers as exact rationals, for a viewport of positive
    size: both versions of [cropScreenshotToCanvas] take as source rectangle
    the target's on-screen rectangle scaled, per axis, by the captured
    image's size over the viewport's size in CSS pixels, whatever the device
    pixel ratio; and for a target that spans the viewport the source is the
    whole image from its origin, drawn onto a canvas of the viewport's size
    times the device pixel ratio. *)
Theorem crop_scales_by_image_over_viewport (w : Window) (img : Image) (target : Element) :
  0 < innerWidth w ->
  0 < innerHeight w ->
  (exists c, cropScreenshotToCanvas w (Some img) target = CroppedTo c
             /\ scaled_by_image_over_viewport w img (rect target) c)
  /\ (exists c, Revised.cropScreenshotToCanvas w (Some img) target = CroppedTo c
                /\ scaled_by_image_over_viewport w img (rect target) c)
  /\ (exists c, cropScreenshotToCanvas w (Some img) (viewport_element w) = CroppedTo c
                /\ whole_image_at_dpr w img c)
  /\ (exists c, Revised.cropScreenshotToCanvas w (Some img) (viewport_element w) = CroppedTo c
                /\ whole_image_at_dpr w img c).
Proof.
  intros Hw Hh.
  pose proof (dpr_of_nonzero w) as Hd.
  pose proof (positive_nonzero _ Hw) as Hw0.
  pose proof (positive_nonzero _ Hh) as Hh0.
  repeat split; eexists; (split; [reflexivity|]);
    unfold scaled_by_image_over_viewport, whole_image_at_dpr;
    cbn [sourceX sourceY sourceWidth sourceHeight canvas_width canvas_height
         viewport_element rect left top width height];
    repeat split; try reflexivity; field; auto.
Qed.

Lemma crop_scales_by_image_over_viewport_witness :
  (exists c, cropScreenshotToCanvas zoomed (Some capture) chart = CroppedTo c
             /\ scaled_by_image_over_viewport zoomed capture (rect chart) c)
  /\ (exists c, Revised.cropScreenshotToCanvas zoomed (Some capture) (viewport_element zoomed)
                = CroppedTo c
                /\ whole_image_at_dpr zoomed capture c
                /\ canvas_width c = 1280%Z /\ canvas_height c = 720%Z).
Proof.
  destruct (crop_scales_by_image_over_viewport zoomed capture chart)
    as (H1 & _); [reflexivity|reflexivity|].
  destruct (crop_scales_by_image_over_viewport zoomed capture chart)
    as (_ & _ & _ & c & Hc & Hwhole); [reflexivity|reflexivity|].
  split; [exact H1|].
  exists c. split; [exact Hc|]. split; [exact Hwhole|].
  destruct Hwhole as (_ & _ & _ & _ & -> & ->). split; reflexivity.
Defined.

End Crop.

Section ReportCanvasRevised.
Import Dom Canvas CanvasSamples.

Lemma getReportCanvas_guesses_witness :
  exists div, getReportCanvas page_without_canvas = Some div
              /\ In div (divs page_without_canvas).
Proof.
  apply (getReportCanvas_guesses page_without_canvas navigation).
  - intros s _. reflexivity.
  - right. left. reflexivity.
  - reflexivity.
Defined.

Lemma revised_getReportCanvas_not_found_witness :
  Revised.getReportCanvas page_without_canvas = None.
Proof. apply revised_getReportCanvas_not_found. intros s _. reflexivity. Defined.

End ReportCanvasRevised.

Section ScreenshotCache.
Import Revised CacheSamples.

Lemma cache_set_length_new key image c :
  ~ In key (keys c) -> cache_set key image c = c ++ [(key, image)].
Proof.
  induction c as [|[k v] rest IH]; intros Hnew; [done|].
  simpl in *. destruct (String.eqb_spec k key) as [->|Hne].
  - exfalso. apply Hnew. by left.
  - rewrite IH; [done|]. intros H. apply Hnew. by right.
Qed.

Lemma cache_set_length_le key image c :
  (length (cache_set key image c) <= S (length c))%nat.
Proof.
  induction c as [|[k v] rest IH]; simpl; [lia|].
  destruct (String.eqb k key); simpl; lia.
Qed.

Lemma cache_delete_head k v rest :
  ~ In k (keys rest) -> cache_delete k ((k, v) :: rest) = rest.
Proof.
  intros Hk. unfold cache_delete. simpl. rewrite String.eqb_refl. simpl.
  induction rest as [|[k' v'] rest IH]; [done|].
  simpl in *. destruct (String.eqb_spec k' k) as [->|Hne].
  - exfalso. apply Hk. by left.
  - simpl. f_equal. apply IH. intros H. apply Hk. by right.
Qed.

Lemma cache_delete_length_head k v rest :
  (length (cache_delete k ((k, v) :: rest)) <= length rest)%nat.
Proof.
  unfold cache_delete. simpl. rewrite String.eqb_refl. simpl.
  induction rest as [|e rest IH]; simpl; [lia|].
  destruct (negb (String.eqb e.1 k)); simpl; lia.
Qed.

(** The insertion done by [cacheCurrentScreenshot] keeps a cache of at most
    20 entries within 20 entries. *)
Lemma cacheCurrentScreenshot_bounded pageKey current all reply setFails st :
  (length (screenshotCache st) <= 20)%nat ->
  (length (screenshotCache (cacheCurrentScreenshot pageKey current all reply setFails st))
   <= 20)%nat.
Proof.
  intros Hlen. unfold cacheCurrentScreenshot.
  destruct (match all with Some _ => _ | None => _ end); [done|].
  destruct reply as [| |shot]; try done.
  destruct (truthy shot); [|done]. cbn [persist screenshotCache].
  set (key := if String.eqb pageKey "" then current else pageKey).
  set (c1 := cache_set key (default "" shot) (screenshotCache st)).
  pose proof (cache_set_length_le key (default "" shot) (screenshotCache st)) as Hle.
  fold c1 in Hle. unfold keys. rewrite length_map.
  destruct (Nat.ltb_spec 20 (length c1)) as [Hover|]; [|lia].
  destruct c1 as [|[k v] rest]; [simpl in *; lia|]. cbn [map fst].
  pose proof (cache_delete_length_head k v rest). simpl in Hle. lia.
Qed.

(** Inserting a new page key into a full cache of 20 distinct keys drops
    the oldest entry, keeps the others in order and puts the new one last. *)
Lemma cacheCurrentScreenshot_evicts_oldest key image oldest oldshot rest all setFails st :
  screenshotCache st = (oldest, oldshot) :: rest ->
  length rest = 19%nat ->
  NoDup (oldest :: keys rest) ->
  ~ In key (oldest :: keys rest) ->
  key <> "" ->
  image <> "" ->
  (exists l, all !! key = Some l /\ l <> []) ->
  screenshotCache (cacheCurrentScreenshot key key (Some all) (Replied (Some image)) setFails st)
  = rest ++ [(key, image)].
Proof.
  intros Hst Hlen Hnd Hnew Hkey Himg (l & Hl & Hne).
  unfold cacheCurrentScreenshot.
  destruct (String.eqb_spec key "") as [|_]; [done|].
  rewrite Hl. destruct l as [|a l]; [done|]. cbn [length Nat.eqb].
  unfold truthy. destruct (String.eqb_spec image "") as [|_]; [done|].
  cbn [negb default persist screenshotCache]. rewrite Hst.
  rewrite cache_set_length_new by done.
  unfold keys at 1. rewrite length_map, length_app. cbn [length].
  rewrite Hlen. cbn [Nat.add Nat.ltb Nat.leb].
  change (((oldest, oldshot) :: rest) ++ [(key, image)])
    with ((oldest, oldshot) :: (rest ++ [(key, image)])).
  cbn [keys map fst]. apply cache_delete_head.
  unfold keys. rewrite map_app. cbn [map fst]. intros H.
  apply in_app_or in H as [H | [<- | []]].
  - apply NoDup_cons in Hnd as [Hnd _]. apply Hnd. by apply list_elem_of_In.
  - apply Hnew. by left.
Qed.

(** C8 at a full cache of 20 pages.  Caching page 21 through
    [cacheCurrentScreenshot] evicts page 1, the oldest, and stores the
    result; the cache update of [generateMultiPagePresentation] for the same
    page evicts nothing and stores a cache of 21 entries. *)
Theorem multi_page_export_overfills_cache :
  let via_put :=
    cacheCurrentScreenshot "/p/21" "/p/21" (Some (annotated "/p/21"))
      (Replied (Some "data:image/png;base64,BBBB")) false twenty in
  let via_export :=
    generateMultiPagePresentation_cache "/p/21" (Some "data:image/png;base64,BBBB") false twenty in
  (screenshotCache via_put = tail (shots 20) ++ [("/p/21", "data:image/png;base64,BBBB")]
   /\ length (screenshotCache via_put) = 20%nat
   /\ stored_screenshotCache via_put = Some (screenshotCache via_put))
  /\ (screenshotCache via_export = shots 20 ++ [("/p/21", "data:image/png;base64,BBBB")]
      /\ length (screenshotCache via_export) = 21%nat
      /\ stored_screenshotCache via_export = Some (screenshotCache via_export)).
Proof. vm_compute. repeat split. Qed.

End ScreenshotCache.

Section ScreenshotCacheCases.
Import Revised CacheSamples.

Lemma cacheCurrentScreenshot_bounded_witness :
  (length (screenshotCache
             (cacheCurrentScreenshot "/p/21" "/p/21" (Some (annotated "/p/21"))
                (Replied (Some "data:image/png;base64,BBBB")) false twenty)) <= 20)%nat.
Proof. apply cacheCurrentScreenshot_bounded. vm_compute. lia. Defined.

Lemma cacheCurrentScreenshot_evicts_oldest_witness :
  screenshotCache
    (cacheCurrentScreenshot "/p/21" "/p/21" (Some (annotated "/p/21"))
       (Replied (Some "data:image/png;base64,BBBB")) false twenty)
  = tail (shots 20) ++ [("/p/21", "data:image/png;base64,BBBB")].
Proof.
  apply (cacheCurrentScreenshot_evicts_oldest "/p/21" "data:image/png;base64,BBBB"
           "/p/1" "data:image/png;base64,AAAA" (tail (shots 20))).
  - reflexivity.
  - reflexivity.
  - apply (bool_decide_unpack _). vm_compute. exact I.
  - intros H. apply list_elem_of_In in H. revert H.
    apply (bool_decide_unpack _). vm_compute. exact I.
  - discriminate.
  - discriminate.
  - exists [Samples.note 1 "A"]. split; [reflexivity|discriminate].
Defined.

End ScreenshotCacheCases.

Section CsvRows.
Import Revised.
Variable toLocaleDateString : string -> string.

Lemma inner_loop page anns rows n :
  fold_left (push_row toLocaleDateString page) anns (rows, n) =
  (rows ++ imap (fun i pa => row_at toLocaleDateString (n + i) pa) (map (pair page) anns),
   (n + length anns)%nat).
Proof.
  revert rows n. induction anns as [|a anns IH]; intros rows n.
  { simpl. by rewrite app_nil_r, Nat.add_0_r. }
  cbn [fold_left push_row]. rewrite IH. cbn [map imap length].
  rewrite <- app_assoc. cbn [app]. unfold row_at at 2. cbn [fst snd].
  rewrite Nat.add_0_r. f_equal; [|lia]. do 2 f_equal.
  apply imap_ext. intros i pa _. simpl. f_equal. lia.
Qed.

Lemma outer_loop pages rows n :
  fold_left (fun st page => fold_left (push_row toLocaleDateString page) (annotations page) st)
            pages (rows, n) =
  (rows ++ imap (fun i pa => row_at toLocaleDateString (n + i) pa) (flattened pages),
   (n + length (flattened pages))%nat).
Proof.
  revert rows n. induction pages as [|page pages IH]; intros rows n.
  { simpl. by rewrite app_nil_r, Nat.add_0_r. }
  cbn [fold_left]. rewrite inner_loop, IH.
  unfold flattened. cbn [flat_map]. fold (flattened pages).
  rewrite imap_app, length_app, length_map, <- app_assoc.
  f_equal; [|lia]. do 2 f_equal.
  apply imap_ext. intros i pa _. simpl. f_equal. lia.
Qed.

(** The loops of [buildCsvRows] produce one row per annotation, page by page
    in stored order, numbered from 1 across pages. *)
Lemma allRows_numbered pages :
  allRows toLocaleDateString pages = numbered_rows toLocaleDateString pages.
Proof.
  unfold allRows, numbered_rows. rewrite outer_loop. cbn [fst app].
  apply imap_ext. by intros i pa _.
Qed.

Lemma includes_In c s : includes c s = true <-> In c (list_ascii_of_string s).
Proof.
  induction s as [|a s IH]; simpl; [split; [discriminate|tauto]|].
  rewrite orb_true_iff, IH. split; (intros [H|H]; [left|by right]).
  - by apply Ascii.eqb_eq.
  - by apply Ascii.eqb_eq.
Qed.

Lemma csvCell_quoted cell :
  has_special (String_of cell) ->
  csvCell cell =
  String quote_char (double_quotes (String_of cell) +:+ String quote_char EmptyString).
Proof.
  intros H. unfold csvCell.
  assert (E : includes comma_char (String_of cell) || includes quote_char (String_of cell)
              || includes newline_char (String_of cell) = true); [|by rewrite E].
  rewrite !orb_true_iff, !includes_In. unfold has_special in H. tauto.
Qed.

Lemma csvCell_plain cell :
  ~ has_special (String_of cell) -> csvCell cell = String_of cell.
Proof.
  intros H. unfold csvCell.
  destruct (includes comma_char (String_of cell) || includes quote_char (String_of cell)
            || includes newline_char (String_of cell)) eqn:E; [|done].
  exfalso. apply H. rewrite !orb_true_iff, !includes_In in E. unfold has_special. tauto.
Qed.

(** Every double quote of the text is written twice, every other character once. *)
Lemma double_quotes_chars s :
  list_ascii_of_string (double_quotes s) =
  flat_map (fun a => if Ascii.eqb a quote_char then [quote_char; quote_char] else [a])
           (list_ascii_of_string s).
Proof.
  induction s as [|a s IH]; [done|].
  simpl. destruct (Ascii.eqb a quote_char); simpl; by rewrite IH.
Qed.

End CsvRows.

Section CsvExport.
Import Revised.

(** [buildCsvRows] writes the header line and then one line per
    annotation: the annotations of the pages in the order given, each page's
    in stored order, numbered 1, 2, 3, ... across pages, each with its page's
    name, its date and its comment.  A cell whose text has a comma, a double
    quote or a newline is written between double quotes with every double
    quote of the text doubled; any other cell is written as it is.  Handed
    a page with comments A and B and a second page with comment C, it numbers
    the rows 1, 2, 3, the first two with the first page's name and the third
    with the second page's. *)
Lemma csv_rows_numbered_across_pages
    (toLocaleDateString : string -> string) (pages : list Page) :
  allRows toLocaleDateString pages = numbered_rows toLocaleDateString pages
  /\ buildCsvRows toLocaleDateString pages =
     String.concat (String newline_char EmptyString)
       ("No,Page Name,Date,Comment"
        :: map (fun row => String.concat "," (map csvCell row))
               (numbered_rows toLocaleDateString pages))
  /\ length (allRows toLocaleDateString pages) = length (flattened pages)
  /\ (forall cell,
        (has_special (String_of cell) ->
         csvCell cell =
         String quote_char (double_quotes (String_of cell) +:+ String quote_char EmptyString)
         /\ list_ascii_of_string (double_quotes (String_of cell)) =
            flat_map (fun a => if Ascii.eqb a quote_char then [quote_char; quote_char] else [a])
                     (list_ascii_of_string (String_of cell)))
        /\ (~ has_special (String_of cell) -> csvCell cell = String_of cell))
  /\ (forall label1 label2 a b c,
        Content.comment a = "A" -> Content.comment b = "B" -> Content.comment c = "C" ->
        allRows toLocaleDateString
          [ {| name := label1; annotations := [a; b] |};
            {| name := label2; annotations := [c] |} ] =
        [ [Num 1; Str label1; Str (toLocaleDateString (Content.timestamp a)); Str "A"];
          [Num 2; Str label1; Str (toLocaleDateString (Content.timestamp b)); Str "B"];
          [Num 3; Str label2; Str (toLocaleDateString (Content.timestamp c)); Str "C"] ]).
Proof.
  split; [apply allRows_numbered|]. split; [|split; [|split]].
  - unfold buildCsvRows. by rewrite allRows_numbered.
  - rewrite allRows_numbered. unfold numbered_rows. apply length_imap.
  - intros cell. split.
    + intros H. split; [by apply csvCell_quoted|apply double_quotes_chars].
    + apply csvCell_plain.
  - intros label1 label2 a b c Ha Hb Hc. rewrite allRows_numbered.
    unfold numbered_rows, flattened, row_at. simpl. by rewrite Ha, Hb, Hc.
Qed.

End CsvExport.

Section CsvExportExample.
Import Revised Samples.

Lemma csv_rows_of_two_pages :
  allRows (fun _ => "5/1/2024")
    [ {| name := "Sales"; annotations := [note 1 "A"; note 2 "B"] |};
      {| name := "Costs"; annotations := [note 3 "C"] |} ] =
  [ [Num 1; Str "Sales"; Str "5/1/2024"; Str "A"];
    [Num 2; Str "Sales"; Str "5/1/2024"; Str "B"];
    [Num 3; Str "Costs"; Str "5/1/2024"; Str "C"] ]
  /\ csvCell (Str ("up 5%, " +:+ Dom.dquote +:+ "net" +:+ Dom.dquote)) =
     Dom.dquote +:+ "up 5%, " +:+ Dom.dquote +:+ Dom.dquote +:+ "net"
       +:+ Dom.dquote +:+ Dom.dquote +:+ Dom.dquote
  /\ csvCell (Num 12) = "12".
Proof.
  destruct (csv_rows_numbered_across_pages (fun _ => "5/1/2024") [])
    as (_ & _ & _ & Hcell & Hrows).
  split; [|split].
  - apply Hrows; reflexivity.
  - destruct (Hcell (Str ("up 5%, " +:+ Dom.dquote +:+ "net" +:+ Dom.dquote))) as [Hq _].
    destruct Hq as [-> _]; [|reflexivity].
    left. vm_compute. tauto.
  - destruct (Hcell (Num 12)) as [_ Hp]. rewrite Hp; [reflexivity|].
    vm_compute. intros [H|[H|H]]; repeat (destruct H as [H|H]; [discriminate|]); exact H.
Defined.

End CsvExportExample.

Section TwoPagesExport.
Import Content Revised MultiPage Samples ExportSamples.

Variable toLocaleDateString : string -> string.
Variable getPageName : string.
Variable URL_pathname : string -> option string.
Variable decodeURIComponent : string -> option string.

(** C9, on the code.  In the scenario of two comments A and B on [/r/1] and
    a comment C on [/r/2], the export of all pages does not give the three
    rows 1 A, 2 B, 3 C.  [onPageChanged] saves after the address has
    changed, so the array of [/r/1] is stored under [/r/2] as well (its own
    comment says: under the old key), and [annotations] stays bound to that
    array; C is pushed onto it.  Both buckets, in the cache and in storage,
    are the list A, B, C, [getAnnotatedPages] lists two pages of three
    comments, and the CSV has six rows numbered 1 to 6, each comment
    twice. *)
Theorem two_pages_scenario_exports_six_rows :
  exists t s,
    two_pages_annotated = Some (t, s)
    /\ contents t = [note 1 "A"; note 2 "B"; circle_C]
    /\ bucket s "/r/1" = Some [note 1 "A"; note 2 "B"; circle_C]
    /\ bucket s "/r/2" = Some [note 1 "A"; note 2 "B"; circle_C]
    /\ cache_of ["/r/1"; "/r/2"] t =
       Some [ ("/r/1", [note 1 "A"; note 2 "B"; circle_C]);
              ("/r/2", [note 1 "A"; note 2 "B"; circle_C]) ]
    /\ let cache := default [] (cache_of ["/r/1"; "/r/2"] t) in
       let pages :=
         csv_pages cache
           (getAnnotatedPages getPageName URL_pathname decodeURIComponent
              (getPageKey (location t)) (Some cache) []) in
       let rows := allRows toLocaleDateString pages in
       pages =
         [ {| Revised.name :=
                name_of getPageName URL_pathname decodeURIComponent "/r/2" "/r/1"
                  [note 1 "A"; note 2 "B"; circle_C];
              Revised.annotations := [note 1 "A"; note 2 "B"; circle_C] |};
           {| Revised.name :=
                name_of getPageName URL_pathname decodeURIComponent "/r/2" "/r/2"
                  [note 1 "A"; note 2 "B"; circle_C];
              Revised.annotations := [note 1 "A"; note 2 "B"; circle_C] |} ]
       /\ length rows = 6%nat
       /\ (fun row => (row !! 0%nat, row !! 3%nat)) <$> rows =
          [ (Some (Num 1), Some (Str "A")); (Some (Num 2), Some (Str "B"));
            (Some (Num 3), Some (Str "C")); (Some (Num 4), Some (Str "A"));
            (Some (Num 5), Some (Str "B")); (Some (Num 6), Some (Str "C")) ].
Proof.
  eexists _, _. split; [vm_compute; reflexivity|].
  repeat split; vm_compute; reflexivity.
Qed.

End TwoPagesExport.

Section Pagination.
Import PageExport PageExport.Pptx.

Lemma maxCommentsPerSlide_21 : maxCommentsPerSlide = 21%nat.
Proof. reflexivity. Qed.

(** The slides already finished are passed through unchanged. *)
Lemma pptx_comments_finished pageName comments finished slide currentY n :
  pptx_comments pageName comments finished slide currentY n =
  finished ++ pptx_comments pageName comments [] slide currentY n.
Proof.
  revert finished slide currentY n.
  induction comments as [|c rest IH]; intros finished slide currentY n; [done|].
  cbn [pptx_comments]. destruct (maxCommentsPerSlide <=? n)%nat.
  - rewrite IH. rewrite (IH ([] ++ [slide])). by rewrite <- app_assoc.
  - apply IH.
Qed.

Lemma pptx_comments_count pageName comments slide currentY n :
  (n <= 21)%nat ->
  length (pptx_comments pageName comments [] slide currentY n) =
  (1 + (length comments + n - 1) / 21)%nat.
Proof.
  revert slide currentY n.
  induction comments as [|c rest IH]; intros slide currentY n Hn.
  { cbn [pptx_comments length app]. rewrite Nat.div_small; lia. }
  cbn [pptx_comments]. rewrite maxCommentsPerSlide_21.
  destruct (Nat.leb_spec 21 n) as [Hfull|Hroom].
  - rewrite pptx_comments_finished, length_app, IH by lia.
    cbn [length app]. assert (n = 21%nat) as -> by lia.
    replace (S (length rest) + 21 - 1)%nat with (length rest + 1 * 21)%nat by lia.
    rewrite Nat.div_add by lia.
    replace (length rest + 1 - 1)%nat with (length rest) by lia. lia.
  - rewrite IH by lia. cbn [length]. do 2 f_equal. lia.
Qed.

Lemma pptx_comments_shape pageName comments finished slide currentY n :
  exists more later,
    pptx_comments pageName comments finished slide currentY n =
    finished ++ (slide ++ more) :: later
    /\ Forall (opens_continued_slide pageName) later.
Proof.
  revert finished slide currentY n.
  induction comments as [|c rest IH]; intros finished slide currentY n.
  { exists [], []. cbn [pptx_comments]. by rewrite app_nil_r. }
  cbn [pptx_comments]. destruct (maxCommentsPerSlide <=? n)%nat.
  - destruct (IH (finished ++ [slide])
                 (continued_slide pageName ++ comment_items c commentsListY)
                 (commentsListY + commentLineH)%Q 1%nat) as (more & later & -> & Hlater).
    exists [], (((continued_slide pageName ++ comment_items c commentsListY) ++ more) :: later).
    split; [by rewrite app_nil_r, <- app_assoc|].
    constructor; [|done]. exists c, more. by rewrite <- app_assoc.
  - destruct (IH finished (slide ++ comment_items c currentY)
                 (currentY + commentLineH)%Q (S n)) as (more & later & -> & Hlater).
    exists (comment_items c currentY ++ more), later. by rewrite <- app_assoc.
Qed.

Variable getTextWidth : string -> Q.
Variable splitTextToSize : string -> Q -> list string.

Lemma pdf_comments_finished comments finished page currentY :
  pdf_comments splitTextToSize comments finished page currentY =
  finished ++ pdf_comments splitTextToSize comments [] page currentY.
Proof.
  revert finished page currentY.
  induction comments as [|c rest IH]; intros finished page currentY; [done|].
  cbn [pdf_comments]. destruct (Pdf.pageH - Pdf.margin <? currentY + Pdf.lineHeight).
  - rewrite IH. rewrite (IH ([] ++ [page])). by rewrite <- app_assoc.
  - apply IH.
Qed.

(** With one-line comments the cursor moves by 8: a column that starts at
    [currentY] has room for [(200 - currentY) / 8] more comments, and every
    overflow page for 21. *)
Lemma pdf_comments_count comments page currentY :
  one_line_each splitTextToSize comments ->
  33 <= currentY <= 200 ->
  Z.of_nat (length (pdf_comments splitTextToSize comments [] page currentY)) =
  1 + (Z.of_nat (length comments) + 20 - (200 - currentY) / 8) / 21.
Proof.
  revert page currentY.
  induction comments as [|c rest IH]; intros page currentY Hone Hy.
  { cbn [pdf_comments length app]. rewrite Z.div_small; [done|].
    change (Z.of_nat 0) with 0.
    assert (0 <= (200 - currentY) / 8 < 21); [|lia].
    split; [apply Z.div_pos; lia|apply Z.div_lt_upper_bound; lia]. }
  apply Forall_cons in Hone as [Hc Hone].
  cbn [pdf_comments]. rewrite Hc.
  change (Z.max Pdf.lineHeight (Z.of_nat 1 * 4)) with 8.
  change (Pdf.pageH - Pdf.margin) with 200. change Pdf.lineHeight with 8.
  change (Pdf.margin + 10 + 10) with 30.
  destruct (Z.ltb_spec 200 (currentY + 8)) as [Hfull|Hroom].
  - rewrite pdf_comments_finished, length_app, Nat2Z.inj_add, IH by (done || lia).
    cbn [length app]. change (30 + 8) with 38. change ((200 - 38) / 8) with 20.
    rewrite (Z.div_small (200 - currentY) 8) by lia.
    rewrite !Nat2Z.inj_succ. change (Z.of_nat 0) with 0.
    Z.to_euclidean_division_equations. lia.
  - rewrite IH by (done || lia). cbn [length]. rewrite Nat2Z.inj_succ.
    Z.to_euclidean_division_equations. lia.
Qed.

Lemma pdf_comments_shape comments finished page currentY :
  exists more later,
    pdf_comments splitTextToSize comments finished page currentY =
    finished ++ (page ++ more) :: later
    /\ Forall (opens_continued_page splitTextToSize) later.
Proof.
  revert finished page currentY.
  induction comments as [|c rest IH]; intros finished page currentY.
  { exists [], []. cbn [pdf_comments]. by rewrite app_nil_r. }
  cbn [pdf_comments]. change (Pdf.margin + 10 + 10) with 30.
  destruct (Pdf.pageH - Pdf.margin <? currentY + Pdf.lineHeight).
  - match goal with |- context [pdf_comments _ rest _ _ ?y] =>
      destruct (IH (finished ++ [page])
                   (continued_page ++ pdf_comment_items splitTextToSize c 30) y)
        as (more & later & -> & Hlater) end.
    exists [], (((continued_page ++ pdf_comment_items splitTextToSize c 30) ++ more) :: later).
    split; [by rewrite app_nil_r, <- app_assoc|].
    constructor; [|done]. exists c, more. by rewrite <- app_assoc.
  - match goal with |- context [pdf_comments _ rest _ _ ?y] =>
      destruct (IH finished (page ++ pdf_comment_items splitTextToSize c currentY) y)
        as (more & later & -> & Hlater) end.
    exists (pdf_comment_items splitTextToSize c currentY ++ more), later.
    by rewrite <- app_assoc.
Qed.

(** C7, as amended.  [generatePptx] puts at most
    [floor(commentsListH / commentLineH) = 21] comments on a slide: [n >= 1]
    comments give [ceil(n / 21)] slides, and every slide after the first
    opens with the page name followed by [(continued)], the repeated header
    and a first comment at the top of the column.  [generatePdf] tests the
    cursor against the page bottom before each comment; with one-line
    comments the first page takes 20 of them and every further page 21, so
    [n] comments give [1 + floor(n / 21)] pages, and every page after the
    first opens with the header [Comments (continued)] and a first comment
    at height 30. *)
Theorem export_overflow_page_counts
    (screenshot : option Screenshot) (comments : list Comment) (pageName : string) :
  maxCommentsPerSlide = Z.to_nat (Qfloor (commentsListH / commentLineH))
  /\ maxCommentsPerSlide = 21%nat
  /\ (comments <> [] ->
      length (generatePptx screenshot comments pageName) =
      ceil_div (length comments) maxCommentsPerSlide)
  /\ (exists first later,
        generatePptx screenshot comments pageName = first :: later
        /\ Forall (opens_continued_slide pageName) later)
  /\ (one_line_each splitTextToSize comments ->
      length (generatePdf getTextWidth splitTextToSize screenshot comments pageName) =
      (1 + length comments / 21)%nat)
  /\ (exists first later,
        generatePdf getTextWidth splitTextToSize screenshot comments pageName = first :: later
        /\ Forall (opens_continued_page splitTextToSize) later).
Proof.
  split; [reflexivity|]. split; [reflexivity|]. split; [|split; [|split]].
  - intros Hne. unfold generatePptx. rewrite pptx_comments_count by lia.
    rewrite maxCommentsPerSlide_21. unfold ceil_div.
    destruct comments as [|c rest]; [done|]. cbn [length].
    replace (S (length rest) + 0 - 1)%nat with (length rest) by lia.
    replace (S (length rest) + 21 - 1)%nat with (length rest + 1 * 21)%nat by lia.
    rewrite Nat.div_add by lia. lia.
  - unfold generatePptx.
    destruct (pptx_comments_shape pageName comments [] (first_slide screenshot pageName)
                commentsListY 0) as (more & later & -> & Hlater).
    by exists (first_slide screenshot pageName ++ more), later.
  - intros Hone. unfold generatePdf. apply Nat2Z.inj.
    rewrite pdf_comments_count; [|done|by vm_compute].
    change ((200 - (Pdf.contentY + 12)) / 8) with 20.
    rewrite Nat2Z.inj_add, Nat2Z.inj_div. change (Z.of_nat 1) with 1.
    change (Z.of_nat 21) with 21. f_equal. f_equal. lia.
  - unfold generatePdf.
    destruct (pdf_comments_shape comments []
                (first_page getTextWidth screenshot comments pageName) (Pdf.contentY + 12))
      as (more & later & -> & Hlater).
    by exists (first_page getTextWidth screenshot comments pageName ++ more), later.
Qed.

End Pagination.

Section PaginationCases.
Import PageExport PageExport.Pptx.

Lemma export_overflow_page_counts_witness :
  length (generatePptx None (short_comments 43) "Sales") = 3%nat
  /\ length (generatePdf (fun _ => 30%Q) (fun s _ => [s]) None (short_comments 41) "Sales")
     = 2%nat.
Proof.
  destruct (export_overflow_page_counts (fun _ => 30%Q) (fun s _ => [s]) None
              (short_comments 43) "Sales") as (_ & _ & Hpptx & _).
  destruct (export_overflow_page_counts (fun _ => 30%Q) (fun s _ => [s]) None
              (short_comments 41) "Sales") as (_ & _ & _ & _ & Hpdf & _).
  split.
  - rewrite Hpptx; [reflexivity|discriminate].
  - rewrite Hpdf; [reflexivity|]. unfold one_line_each.
    apply Forall_forall. intros c _. reflexivity.
Defined.

(** C7, as stated, fails for the PDF.  41 one-line comments fill two pages,
    not the three that the height of the first page's column would give; and
    21 of them need two pages, not the one that the height of an overflow
    page's column would give. *)
Lemma pdf_pages_differ_from_column_quotient :
  length (generatePdf (fun _ => 30%Q) (fun s _ => [s]) None (short_comments 41) "Sales")
    <> ceil_div 41 (Z.to_nat (pdf_first_column / Pdf.lineHeight))
  /\ length (generatePdf (fun _ => 30%Q) (fun s _ => [s]) None (short_comments 21) "Sales")
    <> ceil_div 21 (Z.to_nat (pdf_next_column / Pdf.lineHeight)).
Proof. split; vm_compute; discriminate. Qed.

End PaginationCases.

Section PaginationInDoubles.
Import Floats.
Local Open Scope float_scope.
Set Warnings "-inexact-float".

(** [Math.floor(commentsListH / commentLineH)] evaluated in binary64
    arithmetic, as the script does, also lies in [[21, 22)]: the rounding of
    the decimal constants does not change the number of comments per slide. *)
Lemma maxCommentsPerSlide_in_binary64 :
  let margin := 0.3 in
  let contentY := margin + 0.4 + 0.2 in
  let contentH := 7.5 - contentY - margin in
  let quotient := (contentH - 0.35) / 0.28 in
  (PrimFloat.leb 21 quotient && PrimFloat.ltb quotient 22 = true)%bool
  /\ PageExport.Pptx.maxCommentsPerSlide = 21%nat.
Proof. split; [vm_compute|]; reflexivity. Qed.

Set Warnings "+inexact-float".
End PaginationInDoubles.

Section PageChange.
Import Content Samples.

(** In the revised script, the save made by [onPageChanged] stores the
    list of the page being left under the key of the page being entered, and
    the list shown for the entered page is that same list. *)
Lemma onPageChanged_keeps_the_old_list io oldKey t s cache :
  allAnnotationsCache t = Some cache ->
  setFails io = false ->
  exists t' s',
    Revised.onPageChanged io oldKey (getPageKey (location t)) t s = Some (t', s')
    /\ bucket s' (getPageKey (location t)) = Some (contents t)
    /\ contents t' = contents t.
Proof.
  intros Hc Hs. unfold Revised.onPageChanged. rewrite Hc.
  destruct (saveAnnotations io t s) as [t1 s1] eqn:E.
  assert (Hs1 : s1 = snd (saveAnnotations io t s)) by by rewrite E.
  assert (Ht1 : t1 = fst (saveAnnotations io t s)) by by rewrite E.
  eexists _, _. split; [reflexivity|]. split.
  - rewrite Hs1. unfold bucket.
    rewrite (saveAnnotations_loaded io t s cache) by done. apply lookup_insert_eq.
  - rewrite Ht1. unfold saveAnnotations. rewrite Hc. simpl.
    unfold bind_bucket. rewrite lookup_insert_eq. reflexivity.
Qed.

Lemma onPageChanged_keeps_the_old_list_witness :
  exists t' s',
    Revised.onPageChanged io_ok "/r/1" "/r/2" (fst two_on_page1) (snd two_on_page1) = Some (t', s')
    /\ bucket s' "/r/2" = Some [note 1 "A"; note 2 "B"]
    /\ contents t' = [note 1 "A"; note 2 "B"].
Proof.
  destruct (onPageChanged_keeps_the_old_list io_ok "/r/1" (fst two_on_page1) (snd two_on_page1)
              (default ∅ (allAnnotationsCache (fst two_on_page1))))
    as (t' & s' & H1 & H2 & H3); [reflexivity|reflexivity|].
  exists t', s'. split; [exact H1|]. split.
  - transitivity (Some (contents (fst two_on_page1))); [exact H2|reflexivity].
  - transitivity (contents (fst two_on_page1)); [exact H3|reflexivity].
Defined.

End PageChange.

(* ===================================================================== *)
(** * Further properties of the worker and of the store                   *)
(* ===================================================================== *)

Section Badge.
Import Background Samples.

(** In every state the worker can reach, the action badge shows the camera
    exactly when a capture token is held in session storage, and is empty
    when none is. *)
Lemma badge_shows_stored_token w :
  reachable w ->
  (session_pendingCapture (browser w) = None /\ badgeText (browser w) = "")
  \/ (exists p, session_pendingCapture (browser w) = Some p
                /\ badgeText (browser w) = camera).
Proof.
  induction 1 as [|w e Hw IH]; [by left|].
  destruct e as [tab o|request sender o|]; simpl.
  - unfold onClicked.
    destruct (armedFor (pendingCapture w) tab); [by left|].
    destruct (armedFor (session_pendingCapture (browser w)) tab); [by left|].
    exact IH.
  - destruct request; simpl; try exact IH; [right; eauto|by left].
  - exact IH.
Qed.

Lemma badge_shows_stored_token_witness :
  let w := run start [Message prepareCapture tab7 (Captured "data:,"); Restarted] in
  exists p, session_pendingCapture (browser w) = Some p /\ badgeText (browser w) = camera.
Proof.
  intros w.
  destruct (badge_shows_stored_token w) as [[H _]|H].
  - apply reach_step. apply reach_step. apply reach_start.
  - discriminate H.
  - exact H.
Defined.

End Badge.

Section SaveLoadRoundTrip.
Import Content Samples.

(** The stored map after a save made with a loaded cache, or after the
    callback of the read a save issued while the cache was [null]. *)
Lemma saved_map io pageKey t s s' :
  setFails io = false ->
  (is_Some (allAnnotationsCache t)
   /\ pageKey = getPageKey (location t)
   /\ s' = snd (saveAnnotations io t s))
  \/ (getFails io = false
      /\ exists result, s' = snd (saveAnnotations_read io pageKey result t s)) ->
  exists base, annotations_or_empty s' = <[pageKey := contents t]> base.
Proof.
  intros Hs [([cache Hc] & -> & ->)|(Hg & result & ->)].
  - exists (snapshot t cache). by apply saveAnnotations_loaded.
  - exists (default ∅ result). by apply saveAnnotations_read_map.
Qed.

(** A save that reaches storage, followed by a load under the same page key
    by a script started afresh (a page reload), gives back the list that was
    saved whenever that list is not empty.  An empty list comes back empty
    unless a bucket is stored under the legacy path-only key, whose data the
    load then moves in.  The save is either one made with a loaded cache, or
    the callback of the read that a save issued while the cache was [null];
    in the second case [t] is the script when that callback runs, and the
    saved list is the one bound to [annotations] then. *)
Lemma save_then_load_gives_the_saved_list io pageKey t t' s s' :
  setFails io = false ->
  getPageKey (location t') = pageKey ->
  (is_Some (allAnnotationsCache t)
   /\ pageKey = getPageKey (location t)
   /\ s' = snd (saveAnnotations io t s))
  \/ (getFails io = false
      /\ exists result, s' = snd (saveAnnotations_read io pageKey result t s)) ->
  let loaded := contents (fst (loadAnnotations io_ok t' s')) in
  (contents t <> [] -> loaded = contents t)
  /\ (contents t = [] -> migrates (location t') (annotations_or_empty s') = false ->
      loaded = [])
  /\ (forall legacy,
        contents t = [] ->
        pathname (location t') <> getPageKey (location t') ->
        bucket s' (pathname (location t')) = Some legacy ->
        loaded = legacy).
Proof.
  intros Hs Hkey Hsaved loaded.
  destruct (saved_map io pageKey t s s' Hs Hsaved) as (base & Hmap).
  assert (Hpk : annotations_or_empty s' !! getPageKey (location t') = Some (contents t)).
  { rewrite Hmap, Hkey. apply lookup_insert_eq. }
  split; [|split].
  - intros Hne.
    assert (Hno : migrates (location t') (annotations_or_empty s') = false).
    { unfold migrates. rewrite Hpk. simpl.
      destruct (contents t); [done|]. done. }
    subst loaded. destruct (loadAnnotations_not_migrated t' s' Hno) as [_ ->].
    by rewrite Hpk.
  - intros Hempty Hno.
    subst loaded. destruct (loadAnnotations_not_migrated t' s' Hno) as [_ ->].
    by rewrite Hpk, Hempty.
  - intros legacy Hempty Hne Hleg.
    assert (Hmig : migrates (location t') (annotations_or_empty s') = true).
    { apply migrates_spec. rewrite Hpk. simpl. split; [done|].
      split; [done|]. unfold bucket in Hleg. by rewrite Hleg. }
    subst loaded.
    by destruct (loadAnnotations_migrated t' s' legacy Hmig Hleg) as [_ ->].
Qed.

Lemma save_then_load_gives_the_saved_list_witness :
  contents (fst (loadAnnotations io_ok (fresh page1)
                   (snd (saveAnnotations io_ok (push (note 1 "A") tabA_loaded) empty_storage))))
  = [note 1 "A"]
  /\ contents (fst (loadAnnotations io_ok (fresh page1)
                      (snd (saveAnnotations_read io_ok "/r/1" None
                              (push (note 1 "A") (fresh page1)) empty_storage))))
     = [note 1 "A"].
Proof.
  split.
  - destruct (save_then_load_gives_the_saved_list io_ok "/r/1"
                (push (note 1 "A") tabA_loaded) (fresh page1) empty_storage
                (snd (saveAnnotations io_ok (push (note 1 "A") tabA_loaded) empty_storage))
                eq_refl eq_refl) as [H _].
    + left. split; [by eexists|]. split; reflexivity.
    + etransitivity; [apply H; discriminate|reflexivity].
  - destruct (save_then_load_gives_the_saved_list io_ok "/r/1"
                (push (note 1 "A") (fresh page1)) (fresh page1) empty_storage
                (snd (saveAnnotations_read io_ok "/r/1" None
                        (push (note 1 "A") (fresh page1)) empty_storage))
                eq_refl eq_refl) as [H _].
    + right. split; [reflexivity|]. by exists None.
    + etransitivity; [apply H; discriminate|reflexivity].
Defined.

End SaveLoadRoundTrip.

Section SaveBeforeLoad.
Import Content.

(** A comment saved before the initial load has answered is not stored.
    The script issues the read of [loadAnnotations()] when it starts; the
    user adds a comment [a], and the save, finding the cache still [null],
    issues a second read.  Both reads find the map [m] that storage held,
    and the callbacks run in the order the reads were issued.  The load's
    callback binds [annotations] to the list it found (the bucket of the page
    key, or the legacy bucket it moves in), so the save's callback stores
    that list under the page key, in the map it read itself: the stored
    list holds [a] only if [a] was stored already, while the list the user
    added [a] to is no longer bound. *)
Lemma save_before_load_stores_the_loaded_list (l : Location) (a : Annotation) (s : Storage) :
  let t := push a (fresh l) in
  let pageKey := getPageKey l in
  let m := annotations_or_empty s in
  let loaded := loadAnnotations io_ok t s in
  let saved := saveAnnotations_read io_ok pageKey (stored_annotations s)
                 (fst loaded) (snd loaded) in
  contents t = [a]
  /\ saveAnnotations io_ok t s = (t, s)
  /\ saveAnnotations_issues t = Some pageKey
  /\ contents (fst loaded) =
       (if migrates l m then default [] (m !! pathname l) else default [] (m !! pageKey))
  /\ contents (fst saved) = contents (fst loaded)
  /\ annotations_or_empty (snd saved) = <[pageKey := contents (fst loaded)]> m
  /\ (a ∈ default [] (bucket (snd saved) pageKey) ->
      exists k stored, m !! k = Some stored /\ a ∈ stored).
Proof.
  intros t pageKey m loaded saved.
  assert (Hloaded : contents (fst loaded) =
            (if migrates l m then default [] (m !! pathname l) else default [] (m !! pageKey))).
  { subst loaded. destruct (migrates l m) eqn:Hmig.
    - pose proof Hmig as Hspec. apply migrates_spec in Hspec as (_ & _ & [legacy Hleg]).
      destruct (loadAnnotations_migrated t s legacy Hmig Hleg) as [_ ->].
      fold m in Hleg. change (m !! pathname l = Some legacy) in Hleg. by rewrite Hleg.
    - by destruct (loadAnnotations_not_migrated t s Hmig) as [_ ->]. }
  assert (Hmap : annotations_or_empty (snd saved) = <[pageKey := contents (fst loaded)]> m).
  { subst saved. by rewrite saveAnnotations_read_map. }
  split; [done|]. split; [done|]. split; [done|]. split; [exact Hloaded|].
  split; [done|]. split; [exact Hmap|].
  unfold bucket. rewrite Hmap, lookup_insert_eq. simpl. rewrite Hloaded.
  destruct (migrates l m).
  - destruct (m !! pathname l) as [stored|] eqn:E; simpl; [by eauto|].
    by intros ?%elem_of_nil.
  - destruct (m !! pageKey) as [stored|] eqn:E; simpl; [by eauto|].
    by intros ?%elem_of_nil.
Qed.

End SaveBeforeLoad.

(* ===================================================================== *)
(** * Drawing: geometry of the boxes                                      *)
(* ===================================================================== *)

Section DrawingGeometry.
Import Content Drawing Annotate.
Local Open Scope Q_scope.

Lemma lt_spec a b : lt a b = true <-> a < b.
Proof.
  unfold lt, Dom.gt. rewrite negb_true_iff. split.
  - intros H. apply Qnot_le_lt. intros Hle. apply Qle_bool_iff in Hle. congruence.
  - intros H. destruct (Qle_bool b a) eqn:E; [|done].
    apply Qle_bool_iff in E. lra.
Qed.

Lemma lt_false a b : lt a b = false <-> b <= a.
Proof.
  unfold lt, Dom.gt. rewrite negb_false_iff. apply Qle_bool_iff.
Qed.

Lemma Qle_bool_not_lt a b : Qle_bool a b = negb (lt (b - a) 0).
Proof.
  destruct (lt (b - a) 0) eqn:E; simpl.
  - apply lt_spec in E. destruct (Qle_bool a b) eqn:E'; [|done].
    apply Qle_bool_iff in E'. lra.
  - apply lt_false in E. apply Qle_bool_iff. lra.
Qed.

Lemma Math_min_le x xs :
  Math_min x xs <= x /\ Forall (fun y => Math_min x xs <= y) xs.
Proof.
  unfold Math_min. revert x. induction xs as [|y ys IH]; intros x; simpl.
  - split; [lra|constructor].
  - destruct (IH (Qmin x y)) as [H1 H2].
    pose proof (Q.le_min_l x y). pose proof (Q.le_min_r x y).
    split; [lra|]. constructor; [lra|exact H2].
Qed.

Lemma Math_max_ge x xs :
  x <= Math_max x xs /\ Forall (fun y => y <= Math_max x xs) xs.
Proof.
  unfold Math_max. revert x. induction xs as [|y ys IH]; intros x; simpl.
  - split; [lra|constructor].
  - destruct (IH (Qmax x y)) as [H1 H2].
    pose proof (Q.le_max_l x y). pose proof (Q.le_max_r x y).
    split; [lra|]. constructor; [lra|exact H2].
Qed.

(** The bounds of a list of points enclose every point of it. *)
Lemma bounds_enclose points b :
  bounds points = Some b ->
  Forall (fun p => minX b <= px p <= maxX b /\ minY b <= py p <= maxY b) points.
Proof.
  destruct points as [|p ps]; [done|]. intros [= <-]. simpl.
  destruct (Math_min_le (px p) (map px ps)) as [Hx1 Hx2].
  destruct (Math_min_le (py p) (map py ps)) as [Hy1 Hy2].
  destruct (Math_max_ge (px p) (map px ps)) as [Hx3 Hx4].
  destruct (Math_max_ge (py p) (map py ps)) as [Hy3 Hy4].
  constructor; [lra|].
  rewrite Forall_map in Hx2, Hy2, Hx4, Hy4.
  rewrite Forall_forall in Hx2, Hy2, Hx4, Hy4. apply Forall_forall. intros q Hq.
  specialize (Hx2 q Hq). specialize (Hy2 q Hq).
  specialize (Hx4 q Hq). specialize (Hy4 q Hq). simpl in *. lra.
Qed.

Lemma find_update_first n f bs :
  (forall b, node (f b) = node b) ->
  find (is_node n) (update_first (is_node n) f bs) = f <$> find (is_node n) bs.
Proof.
  intros Hf. induction bs as [|b rest IH]; [done|]. simpl.
  destruct (is_node n b) eqn:E; simpl.
  - unfold is_node in *. by rewrite Hf, E.
  - by rewrite E.
Qed.

(** While a box is dragged with a tool other than freehand, it spans
    exactly the rectangle between the point where the drag started and the
    pointer, whichever way the pointer went: its left and top edges are the
    smaller coordinates, its right and bottom edges the larger ones. *)
Lemma dragged_box_spans_start_and_pointer e v n el :
  currentDrawingTool (pen v) <> "freehand" ->
  currentAnnotation (pen v) = Some n ->
  find (is_node n) (boxes v) = Some el ->
  exists el' w h,
    find (is_node n) (boxes (handleMouseMove e v)) = Some el'
    /\ style_width (style el') = Some w /\ style_height (style el') = Some h
    /\ 0 <= w /\ 0 <= h
    /\ style_left (style el') == Qmin (startX (pen v)) (pageX e)
    /\ style_left (style el') + w == Qmax (startX (pen v)) (pageX e)
    /\ style_top (style el') == Qmin (startY (pen v)) (pageY e)
    /\ style_top (style el') + h == Qmax (startY (pen v)) (pageY e).
Proof.
  intros Htool Hcur Hel. unfold handleMouseMove. rewrite Hcur.
  rewrite bool_decide_eq_false_2 by done. unfold with_boxes. cbn [boxes].
  rewrite find_update_first by done. rewrite Hel.
  eexists _, _, _. split; [reflexivity|]. cbn [with_drawing style drag_style style_width
    style_height style_left style_top].
  split; [reflexivity|]. split; [reflexivity|].
  split; [apply Qabs_nonneg|]. split; [apply Qabs_nonneg|].
  set (sx := startX (pen v)). set (sy := startY (pen v)).
  destruct (lt (pageX e - sx) 0) eqn:Ex, (lt (pageY e - sy) 0) eqn:Ey;
    try apply lt_spec in Ex; try apply lt_spec in Ey;
    try apply lt_false in Ex; try apply lt_false in Ey;
    repeat split;
    repeat match goal with
    | |- context [Qabs ?q] =>
        first [rewrite (Qabs_pos q) by lra | rewrite (Qabs_neg q) by lra]
    | |- context [Qmin ?a ?b] =>
        first [rewrite (Q.min_l a b) by lra | rewrite (Q.min_r a b) by lra]
    | |- context [Qmax ?a ?b] =>
        first [rewrite (Q.max_l a b) by lra | rewrite (Q.max_r a b) by lra]
    end; lra.
Qed.

End DrawingGeometry.

Section FreehandStroke.
Import Content Drawing Annotate DrawSamples.
Local Open Scope Q_scope.

(** While a freehand stroke is drawn, the box encloses every point recorded
    so far, and the path, which has one point per recorded point, stays
    inside the box: its coordinates lie between 0 and the size of the box. *)
Lemma freehand_box_encloses_the_stroke e v n el d0 :
  currentDrawingTool (pen v) = "freehand" ->
  currentAnnotation (pen v) = Some n ->
  find (is_node n) (boxes v) = Some el ->
  shape el = Path d0 ->
  let v' := handleMouseMove e v in
  exists el' w h d,
    find (is_node n) (boxes v') = Some el'
    /\ freehandPoints (pen v') = freehandPoints (pen v) ++ [point e]
    /\ style_width (style el') = Some w /\ style_height (style el') = Some h
    /\ shape el' = Path d
    /\ length d = length (freehandPoints (pen v'))
    /\ Forall (fun p => style_left (style el') <= px p <= style_left (style el') + w
                        /\ style_top (style el') <= py p <= style_top (style el') + h)
              (freehandPoints (pen v'))
    /\ Forall (fun q => 0 <= px q <= w /\ 0 <= py q <= h) d.
Proof.
  intros Htool Hcur Hel Hshape v'. subst v'. unfold handleMouseMove.
  rewrite Hcur, Htool. rewrite bool_decide_eq_true_2 by done.
  destruct (bounds (freehandPoints (pen v) ++ [point e])) as [b|] eqn:Hb.
  2:{ destruct (freehandPoints (pen v)); discriminate Hb. }
  cbn [boxes pen with_points freehandPoints].
  rewrite find_update_first.
  2:{ intros box. unfold freehand_move. by destruct (shape box). }
  rewrite Hel. cbn [fmap option_fmap option_map]. unfold freehand_move. rewrite Hshape.
  eexists _, _, _, _. split; [reflexivity|]. split; [reflexivity|].
  cbn [fmap option_fmap option_map with_drawing style shape freehand_style freehand_path
       style_width style_height style_left style_top].
  split; [reflexivity|]. split; [reflexivity|]. split; [reflexivity|].
  split; [unfold pathData; by rewrite length_map|].
  pose proof (bounds_enclose _ _ Hb) as Hin.
  split.
  - eapply Forall_impl; [exact Hin|]. intros p Hp. simpl in Hp. lra.
  - unfold pathData. apply Forall_map.
    eapply Forall_impl; [exact Hin|]. intros p Hp. simpl in *. lra.
Qed.

Lemma freehand_box_encloses_the_stroke_witness :
  exists el' d,
    find (is_node 0) (boxes (handleMouseMove (pointer 90 230) (started "freehand"))) = Some el'
    /\ shape el' = Path d /\ length d = 2%nat.
Proof.
  destruct (freehand_box_encloses_the_stroke (pointer 90 230) (started "freehand") 0%nat
              (default (createAnnotationElement (Samples.note 0 "") 0 0)
                 (find (is_node 0) (boxes (started "freehand")))) [])
    as (el' & w & h & d & H1 & H2 & _ & _ & H5 & H6 & _);
    [reflexivity|reflexivity|reflexivity|reflexivity|].
  exists el', d. split; [exact H1|]. split; [exact H5|].
  etransitivity; [exact H6|]. rewrite H2. reflexivity.
Defined.

Lemma dragged_box_spans_start_and_pointer_witness :
  exists el',
    find (is_node 0) (boxes (handleMouseMove (pointer 40 260) (started "line"))) = Some el'
    /\ style_left (style el') == 40 /\ style_width (style el') = Some (Qabs (40 - 100)).
Proof.
  destruct (dragged_box_spans_start_and_pointer (pointer 40 260) (started "line") 0%nat
              (default (createAnnotationElement (Samples.note 0 "") 0 0)
                 (find (is_node 0) (boxes (started "line")))))
    as (el' & w & h & H1 & H2 & _ & _ & _ & H3 & _);
    [discriminate|reflexivity|reflexivity|].
  exists el'. split; [exact H1|]. split; [rewrite H3; reflexivity|].
  unfold handleMouseMove in H1. simpl in H1. injection H1 as <-. reflexivity.
Defined.

End FreehandStroke.

Section FinishedDrawing.
Import Content Drawing Annotate DrawSamples.
Local Open Scope Q_scope.

Variable trim : string -> string.

Lemma contents_saveAnnotations io t s :
  contents (fst (saveAnnotations io t s)) = contents t.
Proof.
  unfold saveAnnotations. destruct (allAnnotationsCache t); [done|].
  by destruct (getFails io).
Qed.

Lemma contents_push a t :
  (annotations t < length (arrays t))%nat ->
  contents (push a t) = contents t ++ [a].
Proof.
  intros Hwf. unfold contents, array, push. cbn [arrays annotations].
  rewrite list_lookup_alter_eq.
  destruct (lookup_lt_is_Some_2 (arrays t) (annotations t) Hwf) as [l ->]. reflexivity.
Qed.

(** The element under the pen after a move, for either kind of tool. *)
Lemma moved_element e v n el :
  currentAnnotation (pen v) = Some n ->
  find (is_node n) (boxes v) = Some el ->
  (currentDrawingTool (pen v) = "freehand" -> exists d, shape el = Path d) ->
  let v1 := handleMouseMove e v in
  script v1 = script v
  /\ currentAnnotation (pen v1) = Some n
  /\ currentDrawingTool (pen v1) = currentDrawingTool (pen v)
  /\ currentColor (pen v1) = currentColor (pen v)
  /\ startX (pen v1) = startX (pen v) /\ startY (pen v1) = startY (pen v)
  /\ exists el1 w h,
       find (is_node n) (boxes v1) = Some el1
       /\ style_width (style el1) = Some w /\ style_height (style el1) = Some h
       /\ if bool_decide (currentDrawingTool (pen v) = "freehand")
          then exists b, bounds (freehandPoints (pen v1)) = Some b
                         /\ shape el1 = freehand_path b (freehandPoints (pen v1))
          else w = Qabs (pageX e - startX (pen v)) /\ h = Qabs (pageY e - startY (pen v))
               /\ shape el1 = updateAnnotationVisual (currentDrawingTool (pen v))
                                (pageX e - startX (pen v)) (pageY e - startY (pen v)).
Proof.
  intros Hcur Hel Hfree v1. subst v1. unfold handleMouseMove. rewrite Hcur.
  destruct (bool_decide (currentDrawingTool (pen v) = "freehand")) eqn:Etool.
  - apply bool_decide_eq_true in Etool. destruct (Hfree Etool) as [d0 Hshape].
    destruct (bounds (freehandPoints (pen v) ++ [point e])) as [b|] eqn:Hb.
    2:{ destruct (freehandPoints (pen v)); discriminate Hb. }
    cbn [script boxes pen with_points freehandPoints currentAnnotation currentDrawingTool
         currentColor startX startY].
    repeat (split; [done|]).
    rewrite find_update_first.
    2:{ intros box. unfold freehand_move. by destruct (shape box). }
    rewrite Hel. cbn [fmap option_fmap option_map]. unfold freehand_move. rewrite Hshape.
    eexists _, _, _. split; [reflexivity|]. split; [reflexivity|]. split; [reflexivity|].
    exists b. split; [exact Hb|reflexivity].
  - unfold with_boxes.
    cbn [script boxes pen currentAnnotation currentDrawingTool currentColor startX startY].
    repeat (split; [done|]).
    rewrite find_update_first by done. rewrite Hel.
    eexists _, _, _. split; [reflexivity|]. split; [reflexivity|]. split; [reflexivity|].
    done.
Qed.

(** An annotation is redrawn as it was drawn.  When a drag ends where the
    pointer last moved, the box is at least 10 by 10 pixels and the comment
    is accepted, exactly one annotation is appended to the list, with the
    trimmed comment; the finished box carries its id and shows the new
    length of the list as its number; and [createAnnotationElement] applied
    to the stored annotation, as [loadAnnotations] does after a reload, gives
    a box of the same size with the same drawing, pointing the same way,
    for every tool.  The size read by [getBoundingClientRect] is taken to be
    the size assigned to the box. *)
Lemma stored_annotation_redraws_as_drawn io now iso href e v n el comment s number m :
  (annotations (script v) < length (arrays (script v)))%nat ->
  currentAnnotation (pen v) = Some n ->
  find (is_node n) (boxes v) = Some el ->
  (currentDrawingTool (pen v) = "freehand" -> exists d, shape el = Path d) ->
  accepted trim comment = true ->
  let v1 := handleMouseMove e v in
  exists el1 w h,
    find (is_node n) (boxes v1) = Some el1
    /\ style_width (style el1) = Some w /\ style_height (style el1) = Some h
    /\ (lt w 10 = false -> lt h 10 = false ->
        exists p a el3,
          handleMouseUp e w h v1 = (with_boxes (boxes v1)
                                      {| script := script v1; boxes := boxes v1;
                                         pen := with_current None (pen v1) |}, Some p)
          /\ let v3 := fst (promptAnswered trim io now iso href p comment
                              (fst (handleMouseUp e w h v1)) s) in
             contents (script v3) = contents (script v) ++ [a]
             /\ Content.comment a = trim (default "" comment)
             /\ find (is_node n) (boxes v3) = Some el3
             /\ dataset_id el3 = Some (Content.id a)
             /\ Annotate.number el3 = Some (length (contents (script v3)))
             /\ shape (createAnnotationElement a number m) = shape el3
             /\ style_width (style (createAnnotationElement a number m))
                = style_width (style el3)
             /\ style_height (style (createAnnotationElement a number m))
                = style_height (style el3)).
Proof.
  intros Hwf Hcur Hel Hfree Hacc v1.
  destruct (moved_element e v n el Hcur Hel Hfree)
    as (Hscript & Hcur1 & Htool1 & Hcol1 & Hsx & Hsy & el1 & w & h & Hel1 & Hw & Hh & Hshape).
  fold v1 in Hscript, Hcur1, Htool1, Hcol1, Hsx, Hsy, Hel1, Hshape.
  exists el1, w, h. split; [exact Hel1|]. split; [exact Hw|]. split; [exact Hh|].
  intros Hw10 Hh10.
  unfold handleMouseUp. rewrite Hcur1, Hw10, Hh10. cbn [orb fst].
  eexists _, _, _. split; [reflexivity|].
  unfold promptAnswered. cbn [finishedAnnotation boxes script pen].
  rewrite Hel1, Hacc. unfold generateAnnotationId.
  match goal with |- context [saveAnnotations io ?t s] =>
    pose proof (contents_saveAnnotations io t s) as Hsave;
    destruct (saveAnnotations io t s) as [t' s'] end.
  cbn [fst script boxes] in *.
  rewrite Hsave, contents_push by (by rewrite Hscript).
  rewrite find_update_first by done. rewrite Hel1.
  cbn [fmap option_fmap option_map finish dataset_id Annotate.number shape style
       rect_width rect_height toolUsed colorUsed capturedFreehandPoints
       drawStartX drawStartY drawEndX drawEndY].
  unfold contents at 1 2, array, with_counter. cbn [arrays annotations]. rewrite Hscript.
  split; [reflexivity|]. split; [reflexivity|]. split; [reflexivity|].
  split; [reflexivity|]. split; [reflexivity|].
  cbn [createAnnotationElement shape style stored_style style_width style_height
       new_annotation width height finish].
  rewrite Hw, Hh. split; [|done].
  unfold stored_shape, tool_or_rectangle.
  cbn [new_annotation tool freehandPath startPoint endPoint width height
       capturedFreehandPoints toolUsed rect_width rect_height drawStartX drawStartY
       drawEndX drawEndY px py].
  rewrite Htool1, Hsx, Hsy.
  destruct (bool_decide (currentDrawingTool (pen v) = "freehand")) eqn:Etool.
  - apply bool_decide_eq_true in Etool. rewrite Etool.
    destruct Hshape as (b & Hb & Hshape). simpl bool_decide. cbn iota.
    rewrite Hb, Hshape. reflexivity.
  - apply bool_decide_eq_false in Etool.
    destruct Hshape as (-> & -> & ->).
    set (tool := currentDrawingTool (pen v)) in *.
    assert (Hdir : getDirection (Some {| px := startX (pen v); py := startY (pen v) |})
                     (Some {| px := pageX e; py := pageY e |})
                     (Qabs (pageX e - startX (pen v))) (Qabs (pageY e - startY (pen v)))
                   = drag_segment (pageX e - startX (pen v)) (pageY e - startY (pen v))).
    { unfold getDirection, drag_segment. cbn [px py].
      rewrite !Qle_bool_not_lt.
      by destruct (lt (pageX e - startX (pen v)) 0), (lt (pageY e - startY (pen v)) 0). }
    destruct (bool_decide (tool = "")) eqn:Eempty.
    + apply bool_decide_eq_true in Eempty. rewrite Eempty. reflexivity.
    + rewrite (bool_decide_eq_false_2 (tool = "freehand")) by done.
      rewrite Hdir. unfold updateAnnotationVisual, finish.
      destruct (bool_decide (tool = "rectangle")) eqn:Erect.
      * apply bool_decide_eq_true in Erect. rewrite Erect. reflexivity.
      * reflexivity.
Qed.

End FinishedDrawing.

Section FinishedDrawingCases.
Import Content Drawing Annotate DrawSamples.
Local Open Scope Q_scope.

Lemma stored_annotation_redraws_as_drawn_witness :
  exists el1 w h,
    find (is_node 0) (boxes (handleMouseMove (pointer 40 260) (started "arrow"))) = Some el1
    /\ style_width (style el1) = Some w /\ style_height (style el1) = Some h.
Proof.
  destruct (stored_annotation_redraws_as_drawn (fun c => c) io_ok 1714557600000
              "2024-05-01T10:00:00.000Z" "https://app.powerbi.com/r/1"
              (pointer 40 260) (started "arrow") 0%nat
              (default (createAnnotationElement (Samples.note 0 "") 0 0)
                 (find (is_node 0) (boxes (started "arrow"))))
              (Some "Check") Samples.empty_storage 1%nat 1%nat)
    as (el1 & w & h & H1 & H2 & H3 & _).
  - vm_compute. lia.
  - reflexivity.
  - reflexivity.
  - discriminate.
  - reflexivity.
  - exists el1, w, h. split; [exact H1|]. split; [exact H2|exact H3].
Defined.

End FinishedDrawingCases.

Section AcceptedDrawings.
Import Content Drawing Annotate DrawSamples.
Local Open Scope Q_scope.

Variable trim : string -> string.

(** The end of a drag never stores an annotation without text or one
    smaller than 10 pixels: after [handleMouseUp] and the answer to its
    prompt, the list is either unchanged, with storage untouched, or longer
    by one annotation whose comment is the trimmed answer and is not empty,
    and whose width and height are the measured ones and at least 10. *)
Lemma drawn_annotations_have_text_and_size io now iso href e w h comment v s :
  (annotations (script v) < length (arrays (script v)))%nat ->
  let r := finishDrag trim io now iso href e w h comment v s in
  (contents (script (fst r)) = contents (script v) /\ snd r = s)
  \/ exists a c,
       contents (script (fst r)) = contents (script v) ++ [a]
       /\ comment = Some c /\ Content.comment a = trim c /\ Content.comment a <> ""
       /\ width a = w /\ height a = h /\ 10 <= w /\ 10 <= h
       /\ Content.id a = fst (generateAnnotationId now (annotationIdCounter (script v))).
Proof.
  intros Hwf. unfold finishDrag, handleMouseUp.
  destruct (currentAnnotation (pen v)) as [n|]; [|by left].
  destruct (lt w 10) eqn:Ew; [by left|].
  destruct (lt h 10) eqn:Eh; [by left|].
  cbn [orb]. unfold promptAnswered. cbn [finishedAnnotation boxes script].
  destruct (find (is_node n) (boxes v)) as [el|]; [|by left].
  destruct (accepted trim comment) eqn:Eacc; [|by left].
  unfold generateAnnotationId.
  match goal with |- context [saveAnnotations io ?t s] =>
    pose proof (contents_saveAnnotations io t s) as Hsave;
    destruct (saveAnnotations io t s) as [t' s'] end.
  cbn [fst script] in *. right.
  rewrite Hsave, contents_push by done.
  destruct comment as [c|]; [|discriminate Eacc]. simpl in Eacc.
  apply andb_true_iff in Eacc as [_ Etrim].
  apply negb_true_iff, bool_decide_eq_false in Etrim.
  apply lt_false in Ew, Eh.
  eexists _, c. split; [reflexivity|]. by repeat split.
Qed.

End AcceptedDrawings.

Section AcceptedDrawingsCases.
Import Content Drawing Annotate DrawSamples.

Lemma drawn_annotations_have_text_and_size_witness :
  exists a,
    contents (script (fst (finishDrag (fun c => c) io_ok 1714557600000
                             "2024-05-01T10:00:00.000Z" "https://app.powerbi.com/r/1"
                             (pointer 40 260) 60 60 (Some "Check")
                             (handleMouseMove (pointer 40 260) (started "arrow"))
                             Samples.empty_storage)))
    = [a] /\ Content.comment a = "Check".
Proof.
  destruct (drawn_annotations_have_text_and_size (fun c => c) io_ok 1714557600000
              "2024-05-01T10:00:00.000Z" "https://app.powerbi.com/r/1"
              (pointer 40 260) 60 60 (Some "Check")
              (handleMouseMove (pointer 40 260) (started "arrow")) Samples.empty_storage
              ltac:(vm_compute; lia))
    as [[H _]|(a & c & H1 & H2 & H3 & _)].
  - vm_compute in H. discriminate H.
  - exists a. split; [exact H1|]. injection H2 as <-. exact H3.
Defined.

End AcceptedDrawingsCases.

(* ===================================================================== *)
(** * The badges on the page and the numbers in the sidebar               *)
(* ===================================================================== *)

Section Badges.
Import Content Drawing Annotate DrawSamples.

Lemma has_id_spec i b : has_id i b = true <-> page_id b = Some i.
Proof.
  unfold has_id, page_id. destruct (attached b); simpl; [|done].
  by rewrite bool_decide_eq_true.
Qed.

Lemma has_id_other i j b : i <> j -> has_id i b = true -> has_id j b = false.
Proof.
  intros Hij Hi. apply has_id_spec in Hi.
  destruct (has_id j b) eqn:Hj; [|done]. apply has_id_spec in Hj. congruence.
Qed.

Lemma has_id_set_badge i n b : has_id i (set_badge n b) = has_id i b.
Proof. unfold set_badge. by destruct (Annotate.number b). Qed.

Lemma has_id_detach i b : has_id i (detach b) = false.
Proof. done. Qed.

(** Changing the first box found for one id leaves the badge found for
    another id as it was, when the change does not give the box that id. *)
Lemma badge_update_other i j f bs :
  i <> j ->
  (forall b, has_id i b = true -> has_id j (f b) = false) ->
  badge j (update_first (has_id i) f bs) = badge j bs.
Proof.
  intros Hij Hf. unfold badge, querySelector.
  induction bs as [|b rest IH]; [done|]. simpl.
  destruct (has_id i b) eqn:Ei; simpl.
  - by rewrite (Hf b Ei), (has_id_other i j b Hij Ei).
  - destruct (has_id j b); [done|exact IH].
Qed.

Lemma badge_update_same i n bs :
  is_Some (badge i bs) ->
  badge i (update_first (has_id i) (set_badge n) bs) = Some n.
Proof.
  unfold badge, querySelector. induction bs as [|b rest IH]; simpl.
  - by intros [? ?].
  - destruct (has_id i b) eqn:Ei; simpl.
    + rewrite has_id_set_badge, Ei. intros [k Hk]. unfold set_badge. by rewrite Hk.
    + rewrite Ei. exact IH.
Qed.

Lemma renumber_other index annotations bs j :
  j ∉ (Content.id <$> annotations) ->
  badge j (renumber index annotations bs) = badge j bs.
Proof.
  revert index bs. induction annotations as [|a rest IH]; intros index bs Hj; [done|].
  simpl in *. apply not_elem_of_cons in Hj as [Hne Hj].
  rewrite IH by done. apply badge_update_other; [done|].
  intros b Hb. rewrite has_id_set_badge. by apply (has_id_other (Content.id a)).
Qed.

(** [renumberAnnotations] gives every annotation that has a box with a
    badge its position in the list, when the ids are distinct. *)
Lemma renumber_badges index annotations bs k a :
  NoDup (Content.id <$> annotations) ->
  all_boxed annotations bs ->
  annotations !! k = Some a ->
  badge (Content.id a) (renumber index annotations bs) = Some (S (index + k)).
Proof.
  revert index bs k.
  induction annotations as [|a0 rest IH]; intros index bs k Hnd Hbox Hk; [done|].
  simpl in Hnd. apply NoDup_cons in Hnd as [Hnew Hnd].
  apply Forall_cons in Hbox as [Hbox0 Hbox]. simpl.
  destruct k as [|k]; simpl in Hk.
  - injection Hk as <-. rewrite renumber_other by done.
    rewrite Nat.add_0_r. by apply badge_update_same.
  - replace (S (index + S k)) with (S (S index + k)) by lia.
    apply IH; [done| |done].
    apply Forall_forall. intros a' Ha'.
    rewrite badge_update_other; [by apply (proj1 (Forall_forall _ _) Hbox)| |].
    + intros Heq. apply Hnew. rewrite Heq. by apply list_elem_of_fmap_2.
    + intros b Hb. rewrite has_id_set_badge. apply (has_id_other (Content.id a0)); [|done].
      intros Heq. apply Hnew. rewrite Heq. by apply list_elem_of_fmap_2.
Qed.

Lemma renumberAnnotations_agree annotations bs :
  NoDup (Content.id <$> annotations) ->
  all_boxed annotations bs ->
  badges_agree annotations (renumberAnnotations annotations bs).
Proof.
  intros Hnd Hbox. unfold badges_agree, renderComments.
  apply Forall_lookup. intros k item Hitem.
  rewrite list_lookup_imap in Hitem.
  destruct (annotations !! k) as [a|] eqn:Ha; [|done]. injection Hitem as <-. simpl.
  by apply (renumber_badges 0 annotations bs k a).
Qed.

Lemma contents_assign l t : contents (assign l t) = l.
Proof. unfold contents, array, assign. cbn [arrays annotations]. apply array_app_new. Qed.

Lemma querySelector_update_none i P f bs :
  (forall b, has_id i (f b) = has_id i b) ->
  querySelector i bs = None ->
  querySelector i (update_first P f bs) = None.
Proof.
  intros Hf. unfold querySelector. induction bs as [|b rest IH]; [done|]. simpl.
  destruct (has_id i b) eqn:Ei; [done|]. intros Hrest.
  destruct (P b); simpl.
  - by rewrite Hf, Ei.
  - rewrite Ei. by apply IH.
Qed.

Lemma renumber_none i index annotations bs :
  querySelector i bs = None -> querySelector i (renumber index annotations bs) = None.
Proof.
  revert index bs. induction annotations as [|a rest IH]; intros index bs H; [done|].
  simpl. apply IH. apply querySelector_update_none; [|done].
  intros b. apply has_id_set_badge.
Qed.

Lemma detached_box_is_gone i bs :
  (forall b1 b2 k1 k2, bs !! k1 = Some b1 -> bs !! k2 = Some b2 ->
     has_id i b1 = true -> has_id i b2 = true -> k1 = k2) ->
  querySelector i (update_first (has_id i) detach bs) = None.
Proof.
  unfold querySelector. induction bs as [|b rest IH]; [done|]. intros Huniq. simpl.
  destruct (has_id i b) eqn:Ei; simpl.
  - destruct (find (has_id i) rest) as [b'|] eqn:Hfind; [|done].
    apply find_some in Hfind as [Hin Hb'].
    apply list_elem_of_In, list_elem_of_lookup in Hin as [k Hk].
    specialize (Huniq b b' 0%nat (S k) eq_refl Hk Ei Hb'). discriminate Huniq.
  - rewrite Ei. apply IH. intros b1 b2 k1 k2 H1 H2 E1 E2.
    specialize (Huniq b1 b2 (S k1) (S k2) H1 H2 E1 E2). lia.
Qed.

(** Deleting keeps the page in step with the sidebar.  When the ids in the
    list are distinct and every annotation has its box with a badge, a
    confirmed delete removes exactly the annotations with the given id,
    keeps the others in order, and leaves every remaining box showing the
    number the sidebar gives its comment (its position in the new list);
    when at most one box carries the deleted id, no box for it is left;
    when the cache is loaded and the write reaches storage, the stored
    bucket of the page is the new list; and while the cache is still [null]
    the delete writes nothing itself (its save only issues a read). *)
Lemma deleteAnnotation_keeps_badges_in_step io i v s :
  NoDup (Content.id <$> contents (script v)) ->
  all_boxed (contents (script v)) (boxes v) ->
  let r := deleteAnnotation io i v s in
  contents (script (fst r)) = filter (fun a => Content.id a <> i) (contents (script v))
  /\ badges_agree (contents (script (fst r))) (boxes (fst r))
  /\ ((forall b1 b2 k1 k2, boxes v !! k1 = Some b1 -> boxes v !! k2 = Some b2 ->
         has_id i b1 = true -> has_id i b2 = true -> k1 = k2) ->
      querySelector i (boxes (fst r)) = None)
  /\ (setFails io = false ->
      is_Some (allAnnotationsCache (script v)) ->
      bucket (snd r) (getPageKey (location (script v))) = Some (contents (script (fst r))))
  /\ (allAnnotationsCache (script v) = None -> snd r = s).
Proof.
  intros Hnd Hbox r. subst r. unfold deleteAnnotation.
  set (kept := filter (fun a => Content.id a <> i) (contents (script v))).
  pose proof (contents_saveAnnotations io (assign kept (script v)) s) as Hsave.
  assert (Hmap : setFails io = false -> is_Some (allAnnotationsCache (script v)) ->
            bucket (snd (saveAnnotations io (assign kept (script v)) s))
              (getPageKey (location (script v))) = Some kept).
  { intros Hs [cache Hc]. unfold bucket.
    rewrite (saveAnnotations_loaded io (assign kept (script v)) s cache Hc Hs).
    rewrite contents_assign. apply lookup_insert_eq. }
  assert (Hnull : allAnnotationsCache (script v) = None ->
            snd (saveAnnotations io (assign kept (script v)) s) = s).
  { intros Hc. by rewrite saveAnnotations_unloaded. }
  destruct (saveAnnotations io (assign kept (script v)) s) as [t' s'].
  cbn [fst snd script boxes] in *. rewrite contents_assign in Hsave.
  rewrite Hsave. split; [done|].
  assert (Hnd' : NoDup (Content.id <$> kept)).
  { subst kept. clear -Hnd. induction (contents (script v)) as [|a l IH]; [constructor|].
    simpl in Hnd. apply NoDup_cons in Hnd as [Hnew Hnd].
    rewrite filter_cons. destruct (decide (Content.id a <> i)); [|by apply IH].
    simpl. apply NoDup_cons. split; [|by apply IH].
    intros Hin. apply Hnew. apply list_elem_of_fmap in Hin as (a' & Heq & Ha').
    apply list_elem_of_filter in Ha' as [_ Ha']. rewrite Heq. by apply list_elem_of_fmap_2. }
  split; [|split; [|split]].
  - apply renumberAnnotations_agree; [done|].
    apply Forall_forall. intros a Ha. apply list_elem_of_filter in Ha as [Hne Ha].
    rewrite badge_update_other; [by apply (proj1 (Forall_forall _ _) Hbox)|done|].
    intros b _. apply has_id_detach.
  - intros Huniq. apply renumber_none. by apply detached_box_is_gone.
  - exact Hmap.
  - exact Hnull.
Qed.

Lemma deleteAnnotation_keeps_badges_in_step_witness :
  let r := deleteAnnotation io_ok 12 (fst three_notes) (snd three_notes) in
  map Content.comment (contents (script (fst r))) = ["A"; "C"]
  /\ badges_agree (contents (script (fst r))) (boxes (fst r)).
Proof.
  intros r.
  destruct (deleteAnnotation_keeps_badges_in_step io_ok 12 (fst three_notes) (snd three_notes))
    as (H1 & H2 & _).
  - vm_compute. apply NoDup_ListNoDup. repeat constructor; simpl; intuition discriminate.
  - vm_compute. repeat constructor; eexists; reflexivity.
  - split; [|exact H2]. subst r. rewrite H1. reflexivity.
Defined.

End Badges.

(* ===================================================================== *)
(** * Labels, the CSV file and the presentation                           *)
(* ===================================================================== *)

Section PageNames.
Import Labels.

Variable trim : string -> string.
Variable without_selected : string -> string.
Variable without_active : string -> string.
Variable without_power_bi : string -> string.

Lemma label_of_not_empty element pageName :
  label_of trim without_selected without_active element = Some pageName -> pageName <> "".
Proof.
  unfold label_of.
  destruct (negb _ && negb _); [|done].
  destruct (bool_decide (trim _ = "")) eqn:E; [done|].
  apply bool_decide_eq_false in E. by intros [= <-].
Qed.

Lemma first_label_not_empty d selectors pageName :
  first_label trim without_selected without_active d selectors = Some pageName ->
  pageName <> "".
Proof.
  induction selectors as [|selector rest IH]; [done|]. simpl.
  destruct (querySelector d selector) as [element|]; [|exact IH].
  destruct (label_of _ _ _ element) eqn:E; [|exact IH].
  intros [= <-]. by apply (label_of_not_empty element).
Qed.

(** [getPageName] never returns the empty string, whatever the page holds
    and whatever [trim] and the regular expressions do: a name taken from an
    element or from the title is returned only when it is not empty, a path
    segment is never empty, and the last resort is a fixed name. *)
Lemma getPageName_is_never_empty d :
  getPageName trim without_selected without_active without_power_bi d <> "".
Proof.
  unfold getPageName.
  destruct (first_label _ _ _ d activePageSelectors) as [pageName|] eqn:E.
  { by apply (first_label_not_empty d activePageSelectors). }
  destruct (negb (bool_decide (document_title d = ""))
            && negb (bool_decide (trim (without_power_bi (document_title d)) = ""))
            && (5 <? String.length (trim (without_power_bi (document_title d))))%nat) eqn:Et.
  { apply andb_true_iff in Et as [Et _]. apply andb_true_iff in Et as [_ Et].
    by apply negb_true_iff, bool_decide_eq_false in Et. }
  destruct (last (parts (pathname d))) as [part|] eqn:El; [|done].
  apply last_Some in El as [l' El].
  assert (Hin : part ∈ parts (pathname d)).
  { rewrite El. apply elem_of_app. right. apply list_elem_of_singleton. done. }
  unfold parts in Hin. by apply list_elem_of_filter in Hin as [Hne _].
Qed.

End PageNames.

Section Times.
Import Labels.

(** [formatTime] in terms of the time elapsed, in milliseconds: under one
    minute (or a time in the future) it reads [Just now]; under one hour it
    reads the whole minutes elapsed, between 1 and 59; under one day the
    whole hours elapsed, between 1 and 23; from one day on, the date. *)
Lemma formatTime_reads_the_elapsed_time (toLocaleDateString : option Z -> string) now d :
  let elapsed := now - d in
  let out := formatTime toLocaleDateString now (Some d) in
  (elapsed < 60000 -> out = "Just now")
  /\ (60000 <= elapsed < 3600000 ->
      exists m, 1 <= m <= 59 /\ m * 60000 <= elapsed < (m + 1) * 60000
                /\ out = decimal m +:+ "m ago")
  /\ (3600000 <= elapsed < 86400000 ->
      exists h, 1 <= h <= 23 /\ h * 3600000 <= elapsed < (h + 1) * 3600000
                /\ out = decimal h +:+ "h ago")
  /\ (86400000 <= elapsed -> out = toLocaleDateString (Some d)).
Proof.
  intros elapsed out. subst out. unfold formatTime. fold elapsed.
  split; [|split; [|split]]; intros H.
  - destruct (Z.ltb_spec (elapsed / 60000) 1) as [_|Hge]; [done|].
    exfalso. Z.to_euclidean_division_equations. lia.
  - destruct (Z.ltb_spec (elapsed / 60000) 1) as [Hlt|_].
    { exfalso. Z.to_euclidean_division_equations. lia. }
    destruct (Z.ltb_spec (elapsed / 60000) 60) as [_|Hge].
    2:{ exfalso. Z.to_euclidean_division_equations. lia. }
    exists (elapsed / 60000). split; [|split; [|done]];
      Z.to_euclidean_division_equations; lia.
  - destruct (Z.ltb_spec (elapsed / 60000) 1) as [Hlt|_].
    { exfalso. Z.to_euclidean_division_equations. lia. }
    destruct (Z.ltb_spec (elapsed / 60000) 60) as [Hlt|_].
    { exfalso. Z.to_euclidean_division_equations. lia. }
    destruct (Z.ltb_spec (elapsed / 60000) 1440) as [_|Hge].
    2:{ exfalso. Z.to_euclidean_division_equations. lia. }
    exists (elapsed / 60000 / 60). split; [|split; [|done]];
      Z.to_euclidean_division_equations; lia.
  - destruct (Z.ltb_spec (elapsed / 60000) 1) as [Hlt|_].
    { exfalso. Z.to_euclidean_division_equations. lia. }
    destruct (Z.ltb_spec (elapsed / 60000) 60) as [Hlt|_].
    { exfalso. Z.to_euclidean_division_equations. lia. }
    destruct (Z.ltb_spec (elapsed / 60000) 1440) as [Hlt|_]; [|done].
    exfalso. Z.to_euclidean_division_equations. lia.
Qed.

End Times.

Section OnePageCsv.
Import Content Revised.

Variable toLocaleDateString : string -> string.

(** The CSV file the older [exportAnnotations] writes for a page is the
    file [buildCsvRows] of the later revision writes when it is given that
    page alone: the two revisions agree on a single-page export, cell for
    cell.  The file is downloaded exactly when the list is not empty. *)
Lemma one_page_csv_is_buildCsvRows now pageName (l : list Annotation) :
  Sheet.csvContent toLocaleDateString pageName l
  = buildCsvRows toLocaleDateString [{| name := pageName; annotations := l |}]
  /\ Sheet.download (Sheet.exportAnnotations toLocaleDateString now pageName l)
     = if l is [] then None
       else Some (Sheet.filename now,
                  buildCsvRows toLocaleDateString [{| name := pageName; annotations := l |}]).
Proof.
  assert (H : Sheet.csvContent toLocaleDateString pageName l
              = buildCsvRows toLocaleDateString [{| name := pageName; annotations := l |}]).
  { unfold Sheet.csvContent, buildCsvRows. do 3 f_equal.
    rewrite allRows_numbered. unfold numbered_rows, flattened, Sheet.rows.
    cbn [flat_map annotations]. rewrite app_nil_r.
    change (map (pair {| name := pageName; annotations := l |}) l)
      with (pair {| name := pageName; annotations := l |} <$> l).
    rewrite imap_fmap. apply imap_ext. by intros i a _. }
  split; [exact H|]. unfold Sheet.exportAnnotations.
  destruct l as [|a l]; [done|]. simpl. by rewrite <- H.
Qed.

Lemma double_quotes_inj a b : double_quotes a = double_quotes b -> a = b.
Proof.
  revert b. induction a as [|c a IH]; intros [|d b]; simpl.
  - done.
  - by destruct (Ascii.eqb d quote_char).
  - by destruct (Ascii.eqb c quote_char).
  - destruct (Ascii.eqb c quote_char) eqn:Ec, (Ascii.eqb d quote_char) eqn:Ed.
    + apply Ascii.eqb_eq in Ec, Ed. intros [= H]. f_equal; [congruence|by apply IH].
    + intros [= <- H]. destruct b as [|d' b]; simpl in H.
      * by rewrite Ascii.eqb_refl in Ed.
      * by rewrite Ascii.eqb_refl in Ed.
    + intros [= -> H]. by rewrite Ascii.eqb_refl in Ec.
    + intros [= -> H]. f_equal. by apply IH.
Qed.

Lemma string_length_app (a b : string) :
  String.length (a +:+ b) = (String.length a + String.length b)%nat.
Proof. induction a as [|x a IH]; simpl; [done|by rewrite IH]. Qed.

Lemma string_app_inj_r (a b : string) (c : string) : a +:+ c = b +:+ c -> a = b.
Proof.
  intros H.
  assert (Hlen : String.length a = String.length b).
  { apply (f_equal String.length) in H. rewrite !string_length_app in H. lia. }
  revert b H Hlen. induction a as [|x a IH]; intros [|y b] H Hlen; try discriminate Hlen.
  - done.
  - simpl in *. injection H as -> H. f_equal. apply IH; [done|lia].
Qed.

(** The cell escaping loses nothing: two cells are written as the same
    text only when their contents are the same. *)
Lemma csvCell_is_injective c1 c2 :
  csvCell c1 = csvCell c2 -> String_of c1 = String_of c2.
Proof.
  unfold csvCell.
  generalize (String_of c1) (String_of c2). intros a b.
  destruct (includes comma_char a || includes quote_char a || includes newline_char a) eqn:Ea,
           (includes comma_char b || includes quote_char b || includes newline_char b) eqn:Eb.
  - intros [= H]. apply string_app_inj_r in H. by apply double_quotes_inj.
  - intros <-. cbn [includes] in Eb.
    rewrite (Ascii.eqb_refl quote_char), orb_true_l, orb_true_r in Eb. discriminate Eb.
  - intros ->. cbn [includes] in Ea.
    rewrite (Ascii.eqb_refl quote_char), orb_true_l, orb_true_r in Ea. discriminate Ea.
  - done.
Qed.

End OnePageCsv.

Section OnePageCsvCases.
Import Revised.

Lemma csvCell_is_injective_witness : String_of (Num 12) = String_of (Str "12").
Proof. apply (csvCell_is_injective (Num 12) (Str "12")). reflexivity. Defined.

End OnePageCsvCases.

Section PresentationRuns.
Import Content Presentation.

Variable toLocaleDateString : string -> string.
Variable crop : string -> Dom.Element -> string.

Lemma comments_of_numbers (l : list Annotation) :
  PageExport.number <$> comments_of toLocaleDateString l = seq 1 (length l)
  /\ PageExport.comment <$> comments_of toLocaleDateString l = comment <$> l.
Proof.
  unfold comments_of. split.
  - rewrite fmap_imap. unfold compose. cbn [PageExport.number].
    assert (H : forall n, imap (fun i (_ : Annotation) => S (n + i)) l = seq (S n) (length l)).
    { induction l as [|a l IH]; intros n; [done|].
      cbn [imap length seq]. rewrite Nat.add_0_r. f_equal. rewrite <- (IH (S n)).
      apply imap_ext. intros i ? _. simpl. lia. }
    apply (H 0%nat).
  - rewrite fmap_imap. unfold compose. cbn [PageExport.comment].
    induction l as [|a l IH]; [done|]. cbn [imap fmap list_fmap]. f_equal. exact IH.
Qed.

(** [generatePresentation] never leaves the page hidden: on every way out
    (no canvas, worker unreachable, cancel, capture failed, export) the five
    styles it set on the sidebar and the toggle button are back to the empty
    string and the sidebar is open exactly if it was.  It hands over to an
    exporter exactly when a canvas was found, the message could be sent and
    the wait was not cancelled, also when the capture failed: the exporter
    then gets no screenshot.  The comments handed over are the annotations
    in list order, numbered from 1. *)
Lemma generatePresentation_restores_and_exports format doc sendThrows result cancelThrows
    (l : list Annotation) pageName c :
  let r := generatePresentation toLocaleDateString crop format doc sendThrows result
             cancelThrows l pageName c in
  (sidebar_display (chrome r) = "" /\ toggle_display (chrome r) = ""
   /\ toggle_visibility (chrome r) = "" /\ toggle_opacity (chrome r) = ""
   /\ toggle_zIndex (chrome r) = "" /\ sidebar_open (chrome r) = sidebar_open c)
  /\ ((exists shot cs, outcome r = Pptx shot cs pageName \/ outcome r = Pdf shot cs pageName)
      <-> (is_Some (Canvas.getReportCanvas doc) /\ sendThrows = false /\ is_Some result))
  /\ (forall shot cs name,
        outcome r = Pptx shot cs name \/ outcome r = Pdf shot cs name ->
        PageExport.number <$> cs = seq 1 (length l)
        /\ PageExport.comment <$> cs = comment <$> l
        /\ (shot = None <-> Revised.truthy (result ≫= screenshot) = false)).
Proof.
  intros r. subst r. unfold generatePresentation.
  destruct (Canvas.getReportCanvas doc) as [reportCanvas|]; simpl.
  2:{ split; [by destruct (sidebar_open c)|]. split.
      - split; [intros (? & ? & [?|?]); done|intros [[? ?] ?]; done].
      - intros ? ? ? [?|?]; done. }
  destruct sendThrows; simpl.
  { split; [by destruct (sidebar_open c)|]. split.
    - split; [intros (? & ? & [?|?]); done|intros (? & ? & ?); done].
    - intros ? ? ? [?|?]; done. }
  destruct result as [result|]; simpl.
  2:{ split; [by destruct (sidebar_open c)|]. split.
      - split; [intros (? & ? & [?|?]); done|intros (? & ? & [? ?]); done].
      - intros ? ? ? [?|?]; done. }
  split; [by destruct (sidebar_open c)|]. split.
  - split; [by eauto|]. intros _.
    destruct (bool_decide (format = "ppt")); eauto.
  - intros shot cs name H.
    destruct (comments_of_numbers l) as [Hn Hc].
    assert (Hcs : cs = comments_of toLocaleDateString l
                  /\ shot = (if Revised.truthy (screenshot result)
                             then Some (crop (default "" (screenshot result)) reportCanvas)
                             else None)).
    { destruct (bool_decide (format = "ppt")); destruct H as [H|H]; by inversion H. }
    destruct Hcs as [-> ->]. split; [done|]. split; [done|].
    by destruct (Revised.truthy (screenshot result)).
Qed.

End PresentationRuns.

Section AllPages.
Import Content Revised MultiPage.

Variable toLocaleDateString : string -> string.

Lemma number_comments_next g l :
  snd (number_comments toLocaleDateString g l) = (g + length l)%nat.
Proof.
  revert g. induction l as [|a l IH]; intros g; simpl; [lia|].
  specialize (IH (S g)). destruct (number_comments _ (S g) l). simpl in *. lia.
Qed.

Lemma number_comments_length g l :
  length (fst (number_comments toLocaleDateString g l)) = length l.
Proof.
  revert g. induction l as [|a l IH]; intros g; simpl; [done|].
  specialize (IH (S g)). destruct (number_comments _ (S g) l). simpl in *. lia.
Qed.

Lemma number_comments_numbers g l :
  PageExport.number <$> fst (number_comments toLocaleDateString g l) = seq g (length l).
Proof.
  revert g. induction l as [|a l IH]; intros g; simpl; [done|].
  specialize (IH (S g)). destruct (number_comments _ (S g) l). simpl in *. by f_equal.
Qed.

Lemma number_comments_rows g l (page : Revised.Page) nm :
  Revised.name page = nm ->
  map (fun c => [Num (PageExport.number c); Str nm; Str (PageExport.date c);
                 Str (PageExport.comment c)])
      (fst (number_comments toLocaleDateString g l))
  = imap (fun i pa => row_at toLocaleDateString (g + i) pa) (map (pair page) l).
Proof.
  intros <-. revert g. induction l as [|a l IH]; intros g; simpl; [done|].
  specialize (IH (S g)). destruct (number_comments _ (S g) l) as [cs n]. simpl in *.
  unfold row_at at 1. cbn [fst snd]. rewrite Nat.add_0_r. f_equal.
  rewrite IH. apply imap_ext. intros i pa _. simpl. f_equal. lia.
Qed.

Lemma page_data_rows g cache shots (pages : list AnnotatedPage) rows :
  fold_left (fun st page => fold_left (push_row toLocaleDateString page) (annotations page) st)
            (csv_pages cache pages) (rows, g)
  = (rows ++ flat_map (fun d => map (row_of d) (comments d))
                      (page_data toLocaleDateString g cache shots pages),
     (g + length (concat (comments <$> page_data toLocaleDateString g cache shots pages)))%nat).
Proof.
  revert g rows. induction pages as [|page pages IH]; intros g rows.
  { simpl. by rewrite app_nil_r, Nat.add_0_r. }
  cbn [csv_pages map fold_left page_data]. rewrite inner_loop. cbn [annotations].
  pose proof (number_comments_next g (default [] (bucket_of (key page) cache))) as Hnext.
  pose proof (number_comments_length g (default [] (bucket_of (key page) cache))) as Hlen.
  pose proof (number_comments_rows g (default [] (bucket_of (key page) cache))
                {| Revised.name := MultiPage.name page;
                   annotations := default [] (bucket_of (key page) cache) |}
                (MultiPage.name page) eq_refl) as Hrows.
  destruct (number_comments toLocaleDateString g (default [] (bucket_of (key page) cache)))
    as [cs n]. cbn [fst snd] in *. subst n.
  fold (csv_pages cache pages). rewrite IH.
  rewrite <- Hrows. cbn [flat_map fmap list_fmap concat comments].
  rewrite <- app_assoc, length_app, Hlen. f_equal. lia.
Qed.

Lemma page_data_numbers g cache shots (pages : list AnnotatedPage) :
  PageExport.number <$> concat (comments <$> page_data toLocaleDateString g cache shots pages)
  = seq g (length (concat (comments <$> page_data toLocaleDateString g cache shots pages))).
Proof.
  revert g. induction pages as [|page pages IH]; intros g; [done|].
  cbn [page_data].
  pose proof (number_comments_next g (default [] (bucket_of (key page) cache))) as Hnext.
  pose proof (number_comments_length g (default [] (bucket_of (key page) cache))) as Hlen.
  pose proof (number_comments_numbers g (default [] (bucket_of (key page) cache))) as Hnum.
  destruct (number_comments toLocaleDateString g (default [] (bucket_of (key page) cache)))
    as [cs n]. cbn [fst snd] in *. subst n.
  cbn [fmap list_fmap concat comments].
  rewrite fmap_app, length_app, seq_app, Hnum, IH, Hlen. done.
Qed.

Lemma page_data_offset g cache shots (pages : list AnnotatedPage) p d j c :
  page_data toLocaleDateString g cache shots pages !! p = Some d ->
  comments d !! j = Some c ->
  PageExport.number c
  = (g + length (concat (comments <$> take p (page_data toLocaleDateString g cache shots pages)))
     + j)%nat.
Proof.
  revert g p. induction pages as [|page pages IH]; intros g p Hd Hc; [done|].
  cbn [page_data] in *.
  pose proof (number_comments_next g (default [] (bucket_of (key page) cache))) as Hnext.
  pose proof (number_comments_length g (default [] (bucket_of (key page) cache))) as Hlen.
  pose proof (number_comments_numbers g (default [] (bucket_of (key page) cache))) as Hnum.
  destruct (number_comments toLocaleDateString g (default [] (bucket_of (key page) cache)))
    as [cs n]. cbn [fst snd] in *. subst n.
  destruct p as [|p]; simpl in Hd.
  - injection Hd as <-. cbn [comments] in Hc.
    assert (Hj : (PageExport.number <$> cs) !! j = Some (PageExport.number c)).
    { by rewrite list_lookup_fmap, Hc. }
    rewrite Hnum in Hj. apply lookup_seq in Hj as [Hj _]. simpl. lia.
  - rewrite (IH _ _ Hd Hc). cbn [take fmap list_fmap concat comments].
    rewrite length_app, Hlen. lia.
Qed.

(** One numbering for every all-pages export.  The comments of
    [pageDataList] are numbered 1, 2, 3, ... through all pages in page order;
    a comment's number is one more than the count of the comments of the
    pages before it plus its position on its own page; and the rows
    [buildCsvRows] writes for the scope [all] are exactly these comments,
    page by page, each with the same number, its page's name, date and
    text. *)
Lemma all_pages_exports_share_one_numbering cache shots (pages : list AnnotatedPage) :
  let pdl := pageDataList toLocaleDateString cache shots pages in
  PageExport.number <$> concat (comments <$> pdl) = seq 1 (length (concat (comments <$> pdl)))
  /\ (forall p d j c,
        pdl !! p = Some d -> comments d !! j = Some c ->
        PageExport.number c = S (length (concat (comments <$> take p pdl)) + j))
  /\ allRows toLocaleDateString (csv_pages cache pages)
     = flat_map (fun d => map (row_of d) (comments d)) pdl.
Proof.
  intros pdl. subst pdl. unfold pageDataList.
  split; [apply page_data_numbers|]. split.
  - intros p d j c Hd Hc. by rewrite (page_data_offset _ _ _ _ _ _ _ _ Hd Hc).
  - unfold allRows. by rewrite (page_data_rows 1 cache shots pages []).
Qed.

End AllPages.

Section AnnotatedPages.
Import Content Revised MultiPage.

Variable toLocaleDateString : string -> string.
Variable getPageName : string.
Variable URL_pathname : string -> option string.
Variable decodeURIComponent : string -> option string.






End AnnotatedPages.

Section MultiPageSlides.
Import PageExport PageExport.Pptx MultiPage.

Variable loaded : string -> option Screenshot.

Lemma page_slides_length name cs slide y :
  length (pptx_comments name cs [] slide y 0) = Nat.max 1 (ceil_div (length cs) maxCommentsPerSlide).
Proof.
  rewrite pptx_comments_count by lia. rewrite maxCommentsPerSlide_21. unfold ceil_div.
  destruct cs as [|c cs]; [reflexivity|]. cbn [length].
  replace (S (length cs) + 0 - 1)%nat with (length cs) by lia.
  replace (S (length cs) + 21 - 1)%nat with (length cs + 1 * 21)%nat by lia.
  rewrite Nat.div_add by lia. lia.
Qed.

Lemma multi_slides_prefix n p pages pres :
  multi_slides loaded n p pages pres = pres ++ multi_slides loaded n p pages [].
Proof.
  revert p pres. induction pages as [|d pages IH]; intros p pres.
  { simpl. by rewrite app_nil_r. }
  cbn [multi_slides]. rewrite IH, pptx_comments_finished.
  rewrite (IH _ (pptx_comments _ _ [] _ _ _)). by rewrite app_assoc.
Qed.

Lemma multi_slides_length n p pages :
  length (multi_slides loaded n p pages []) = sum_list_with slides_of pages.
Proof.
  revert p. induction pages as [|d pages IH]; intros p; [done|].
  cbn [multi_slides sum_list_with]. rewrite multi_slides_prefix, length_app, IH.
  by rewrite page_slides_length.
Qed.

Lemma multi_slides_openings n p0 pages p d :
  pages !! p = Some d ->
  exists more,
    multi_slides loaded n p0 pages [] !! sum_list_with slides_of (take p pages)
    = Some (opening_slide loaded d (p0 + p) n ++ more).
Proof.
  revert p0 p. induction pages as [|d0 pages IH]; intros p0 p Hd; [done|].
  cbn [multi_slides]. rewrite multi_slides_prefix.
  destruct p as [|p]; simpl in Hd.
  - injection Hd as <-. cbn [take sum_list_with]. rewrite Nat.add_0_r.
    destruct (pptx_comments_shape (pageName d0) (comments d0) []
                (opening_slide loaded d0 p0 n) commentsListY 0) as (more & later & -> & _).
    by exists more.
  - cbn [take sum_list_with].
    rewrite lookup_app_r by (rewrite page_slides_length; unfold slides_of; lia).
    rewrite page_slides_length.
    replace (slides_of d0 + sum_list_with slides_of (take p pages) - _)%nat
      with (sum_list_with slides_of (take p pages)) by (unfold slides_of; lia).
    destruct (IH (S p0) p Hd) as [more Hmore]. exists more.
    by replace (p0 + S p)%nat with (S p0 + p)%nat by lia.
Qed.

(** The all-pages presentation: every page of the report takes one slide,
    or as many as its comments need at 21 to a slide, so the presentation has
    the sum of these; and every page starts on a slide of its own, at the
    index given by the slides of the pages before it, which opens with the
    page's title and position, its screenshot or the notice that stands for
    it, and the comments header. *)
Lemma all_pages_presentation_slides (pdl : list PageData) :
  let slides := generateMultiPagePptx loaded pdl in
  length slides = sum_list_with slides_of pdl
  /\ forall p d,
       pdl !! p = Some d ->
       exists more,
         slides !! sum_list_with slides_of (take p pdl)
         = Some (opening_slide loaded d p (length pdl) ++ more).
Proof.
  intros slides. subst slides. unfold generateMultiPagePptx.
  split; [apply multi_slides_length|].
  intros p d Hd. apply (multi_slides_openings (length pdl) 0 pdl p d Hd).
Qed.

End MultiPageSlides.

Section AnnotatedPagesCases.
Import Content Revised MultiPage ExportSamples.


End AnnotatedPagesCases.

Section ExportPagesGuards.
Import Content Presentation.

Variable toLocaleDateString : string -> string.
Variable crop : string -> Dom.Element -> string.

(** [exportPages] asks the worker for a capture exactly when there is
    something to export, the annotations are all in view or the user chose
    to go on, a format was chosen, a canvas is found and the message can be
    sent; in every other case nothing is sent.  When the wait is answered
    nothing more is sent; when it is cancelled, [cancelCapture] follows,
    unless that send throws.  It reaches an exporter exactly when the
    capture was asked for and the wait was not cancelled. *)
Lemma exportPages_asks_only_when_ready w proceed format doc sendThrows result cancelThrows
    (l : list Annotation) pageName c :
  let r := exportPages toLocaleDateString crop w proceed format doc sendThrows result
             cancelThrows l pageName c in
  let ready := l <> [] /\ (allAnnotationsInViewport w l = true \/ proceed = true)
               /\ Revised.truthy format = true
               /\ is_Some (Canvas.getReportCanvas doc) /\ sendThrows = false in
  (ready -> is_Some result -> sent r = [Background.prepareCapture])
  /\ (ready -> result = None ->
      sent r = if cancelThrows then [Background.prepareCapture]
               else [Background.prepareCapture; Background.cancelCapture])
  /\ (~ ready -> sent r = [])
  /\ ((exists shot cs, outcome r = Pptx shot cs pageName \/ outcome r = Pdf shot cs pageName)
      <-> ready /\ is_Some result).
Proof.
  intros r ready. subst r ready. unfold exportPages.
  destruct l as [|a l]; simpl length; cbn [Nat.eqb].
  { simpl. split; [by intros [? _]|]. split; [by intros [? _]|]. split; [done|].
    split; [intros (? & ? & [?|?]); done|by intros [[? _] _]]. }
  destruct (allAnnotationsInViewport w (a :: l)) eqn:Eview, proceed; cbn [negb andb].
  4:{ simpl. split; [intros (_ & [?|?] & _); done|].
      split; [intros (_ & [?|?] & _); done|]. split; [done|].
      split; [intros (? & ? & [?|?]); done|intros [(_ & [?|?] & _) _]; done]. }
  all: destruct (Revised.truthy format) eqn:Eformat;
    [|simpl; split; [by intros (_ & _ & ? & _)|]; split; [by intros (_ & _ & ? & _)|];
      split; [done|];
      split; [intros (? & ? & [?|?]); done|by intros [(_ & _ & ? & _) _]]].
  all: unfold generatePresentation;
    destruct (Canvas.getReportCanvas doc) as [reportCanvas|];
    [|simpl; split; [by intros (_ & _ & _ & [? ?] & _)|];
      split; [by intros (_ & _ & _ & [? ?] & _)|]; split; [done|];
      split; [intros (? & ? & [?|?]); done|by intros [(_ & _ & _ & [? ?] & _) _]]].
  all: destruct sendThrows;
    [simpl; split; [by intros (_ & _ & _ & _ & ?)|];
     split; [by intros (_ & _ & _ & _ & ?)|]; split; [done|];
     split; [intros (? & ? & [?|?]); done|by intros [(_ & _ & _ & _ & ?) _]]|].
  all: destruct result as [result|]; simpl.
  all: try (split; [by intros _ [? ?]|]; split; [done|]; split;
            [intros Hn; exfalso; apply Hn; repeat split; eauto|];
            split; [intros (? & ? & [?|?]); done|by intros [_ [? ?]]]).
  all: split; [done|]; split; [done|]; split;
         [intros Hn; exfalso; apply Hn; repeat split; eauto|];
       split; [intros _; repeat split; eauto|];
       intros _; destruct (bool_decide (default "" format = "ppt")); eauto.
Qed.

End ExportPagesGuards.

Section MultiPagePdf.
Import PageExport MultiPage.

Variable getTextWidth : string -> Q.
Variable splitTextToSize : string -> Q -> list string.
Variable loaded : string -> option Screenshot.

(** The loop of the all-pages PDF breaks pages where the loop of
    [generatePdf] does. *)
Lemma multi_pdf_comments_length pageName comments finished1 finished2 page1 page2 currentY :
  length finished1 = length finished2 ->
  length (multi_pdf_comments splitTextToSize pageName comments finished1 page1 currentY)
  = length (pdf_comments splitTextToSize comments finished2 page2 currentY).
Proof.
  revert finished1 finished2 page1 page2 currentY.
  induction comments as [|c rest IH]; intros finished1 finished2 page1 page2 currentY Hlen.
  { simpl. rewrite !length_app. simpl. lia. }
  cbn [multi_pdf_comments pdf_comments].
  destruct (Pdf.pageH - Pdf.margin <? currentY + Pdf.lineHeight).
  - apply IH. rewrite !length_app. simpl. lia.
  - by apply IH.
Qed.

Lemma multi_pdf_comments_prefix pageName comments finished page currentY :
  multi_pdf_comments splitTextToSize pageName comments finished page currentY
  = finished ++ multi_pdf_comments splitTextToSize pageName comments [] page currentY.
Proof.
  revert finished page currentY.
  induction comments as [|c rest IH]; intros finished page currentY; [done|].
  cbn [multi_pdf_comments]. destruct (Pdf.pageH - Pdf.margin <? currentY + Pdf.lineHeight).
  - rewrite IH. rewrite (IH ([] ++ [page])). by rewrite <- app_assoc.
  - apply IH.
Qed.

Lemma multi_pages_prefix n p pages doc :
  multi_pages getTextWidth splitTextToSize loaded n p pages doc
  = doc ++ multi_pages getTextWidth splitTextToSize loaded n p pages [].
Proof.
  revert p doc. induction pages as [|d pages IH]; intros p doc.
  { simpl. by rewrite app_nil_r. }
  cbn [multi_pages]. rewrite IH, multi_pdf_comments_prefix.
  rewrite (IH _ (multi_pdf_comments _ _ _ [] _ _)). by rewrite app_assoc.
Qed.

(** The all-pages PDF, when every comment fits on one line: a report page
    with [c] comments takes [1 + c / 21] pages of the document (20 comments
    on its first page, 21 on each further one), so the document has the sum
    of these over the report pages, and the single empty page of a new
    document when there is none. *)
Lemma all_pages_pdf_page_count (pdl : list PageData) :
  Forall (fun d => one_line_each splitTextToSize (comments d)) pdl ->
  length (generateMultiPagePdf getTextWidth splitTextToSize loaded pdl)
  = if pdl is [] then 1%nat
    else sum_list_with (fun d => (1 + length (comments d) / 21)%nat) pdl.
Proof.
  intros Hone. unfold generateMultiPagePdf.
  assert (H : forall n p,
            length (multi_pages getTextWidth splitTextToSize loaded n p pdl [])
            = sum_list_with (fun d => (1 + length (comments d) / 21)%nat) pdl).
  { induction Hone as [|d pdl Hd _ IH]; intros n p; [done|].
    cbn [multi_pages sum_list_with]. rewrite multi_pages_prefix, length_app, IH. f_equal.
    rewrite (multi_pdf_comments_length _ _ [] [] _ [] _ eq_refl).
    apply Nat2Z.inj. rewrite (pdf_comments_count splitTextToSize _ _ _ Hd).
    - change (Pdf.contentY + 12) with 39. change ((200 - 39) / 8) with 20.
      rewrite Nat2Z.inj_add, Nat2Z.inj_div. simpl Z.of_nat.
      replace (Z.of_nat (length (comments d)) + 20 - 20)
        with (Z.of_nat (length (comments d))) by lia. done.
    - change (Pdf.contentY + 12) with 39. lia. }
  destruct pdl; [done|]. apply H.
Qed.

End MultiPagePdf.

Section MultiPagePdfCases.
Import PageExport MultiPage.

Lemma all_pages_pdf_page_count_witness :
  length (generateMultiPagePdf (fun _ => 30%Q) (fun s _ => [s]) (fun _ => None)
            [ {| pageName := "Sales"; screenshot := None; comments := short_comments 41 |};
              {| pageName := "Costs"; screenshot := None; comments := short_comments 3 |} ])
  = 3%nat.
Proof.
  rewrite all_pages_pdf_page_count; [reflexivity|].
  repeat constructor; apply Forall_forall; intros c _; reflexivity.
Defined.

End MultiPagePdfCases.

(* ===================================================================== *)
(** * The page stays in step with the list                                *)
(* ===================================================================== *)

Section InStepLemmas.
Import Content Drawing Annotate InStep.

Lemma label_has_id i b : has_id i b = true <-> exists m, label b = Some (i, m).
Proof.
  unfold has_id, label. destruct (attached b); simpl.
  - rewrite bool_decide_eq_true. destruct (dataset_id b) as [j|]; simpl.
    + split; [intros [= ->]; eauto|intros [m [= ->]]; done].
    + split; [done|intros [m H]; done].
  - split; [done|intros [m H]; done].
Qed.

Lemma label_none_has_id i b : label b = None -> has_id i b = false.
Proof.
  intros H. destruct (has_id i b) eqn:E; [|done].
  apply label_has_id in E as [m E]. congruence.
Qed.

Lemma labels_cons b bs : labels (b :: bs) = option_list (label b) ++ labels bs.
Proof. unfold labels. simpl. by destruct (label b). Qed.

Lemma labels_app bs1 bs2 : labels (bs1 ++ bs2) = labels bs1 ++ labels bs2.
Proof. apply omap_app. Qed.

Lemma labels_none bs : Forall (fun b => label b = None) bs -> labels bs = [].
Proof.
  induction 1 as [|b bs Hb _ IH]; [done|]. unfold labels in *. simpl. by rewrite Hb.
Qed.

(** With every box at its place, the element a variable refers to is the
    box at that index. *)
Lemma find_node off bs n el :
  (forall k b, bs !! k = Some b -> node b = (off + k)%nat) ->
  bs !! n = Some el ->
  find (is_node (off + n)) bs = Some el.
Proof.
  revert off n. induction bs as [|b bs IH]; intros off n Hnodes Hn; [done|].
  simpl. unfold is_node at 1. rewrite (Hnodes 0%nat b eq_refl).
  destruct n as [|n]; simpl in Hn.
  - injection Hn as ->. by rewrite Nat.add_0_r, Nat.eqb_refl.
  - destruct (Nat.eqb_spec (off + 0) (off + S n)) as [Heq|_]; [lia|].
    replace (off + S n)%nat with (S off + n)%nat by lia.
    apply IH; [|done]. intros k b' Hk. rewrite (Hnodes (S k) b' Hk). lia.
Qed.

Lemma update_node off bs n el f :
  (forall k b, bs !! k = Some b -> node b = (off + k)%nat) ->
  bs !! n = Some el ->
  update_first (is_node (off + n)) f bs = <[n := f el]> bs.
Proof.
  revert off n. induction bs as [|b bs IH]; intros off n Hnodes Hn; [done|].
  simpl. unfold is_node at 1. rewrite (Hnodes 0%nat b eq_refl).
  destruct n as [|n]; simpl in Hn.
  - injection Hn as ->. by rewrite Nat.add_0_r, Nat.eqb_refl.
  - destruct (Nat.eqb_spec (off + 0) (off + S n)) as [Heq|_]; [lia|].
    simpl. f_equal. replace (off + S n)%nat with (S off + n)%nat by lia.
    apply IH; [|done]. intros k b' Hk. rewrite (Hnodes (S k) b' Hk). lia.
Qed.

Lemma find_node_at bs n el :
  nodes_ok bs -> bs !! n = Some el -> find (is_node n) bs = Some el.
Proof. intros Hnodes. apply (find_node 0 bs n el Hnodes). Qed.

Lemma update_node_at bs n el f :
  nodes_ok bs -> bs !! n = Some el -> update_first (is_node n) f bs = <[n := f el]> bs.
Proof. intros Hnodes. apply (update_node 0 bs n el f Hnodes). Qed.

Lemma nodes_ok_insert bs n b :
  nodes_ok bs -> node b = n -> nodes_ok (<[n := b]> bs).
Proof.
  intros Hnodes Hb k b' Hk.
  apply list_lookup_insert_Some in Hk as [(-> & -> & _)|[_ Hk]]; [done|by apply Hnodes].
Qed.

Lemma labels_insert bs n el b :
  bs !! n = Some el ->
  labels (<[n := b]> bs)
  = labels (take n bs) ++ option_list (label b) ++ labels (drop (S n) bs).
Proof.
  intros Hn. rewrite insert_take_drop by (by eapply lookup_lt_Some).
  rewrite labels_app. f_equal. unfold labels. simpl. by destruct (label b).
Qed.

Lemma labels_split bs n el :
  bs !! n = Some el ->
  labels bs = labels (take n bs) ++ option_list (label el) ++ labels (drop (S n) bs).
Proof.
  intros Hn. rewrite <- (labels_insert bs n el el Hn). by rewrite list_insert_id.
Qed.

Lemma labels_insert_same bs n el b :
  bs !! n = Some el -> label b = label el -> labels (<[n := b]> bs) = labels bs.
Proof.
  intros Hn Hl. by rewrite (labels_insert bs n el b Hn), Hl, <- (labels_split bs n el Hn).
Qed.

Lemma drop_insert_after {A} (l : list A) n x : drop (S n) (<[n := x]> l) = drop (S n) l.
Proof. apply drop_insert_lt. lia. Qed.

(** The labels after a change of the first box with a given id. *)
Lemma labels_set_badge i n bs :
  labels (update_first (has_id i) (set_badge n) bs) = set_first i n (labels bs).
Proof.
  induction bs as [|b bs IH]; [done|]. cbn [update_first].
  destruct (has_id i b) eqn:E.
  - apply label_has_id in E as [m E]. rewrite !labels_cons, E.
    assert (El : label (set_badge n b) = Some (i, match m with Some _ => Some n | None => None end)).
    { unfold label, set_badge in *. destruct (Annotate.number b) as [k|] eqn:Ek; simpl.
      - destruct (attached b); [|done]. destruct (dataset_id b); [|done].
        simpl in *. by injection E as -> <-.
      - destruct (attached b); [|done]. destruct (dataset_id b); [|done].
        simpl in *. injection E as -> <-. by rewrite Ek. }
    rewrite El. simpl. by rewrite Z.eqb_refl.
  - rewrite !labels_cons. destruct (label b) as [[j m]|] eqn:El; [|exact IH].
    simpl. destruct (Z.eqb_spec j i) as [->|_].
    + assert (has_id i b = true) by (apply label_has_id; eauto). congruence.
    + by rewrite IH.
Qed.

Lemma labels_detach i bs :
  labels (update_first (has_id i) detach bs) = remove_first i (labels bs).
Proof.
  induction bs as [|b bs IH]; [done|]. cbn [update_first].
  destruct (has_id i b) eqn:E.
  - apply label_has_id in E as [m E]. rewrite !labels_cons, E.
    assert (El : label (detach b) = None) by done. rewrite El.
    simpl. by rewrite Z.eqb_refl.
  - rewrite !labels_cons. destruct (label b) as [[j m]|] eqn:El; [|exact IH].
    simpl. destruct (Z.eqb_spec j i) as [->|_].
    + assert (has_id i b = true) by (apply label_has_id; eauto). congruence.
    + by rewrite IH.
Qed.

Lemma set_first_app_new i n done_ x todo :
  i ∉ done_.*1 ->
  set_first i n (done_ ++ (i, Some x) :: todo) = done_ ++ (i, Some n) :: todo.
Proof.
  induction done_ as [|[j m] done_ IH]; intros Hnew; simpl.
  - by rewrite Z.eqb_refl.
  - apply not_elem_of_cons in Hnew as [Hne Hnew]. simpl in Hne.
    destruct (Z.eqb_spec j i) as [->|_]; [done|]. by rewrite IH.
Qed.

(** Renumbering, on the labels: when the labelled boxes are those of the
    annotations, in order and each with a badge, they end up numbered by
    position. *)
Lemma labels_renumber index annotations bs done_ todo :
  labels bs = done_ ++ todo ->
  todo.*1 = Content.id <$> annotations ->
  Forall (fun l => is_Some l.2) todo ->
  NoDup (done_.*1 ++ todo.*1) ->
  labels (renumber index annotations bs)
  = done_ ++ imap (fun k a => (Content.id a, Some (S (index + k)))) annotations.
Proof.
  revert index bs done_ todo.
  induction annotations as [|a rest IH]; intros index bs done_ todo Hl Hids Hnum Hnd.
  { destruct todo; [|done]. exact Hl. }
  destruct todo as [|[i m] todo]; [done|].
  simpl in Hids. injection Hids as -> Hids.
  apply Forall_cons in Hnum as [[x Hx] Hnum]. simpl in Hx. subst m.
  cbn [renumber imap]. rewrite Nat.add_0_r.
  assert (Hnew : Content.id a ∉ done_.*1).
  { intros Hin. apply NoDup_app in Hnd as (_ & Hdis & _). apply (Hdis _ Hin).
    simpl. apply elem_of_cons. by left. }
  rewrite (IH (S index) _ (done_ ++ [(Content.id a, Some (S index))]) todo).
  - rewrite <- app_assoc. simpl. do 2 f_equal. apply imap_ext. intros k a' _. simpl.
    do 2 f_equal. lia.
  - rewrite labels_set_badge, Hl, set_first_app_new by done.
    by rewrite <- app_assoc.
  - done.
  - done.
  - rewrite fmap_app. simpl. rewrite <- app_assoc. exact Hnd.
Qed.

Lemma expected_ids annotations : (expected annotations).*1 = Content.id <$> annotations.
Proof.
  unfold expected. rewrite fmap_imap. unfold compose. simpl.
  induction annotations as [|a l IH]; [done|]. cbn [imap]. rewrite fmap_cons. f_equal.
  rewrite <- IH. apply imap_ext. by intros.
Qed.

Lemma expected_numbered annotations : Forall (fun l => is_Some l.2) (expected annotations).
Proof.
  unfold expected. apply Forall_forall. intros l Hl.
  apply elem_of_lookup_imap in Hl as (k & a & -> & _). simpl. eauto.
Qed.

Lemma remove_first_ids i ls :
  NoDup ls.*1 -> (remove_first i ls).*1 = filter (fun j => j <> i) ls.*1.
Proof.
  induction ls as [|[j m] ls IH]; intros Hnd; [done|].
  simpl in Hnd. apply NoDup_cons in Hnd as [Hnew Hnd]. simpl.
  destruct (Z.eqb_spec j i) as [->|Hne].
  - rewrite filter_cons_False by (by intros H; apply H).
    symmetry. clear IH Hnd. induction ls as [|[j' m'] ls IH]; [done|].
    simpl in *. apply not_elem_of_cons in Hnew as [Hne Hnew].
    rewrite filter_cons_True by done. f_equal. by apply IH.
  - rewrite filter_cons_True by done. simpl. f_equal. by apply IH.
Qed.

Lemma remove_first_numbered i ls :
  Forall (fun l => is_Some l.2) ls -> Forall (fun l => is_Some l.2) (remove_first i ls).
Proof.
  induction 1 as [|[j m] ls Hl Hls IH]; [constructor|]. simpl.
  destruct (Z.eqb j i); [done|]. by constructor.
Qed.

Lemma filter_ids i (l : list Annotation) :
  Content.id <$> filter (fun a => Content.id a <> i) l
  = filter (fun j => j <> i) (Content.id <$> l).
Proof.
  induction l as [|a l IH]; [done|]. rewrite fmap_cons.
  destruct (decide (Content.id a <> i)).
  - rewrite !filter_cons_True by done. rewrite fmap_cons. by f_equal.
  - by rewrite !filter_cons_False by done.
Qed.

(** Changes made to the first box with a given id leave a box without id
    where it is, and the boxes without label after an index without
    label. *)
Lemma update_first_lookup P f bs n el :
  bs !! n = Some el -> P el = false -> update_first P f bs !! n = Some el.
Proof.
  revert n. induction bs as [|b bs IH]; intros n Hn HP; [done|]. simpl.
  destruct n as [|n]; simpl in Hn.
  - injection Hn as ->. by rewrite HP.
  - destruct (P b); [done|]. simpl. by apply IH.
Qed.

Lemma update_first_unlabelled P f bs m :
  (forall b, label b = None -> label (f b) = None) ->
  Forall (fun b => label b = None) (drop m bs) ->
  Forall (fun b => label b = None) (drop m (update_first P f bs)).
Proof.
  intros Hf. revert m. induction bs as [|b bs IH]; intros m H; [by destruct m|].
  simpl. destruct m as [|m]; simpl in *.
  - apply Forall_cons in H as [Hb H]. destruct (P b).
    + constructor; [by apply Hf|done].
    + constructor; [done|]. apply (IH 0%nat). by rewrite drop_0.
  - destruct (P b); [done|]. simpl. by apply IH.
Qed.

Lemma update_first_length P f bs : length (update_first P f bs) = length bs.
Proof.
  induction bs as [|b bs IH]; [done|]. simpl. destruct (P b); simpl; [done|by rewrite IH].
Qed.

Lemma update_first_nodes P f bs :
  (forall b, node (f b) = node b) -> nodes_ok bs -> nodes_ok (update_first P f bs).
Proof.
  intros Hf. unfold nodes_ok.
  assert (H : forall off,
            (forall k b, bs !! k = Some b -> node b = (off + k)%nat) ->
            forall k b, update_first P f bs !! k = Some b -> node b = (off + k)%nat).
  { induction bs as [|b0 bs IH]; intros off Hnodes k b Hk; [done|].
    simpl in Hk. destruct (P b0).
    - destruct k as [|k]; simpl in Hk.
      + injection Hk as <-. rewrite Hf. by apply (Hnodes 0%nat).
      + by apply (Hnodes (S k)).
    - destruct k as [|k]; simpl in Hk.
      + injection Hk as <-. by apply (Hnodes 0%nat).
      + replace (off + S k)%nat with (S off + k)%nat by lia.
        apply (IH (S off)); [|done]. intros k' b' Hk'. rewrite (Hnodes (S k') b' Hk'). lia. }
  intros Hnodes. apply (H 0%nat Hnodes).
Qed.

Lemma renumber_lookup index annotations bs n el :
  bs !! n = Some el -> label el = None -> renumber index annotations bs !! n = Some el.
Proof.
  revert index bs. induction annotations as [|a rest IH]; intros index bs Hn Hl; [done|].
  simpl. apply IH; [|done]. apply update_first_lookup; [done|]. by apply label_none_has_id.
Qed.

Lemma set_badge_label_none n b : label b = None -> label (set_badge n b) = None.
Proof.
  intros H. unfold set_badge. destruct (Annotate.number b); [|exact H].
  unfold label in *. simpl. destruct (attached b); [|done]. by destruct (dataset_id b).
Qed.

Lemma renumber_unlabelled index annotations bs m :
  Forall (fun b => label b = None) (drop m bs) ->
  Forall (fun b => label b = None) (drop m (renumber index annotations bs)).
Proof.
  revert index bs. induction annotations as [|a rest IH]; intros index bs H; [done|].
  simpl. apply IH. apply update_first_unlabelled; [|done]. apply set_badge_label_none.
Qed.

Lemma renumber_nodes index annotations bs :
  nodes_ok bs -> nodes_ok (renumber index annotations bs).
Proof.
  revert index bs. induction annotations as [|a rest IH]; intros index bs H; [done|].
  simpl. apply IH. apply update_first_nodes; [|done].
  intros b. unfold set_badge. by destruct (Annotate.number b).
Qed.

End InStepLemmas.

Section InStepPreserved.
Import Content Drawing Annotate InStep.

Variable trim : string -> string.

Lemma wf_saveAnnotations io t s : bound t -> bound (fst (saveAnnotations io t s)).
Proof.
  unfold bound, saveAnnotations. destruct (allAnnotationsCache t); [done|].
  by destruct (getFails io).
Qed.

Lemma wf_assign l t : bound (assign l t).
Proof. unfold bound, assign. cbn [arrays annotations]. rewrite length_app. simpl. lia. Qed.

Lemma wf_push a t : bound t -> bound (push a t).
Proof. unfold bound, push. cbn [arrays annotations]. by rewrite length_alter. Qed.

Lemma label_no_id b : dataset_id b = None -> label b = None.
Proof. unfold label. intros ->. by destruct (attached b). Qed.

Lemma expected_app l a :
  expected (l ++ [a]) = expected l ++ [(Content.id a, Some (S (length l)))].
Proof.
  unfold expected. rewrite imap_app. f_equal. simpl. by rewrite Nat.add_0_r.
Qed.

Lemma in_step_handleMouseDown e insideUi v :
  in_step v -> in_step (handleMouseDown e insideUi v).
Proof.
  intros (Hwf & Hnodes & Hlabels & Hnd & Hpen). unfold handleMouseDown.
  destruct (isAnnotationMode (pen v)); [|done]. destruct insideUi; [done|]. simpl.
  split; [done|]. split; [|split; [|split; [done|]]].
  - intros k b Hk. apply lookup_app_Some in Hk as [Hk|[Hlen Hk]]; [by apply Hnodes|].
    apply list_lookup_singleton_Some in Hk as [Hk <-]. simpl. lia.
  - cbn [boxes script]. rewrite labels_app, Hlabels.
    rewrite (labels_none [_]); [by rewrite app_nil_r|]. by repeat constructor.
  - intros n [= <-]. cbn [boxes].
    eexists. split; [by rewrite lookup_app_r, Nat.sub_diag by lia|].
    split; [done|]. split; [done|].
    rewrite drop_ge by (rewrite length_app; simpl; lia). constructor.
Qed.

Lemma in_step_handleMouseMove e v : in_step v -> in_step (handleMouseMove e v).
Proof.
  intros (Hwf & Hnodes & Hlabels & Hnd & Hpen). unfold handleMouseMove.
  destruct (currentAnnotation (pen v)) as [n|] eqn:Hcur; [|done].
  destruct (Hpen n Hcur) as (el & Hel & Hatt & Hid & Hafter).
  assert (Hgen : forall f pn,
            (forall b, node (f b) = node b /\ attached (f b) = attached b
                       /\ dataset_id (f b) = dataset_id b
                       /\ Annotate.number (f b) = Annotate.number b) ->
            currentAnnotation pn = Some n ->
            in_step {| script := script v;
                       boxes := update_first (is_node n) f (boxes v); pen := pn |}).
  { intros f pn Hf Hpn.
    rewrite (update_node_at (boxes v) n el f Hnodes Hel).
    assert (Hlab : label (f el) = label el).
    { unfold label. destruct (Hf el) as (_ & -> & -> & ->). done. }
    split; [done|]. split; [|split; [|split; [done|]]].
    - apply nodes_ok_insert; [done|]. destruct (Hf el) as [-> _]. by apply Hnodes.
    - cbn [boxes script]. by rewrite (labels_insert_same _ _ el).
    - intros n' Hn'. cbn [pen boxes] in *. rewrite Hpn in Hn'. injection Hn' as <-.
      exists (f el). split.
      { apply list_lookup_insert_eq. by eapply lookup_lt_Some. }
      destruct (Hf el) as (_ & -> & -> & _).
      split; [done|]. split; [done|]. by rewrite drop_insert_after. }
  destruct (bool_decide (currentDrawingTool (pen v) = "freehand")).
  - destruct (bounds _) as [b|]; [|done].
    apply Hgen; [|done]. intros box. unfold freehand_move. by destruct (shape box).
  - unfold with_boxes. apply Hgen; [|done]. by intros box.
Qed.

Lemma in_step_detach_current v n el pn :
  in_step v ->
  boxes v !! n = Some el -> dataset_id el = None ->
  currentAnnotation pn = None ->
  in_step {| script := script v; boxes := update_first (is_node n) detach (boxes v);
             pen := pn |}.
Proof.
  intros (Hwf & Hnodes & Hlabels & Hnd & Hpen) Hel Hid Hpn.
  rewrite (update_node_at (boxes v) n el detach Hnodes Hel).
  split; [done|]. split; [|split; [|split; [done|]]].
  - apply nodes_ok_insert; [done|]. simpl. by apply Hnodes.
  - cbn [boxes script]. rewrite (labels_insert_same _ _ el); [done..|].
    by rewrite (label_no_id el).
  - intros n' Hn'. cbn [pen] in Hn'. congruence.
Qed.

Lemma in_step_finishDrag io now iso href e w h comment v s :
  in_step v ->
  fst (generateAnnotationId now (annotationIdCounter (script v)))
    ∉ (Content.id <$> contents (script v)) ->
  in_step (fst (finishDrag trim io now iso href e w h comment v s)).
Proof.
  intros Hin Hfresh. pose proof Hin as (Hwf & Hnodes & Hlabels & Hnd & Hpen).
  unfold finishDrag, handleMouseUp.
  destruct (currentAnnotation (pen v)) as [n|] eqn:Hcur; [|done].
  destruct (Hpen n Hcur) as (el & Hel & Hatt & Hid & Hafter).
  destruct (Drawing.lt w 10 || Drawing.lt h 10).
  { cbn [fst]. unfold with_boxes. cbn [script boxes pen].
    by apply (in_step_detach_current v n el). }
  unfold promptAnswered. cbn [finishedAnnotation boxes script pen].
  rewrite (find_node_at (boxes v) n el Hnodes Hel).
  destruct (accepted trim comment).
  2:{ cbn [fst]. unfold with_boxes. cbn [script boxes pen].
      by apply (in_step_detach_current v n el). }
  unfold generateAnnotationId in *. cbn [fst] in Hfresh.
  match goal with |- context [saveAnnotations io ?t s] =>
    pose proof (contents_saveAnnotations io t s) as Hsave;
    pose proof (wf_saveAnnotations io t s) as Hwf';
    destruct (saveAnnotations io t s) as [t' s'] end.
  cbn [fst] in *.
  rewrite contents_push in Hsave by done.
  rewrite contents_push by done.
  assert (Hc : contents (with_counter (annotationIdCounter (script v) + 1) (script v))
               = contents (script v)) by done.
  rewrite Hc in *.
  rewrite (update_node_at (boxes v) n el _ Hnodes Hel).
  split; [|split; [|split; [|split]]]; cbn [script boxes pen].
  - apply Hwf'. by apply wf_push.
  - apply nodes_ok_insert; [done|]. simpl. by apply Hnodes.
  - rewrite Hsave, expected_app, (labels_insert _ _ el) by done.
    rewrite (labels_none (drop (S n) (boxes v))) by done.
    assert (Hl : labels (take n (boxes v)) = labels (boxes v)).
    { rewrite (labels_split (boxes v) n el Hel), (label_no_id el Hid).
      rewrite (labels_none (drop (S n) (boxes v))) by done. simpl. by rewrite app_nil_r. }
    rewrite Hl, Hlabels. unfold label, finish. cbn [attached dataset_id Annotate.number].
    rewrite Hatt. cbn [fmap option_fmap option_map option_list new_annotation Content.id].
    rewrite app_nil_r, length_app. simpl. do 4 f_equal. lia.
  - rewrite Hsave, fmap_app. apply NoDup_app. split; [done|]. split.
    + intros i Hi Hi'. apply list_elem_of_singleton in Hi'. subst i. by apply Hfresh.
    + apply NoDup_singleton.
  - intros n' Hn'. simpl in Hn'. discriminate Hn'.
Qed.

Lemma in_step_deleteAnnotation io i v s :
  in_step v -> in_step (fst (deleteAnnotation io i v s)).
Proof.
  intros (Hwf & Hnodes & Hlabels & Hnd & Hpen). unfold deleteAnnotation.
  set (kept := filter (fun a => Content.id a <> i) (contents (script v))).
  pose proof (contents_saveAnnotations io (assign kept (script v)) s) as Hsave.
  pose proof (wf_saveAnnotations io (assign kept (script v)) s (wf_assign _ _)) as Hwf'.
  destruct (saveAnnotations io (assign kept (script v)) s) as [t' s'].
  cbn [fst] in *. rewrite contents_assign in Hsave.
  assert (Hids : (remove_first i (labels (boxes v))).*1 = Content.id <$> kept).
  { rewrite remove_first_ids by (by rewrite Hlabels, expected_ids).
    by rewrite Hlabels, expected_ids, <- filter_ids. }
  split; [|split; [|split; [|split]]]; cbn [script boxes pen].
  - exact Hwf'.
  - apply renumber_nodes. by apply update_first_nodes.
  - rewrite Hsave. unfold renumberAnnotations.
    rewrite (labels_renumber 0 kept _ [] (remove_first i (labels (boxes v)))).
    + done.
    + by rewrite labels_detach.
    + exact Hids.
    + apply remove_first_numbered. rewrite Hlabels. apply expected_numbered.
    + simpl. rewrite Hids. subst kept. rewrite filter_ids. by apply NoDup_filter.
  - rewrite Hsave. subst kept. rewrite filter_ids. by apply NoDup_filter.
  - intros n Hn. destruct (Hpen n Hn) as (el & Hel & Hatt & Hid & Hafter).
    exists el. split; [|split; [done|split; [done|]]].
    + apply renumber_lookup; [|by apply label_no_id].
      apply update_first_lookup; [done|]. by apply label_none_has_id, label_no_id.
    + apply renumber_unlabelled. by apply update_first_unlabelled.
Qed.

Lemma in_step_clearAllAnnotations io v s :
  in_step v -> currentAnnotation (pen v) = None ->
  in_step (fst (clearAllAnnotations io v s)).
Proof.
  intros (Hwf & Hnodes & Hlabels & Hnd & Hpen) Hcur. unfold clearAllAnnotations.
  pose proof (contents_saveAnnotations io (assign [] (script v)) s) as Hsave.
  pose proof (wf_saveAnnotations io (assign [] (script v)) s (wf_assign _ _)) as Hwf'.
  destruct (saveAnnotations io (assign [] (script v)) s) as [t' s'].
  cbn [fst] in *. rewrite contents_assign in Hsave.
  split; [|split; [|split; [|split]]]; cbn [script boxes pen].
  - exact Hwf'.
  - intros k b Hk. rewrite list_lookup_fmap in Hk.
    destruct (boxes v !! k) as [b0|] eqn:Hb0; [|done]. injection Hk as <-.
    simpl. by apply Hnodes.
  - rewrite Hsave. apply labels_none. apply Forall_forall. intros b Hb.
    by apply list_elem_of_fmap in Hb as (b0 & -> & _).
  - rewrite Hsave. constructor.
  - intros n Hn. simpl in Hn. congruence.
Qed.

(** A page in step with its list shows, for every row of the sidebar, a
    box with the row's number. *)
Lemma in_step_badges_agree v :
  in_step v -> badges_agree (contents (script v)) (boxes v).
Proof.
  intros (_ & _ & Hlabels & Hnd & _).
  assert (Hbadge : forall i bs,
            badge i bs = match find (fun l : Z * option nat => Z.eqb l.1 i) (labels bs) with
                         | Some l => l.2
                         | None => None
                         end).
  { intros i bs. unfold badge, querySelector. induction bs as [|b bs IH]; [done|].
    rewrite labels_cons. simpl. destruct (has_id i b) eqn:E.
    - apply label_has_id in E as [m E]. rewrite E. simpl. rewrite Z.eqb_refl.
      unfold label in E. destruct (attached b); [|done].
      destruct (dataset_id b); [|done]. simpl in E. by injection E as _ <-.
    - destruct (label b) as [[j m]|] eqn:El; [|exact IH]. simpl.
      destruct (Z.eqb_spec j i) as [->|_]; [|exact IH].
      assert (has_id i b = true) by (apply label_has_id; eauto). congruence. }
  unfold badges_agree, renderComments. apply Forall_lookup. intros k item Hitem.
  rewrite list_lookup_imap in Hitem.
  destruct (contents (script v) !! k) as [a|] eqn:Ha; [|done]. injection Hitem as <-.
  cbn [item_id item_number]. rewrite Hbadge, Hlabels. unfold expected.
  revert Hnd Ha. generalize (contents (script v)). intros l.
  assert (Hgo : forall off l k,
            NoDup (Content.id <$> l) -> l !! k = Some a ->
            find (fun e : Z * option nat => Z.eqb e.1 (Content.id a))
                 (imap (fun j a' => (Content.id a', Some (S (off + j)))) l)
            = Some (Content.id a, Some (S (off + k)))).
  { clear. intros off l. revert off. induction l as [|a0 l IH]; intros off k Hnd Hk; [done|].
    rewrite fmap_cons in Hnd. apply NoDup_cons in Hnd as [Hnew Hnd]. cbn [imap find fst].
    destruct k as [|k]; simpl in Hk.
    - injection Hk as ->. by rewrite Z.eqb_refl.
    - destruct (Z.eqb_spec (Content.id a0) (Content.id a)) as [Heq|_].
      + exfalso. apply Hnew. rewrite Heq. apply list_elem_of_fmap_2.
        by eapply list_elem_of_lookup_2.
      + replace (S (off + S k)) with (S (S off + k)) by lia.
        rewrite <- (IH (S off) k Hnd Hk). f_equal. apply imap_ext. intros j a' _. simpl.
        do 2 f_equal. lia. }
  intros Hnd Ha. specialize (Hgo 0%nat l k Hnd Ha). cbn [Nat.add] in Hgo.
  by rewrite Hgo.
Qed.

Lemma in_step_handle vs ev :
  in_step (fst vs) -> admissible (fst vs) ev -> in_step (fst (handle trim vs ev)).
Proof.
  intros Hin Hadm.
  destruct ev as [|tool|color|e ui|e|io e w h now iso href comment|io i|io]; simpl.
  - exact Hin.
  - exact Hin.
  - exact Hin.
  - by apply in_step_handleMouseDown.
  - by apply in_step_handleMouseMove.
  - by apply in_step_finishDrag.
  - by apply in_step_deleteAnnotation.
  - by apply in_step_clearAllAnnotations.
Qed.

(** The page stays in step with the list.  From a page on which every
    annotation of the list has one box in the document, in the order of the
    list and numbered by position, everything the user does (pressing,
    moving and releasing the mouse with any answer to the prompt, deleting,
    clearing) leads to such a page again, whatever the storage calls do,
    provided each new id is not already in the list and the list is not
    cleared in the middle of a drag.  In particular every box then shows
    the number the sidebar gives its comment. *)
Theorem page_stays_in_step evs vs :
  in_step (fst vs) ->
  admissible_run trim vs evs ->
  let v := fst (run trim vs evs) in
  in_step v
  /\ labels (boxes v) = expected (contents (script v))
  /\ badges_agree (contents (script v)) (boxes v).
Proof.
  revert vs. induction evs as [|ev evs IH]; intros vs Hin Hadm; simpl.
  - split; [done|]. split; [apply Hin|by apply in_step_badges_agree].
  - destruct Hadm as [Hev Hrest]. apply IH; [|done]. by apply in_step_handle.
Qed.

End InStepPreserved.

Section LoadedPage.
Import Content Drawing Annotate InStep DrawSamples.

Lemma bound_bind_bucket key (cache : gmap string Cell) t :
  (forall r, cache !! key = Some (Alias r) -> (r < length (arrays t))%nat) ->
  bound (bind_bucket key cache t).
Proof.
  intros H. unfold bound, bind_bucket.
  destruct (cache !! key) as [[l|r]|] eqn:E; simpl.
  - rewrite length_app. simpl. lia.
  - by apply H.
  - rewrite length_app. simpl. lia.
Qed.

Lemma bound_loadAnnotations io t s :
  getFails io = false -> bound (fst (Content.loadAnnotations io t s)).
Proof.
  intros Hg. unfold Content.loadAnnotations. rewrite Hg.
  set (m := annotations_or_empty s).
  set (pageKey := getPageKey (location t)). set (legacyKey := pathname (location t)).
  assert (H1 : bound (bind_bucket pageKey (Own <$> m) t)).
  { apply bound_bind_bucket. intros r Hr. rewrite lookup_fmap in Hr.
    by destruct (m !! pageKey). }
  destruct (Nat.eqb _ 0 && negb (String.eqb legacyKey pageKey) && _) eqn:E; [|exact H1].
  apply andb_true_iff in E as [E _]. apply andb_true_iff in E as [_ E].
  apply negb_true_iff in E. apply String.eqb_neq in E.
  cbn [fst].
  match goal with |- bound (with_cache _ ?t2) => change (bound t2) end.
  apply bound_bind_bucket. intros r Hr.
  assert (Hl : default ∅ (allAnnotationsCache (bind_bucket pageKey (Own <$> m) t)) !! legacyKey
               = Own <$> m !! legacyKey).
  { unfold bind_bucket. rewrite lookup_fmap.
    destruct (m !! pageKey); simpl; [|by rewrite lookup_fmap].
    rewrite lookup_insert_ne by done. by rewrite lookup_fmap. }
  rewrite Hl in Hr. by destruct (m !! legacyKey).
Qed.

Lemma render_spec index l bs :
  nodes_ok bs ->
  nodes_ok (render index l bs)
  /\ labels (render index l bs)
     = labels bs ++ imap (fun k a => (Content.id a, Some (S (index + k)))) l.
Proof.
  revert index bs. induction l as [|a l IH]; intros index bs Hnodes.
  { simpl. by rewrite app_nil_r. }
  cbn [render].
  destruct (IH (S index) (appendChild (createAnnotationElement a (S index) (length bs)) bs))
    as [IH1 IH2].
  { intros k b Hk. unfold appendChild in Hk.
    apply lookup_app_Some in Hk as [Hk|[Hlen Hk]]; [by apply Hnodes|].
    apply list_lookup_singleton_Some in Hk as [Hk <-]. simpl. lia. }
  split; [exact IH1|]. rewrite IH2. unfold appendChild. rewrite labels_app.
  rewrite <- app_assoc. f_equal. cbn [imap]. rewrite Nat.add_0_r. f_equal.
  apply imap_ext. intros k a' _. simpl. do 2 f_equal. lia.
Qed.

(** A page is in step with its list once [loadAnnotations] has rendered
    it: loading onto a page without boxes, with no drag under way, gives
    every loaded annotation one box, in the order of the list and numbered
    from 1, when the stored annotations have distinct ids. *)
Lemma loaded_page_is_in_step io v s :
  getFails io = false ->
  boxes v = [] ->
  currentAnnotation (pen v) = None ->
  NoDup (Content.id <$> contents (script (fst (Annotate.loadAnnotations io v s)))) ->
  in_step (fst (Annotate.loadAnnotations io v s)).
Proof.
  intros Hg Hboxes Hcur. unfold Annotate.loadAnnotations. rewrite Hg.
  pose proof (bound_loadAnnotations io (script v) s Hg) as Hbound.
  destruct (Content.loadAnnotations io (script v) s) as [t s']. cbn [fst script] in *.
  intros Hnd. rewrite Hboxes.
  destruct (render_spec 0 (contents t) []) as [Hnodes Hlabels]; [done|].
  split; [done|]. split; [done|]. split; [exact Hlabels|]. split; [done|].
  intros n Hn. simpl in Hn. congruence.
Qed.

(** The sample page with three notes, checked directly. *)
Lemma three_notes_in_step : in_step (fst three_notes).
Proof.
  split; [vm_compute; lia|]. split; [|split; [reflexivity|split]].
  - intros k b Hk. do 3 (destruct k as [|k]; [by injection Hk as <-|]). done.
  - vm_compute. apply NoDup_ListNoDup. repeat constructor; simpl; intuition discriminate.
  - intros n Hn. discriminate Hn.
Qed.

Lemma loaded_page_is_in_step_witness : in_step (fst three_notes).
Proof.
  apply loaded_page_is_in_step; [reflexivity|reflexivity|reflexivity|].
  vm_compute. apply NoDup_ListNoDup. repeat constructor; simpl; intuition discriminate.
Defined.

Lemma page_stays_in_step_witness :
  let v := fst (run (fun c => c) three_notes
                  [ MouseDown (pointer 100 200) false;
                    MouseMove (pointer 160 260);
                    MouseUp io_ok (pointer 160 260) 60 60 1714557600000
                            "2024-05-01T10:00:00.000Z" "https://app.powerbi.com/r/1"
                            (Some "D");
                    DeleteConfirmed io_ok 12 ]) in
  Content.comment <$> contents (script v) = ["A"; "C"; "D"]
  /\ badges_agree (contents (script v)) (boxes v).
Proof.
  intros v.
  destruct (page_stays_in_step (fun c => c)
              [ MouseDown (pointer 100 200) false;
                MouseMove (pointer 160 260);
                MouseUp io_ok (pointer 160 260) 60 60 1714557600000
                        "2024-05-01T10:00:00.000Z" "https://app.powerbi.com/r/1"
                        (Some "D");
                DeleteConfirmed io_ok 12 ] three_notes) as (_ & _ & H).
  - exact three_notes_in_step.
  - simpl. split; [done|]. split; [done|]. split; [|done].
    vm_compute. intros Hin. apply list_elem_of_In in Hin. simpl in Hin.
    intuition discriminate.
  - split; [reflexivity|exact H].
Defined.

End LoadedPage.

Section ClickedBox.
Import Content Drawing Annotate InStep DrawSamples.

Lemma indexOf_at (l : list Annotation) k a :
  NoDup (Content.id <$> l) -> l !! k = Some a -> indexOf (Content.id a) l = Some (k, a).
Proof.
  revert k. induction l as [|a0 l IH]; intros k Hnd Hk; [done|].
  rewrite fmap_cons in Hnd. apply NoDup_cons in Hnd as [Hnew Hnd]. simpl.
  destruct k as [|k]; simpl in Hk.
  - injection Hk as ->. by rewrite Z.eqb_refl.
  - destruct (Z.eqb_spec (Content.id a0) (Content.id a)) as [Heq|_].
    + exfalso. apply Hnew. rewrite Heq. apply list_elem_of_fmap_2.
      by eapply list_elem_of_lookup_2.
    + by rewrite (IH k Hnd Hk).
Qed.

(** On a page in step with its list, a click on the box of an annotation
    opens the modal with that annotation's text under the number the box
    shows: for the annotation at position [k] both are [k + 1]. *)
Lemma clicked_box_shows_its_number v k a :
  in_step v ->
  contents (script v) !! k = Some a ->
  showAnnotationComment (Content.id a) (contents (script v)) = Some (S k, Content.comment a)
  /\ badge (Content.id a) (boxes v) = Some (S k).
Proof.
  intros Hin Ha. pose proof Hin as (_ & _ & _ & Hnd & _). split.
  - unfold showAnnotationComment. by rewrite (indexOf_at _ k a Hnd Ha).
  - pose proof (in_step_badges_agree v Hin) as Hagree.
    unfold badges_agree, renderComments in Hagree.
    rewrite Forall_lookup in Hagree.
    apply (Hagree k {| item_number := S k; item_id := Content.id a;
                       item_text := Content.comment a |}).
    by rewrite list_lookup_imap, Ha.
Qed.

Lemma clicked_box_shows_its_number_witness :
  showAnnotationComment 12 (contents (script (fst three_notes))) = Some (2%nat, "B")
  /\ badge 12 (boxes (fst three_notes)) = Some 2%nat.
Proof.
  apply (clicked_box_shows_its_number (fst three_notes) 1 (Samples.note 12 "B")).
  - exact three_notes_in_step.
  - reflexivity.
Defined.

End ClickedBox.

(* ===================================================================== *)
(** * Page context script: retries and repeated messages                  *)
(* ===================================================================== *)

Section PageInfoMessages.
Import PageScript.

Lemma getActivePageInfo_step forceUpdate found st :
  (retryCount st <= maxRetries)%nat ->
  let r := getActivePageInfo forceUpdate found st in
  (retryCount (fst r) <= maxRetries)%nat
  /\ match snd r with
     | Some info =>
         lastSentName (fst r) = info_displayName info
         /\ lastSentUrl (fst r) = info_url info
         /\ info_displayName info <> ""
         /\ (forceUpdate = false ->
             (info_displayName info, info_url info) <> (lastSentName st, lastSentUrl st))
     | None => lastSentName (fst r) = lastSentName st /\ lastSentUrl (fst r) = lastSentUrl st
     end.
Proof.
  intros Hle. unfold getActivePageInfo, resolved, called, maxRetries in *.
  destruct found as [| | | |[displayName|] name currentUrl]; simpl;
    try (split; [|done]; destruct (Nat.ltb_spec (retryCount st) 30); simpl; lia);
    try done.
  destruct (bool_decide (displayName = "")) eqn:Ename; [done|].
  apply bool_decide_eq_false in Ename.
  destruct forceUpdate; simpl.
  { split; [lia|]. by repeat split. }
  destruct (String.eqb_spec displayName (lastSentName st)) as [Hn|Hn]; simpl.
  - destruct (String.eqb_spec currentUrl (lastSentUrl st)) as [Hu|Hu]; simpl.
    + split; [lia|done].
    + split; [lia|]. repeat split; [done|]. intros _ [= _ H]. by apply Hu.
  - split; [lia|]. repeat split; [done|]. intros _ [= H _]. by apply Hn.
Qed.

Lemma calls_invariant cs st posted last :
  (retryCount st <= maxRetries)%nat ->
  (forall rest, no_repeat (lastSentName st, lastSentUrl st) rest ->
                no_repeat last (posted ++ rest)) ->
  Forall (fun m => info_displayName m.2 <> "") posted ->
  let r := calls cs st posted in
  (retryCount (fst r) <= maxRetries)%nat
  /\ no_repeat last (snd r)
  /\ Forall (fun m => info_displayName m.2 <> "") (snd r).
Proof.
  revert st posted. induction cs as [|[forceUpdate found] cs IH]; intros st posted Hle Hrep Hne.
  { simpl. split; [done|]. split; [|done].
    rewrite <- (app_nil_r posted). by apply Hrep. }
  cbn [calls].
  pose proof (getActivePageInfo_step forceUpdate found st Hle) as Hstep.
  destruct (getActivePageInfo forceUpdate found st) as [st' [info|]]; cbn [fst snd] in Hstep.
  - destruct Hstep as (Hle' & Hname & Hurl & Hnonempty & Hdiff).
    apply IH; [done| |].
    + intros rest Hrest. rewrite <- app_assoc. apply Hrep. simpl.
      split; [done|]. by rewrite <- Hname, <- Hurl.
    + apply Forall_app. split; [done|]. by repeat constructor.
  - destruct Hstep as (Hle' & Hname & Hurl).
    apply IH; [done| |done]. by rewrite Hname, Hurl.
Qed.

(** However the calls of [getActivePageInfo] turn out, forced or not,
    [retryCount] never exceeds [maxRetries], every message posted carries a
    page name that is not empty, and no message repeats the page name and
    address of the message before it unless its call was forced. *)
Lemma page_info_is_not_repeated cs :
  let r := calls cs start [] in
  (retryCount (fst r) <= maxRetries)%nat
  /\ no_repeat ("", "") (snd r)
  /\ Forall (fun m => info_displayName m.2 <> "") (snd r).
Proof.
  apply (calls_invariant cs start [] ("", "")).
  - unfold start, maxRetries. simpl. lia.
  - intros rest Hrest. exact Hrest.
  - constructor.
Qed.

Lemma fast_polling_unavailable ticks st :
  Forall (fun found => found = NoPowerbi \/ found = NoEmbeds) ticks ->
  (retryCount st < maxRetries)%nat ->
  (maxRetries - retryCount st <= length ticks)%nat ->
  exists st',
    fast_polling ticks st = Some ((maxRetries - retryCount st)%nat, st')
    /\ retryCount st' = maxRetries.
Proof.
  unfold maxRetries. revert st.
  induction ticks as [|found ticks IH]; intros st Hall Hlt Hlen; [simpl in Hlen; lia|].
  apply Forall_cons in Hall as [Hfound Hall]. cbn [fast_polling].
  assert (Hcalled : retryCount (called found st) = S (retryCount st)
                    /\ fst (resolved false found (called found st)) = called found st).
  { destruct Hfound as [-> | ->]; simpl; unfold maxRetries;
      destruct (Nat.ltb_spec (retryCount st) 30); (done || lia). }
  destruct Hcalled as [Hretry ->]. rewrite Hretry. cbn [Nat.eqb orb].
  unfold maxRetries. destruct (Nat.leb_spec 30 (S (retryCount st))) as [Hfull|Hroom].
  - exists (called found st). split; [|lia]. do 2 f_equal. lia.
  - destruct (IH (called found st) Hall) as (st' & -> & Hst'); [lia|simpl in *; lia|].
    exists st'. split; [|done]. rewrite Hretry. do 2 f_equal. lia.
Qed.

(** While the Power BI API stays unavailable, the fast polling ends: from
    a state with fewer than [maxRetries] retries it hands over to the slower
    polling at the tick that takes [retryCount] to [maxRetries], that is,
    after exactly [maxRetries - retryCount] ticks, at most 30. *)
Lemma fast_polling_ends_while_unavailable ticks st :
  Forall (fun found => found = NoPowerbi \/ found = NoEmbeds) ticks ->
  (retryCount st < maxRetries)%nat ->
  (maxRetries <= length ticks)%nat ->
  exists k st',
    fast_polling ticks st = Some (k, st')
    /\ k = (maxRetries - retryCount st)%nat /\ (k <= 30)%nat
    /\ retryCount st' = maxRetries.
Proof.
  intros Hall Hlt Hlen.
  destruct (fast_polling_unavailable ticks st Hall Hlt) as (st' & H1 & H2); [lia|].
  exists (maxRetries - retryCount st)%nat, st'. unfold maxRetries in *.
  repeat split; [done|lia|done].
Qed.

Lemma fast_polling_ends_while_unavailable_witness :
  exists st',
    fast_polling (repeat NoPowerbi 30) (fst (getActivePageInfo false NoPowerbi start))
    = Some (29%nat, st').
Proof.
  destruct (fast_polling_ends_while_unavailable (repeat NoPowerbi 30)
              (fst (getActivePageInfo false NoPowerbi start)))
    as (k & st' & H1 & H2 & _).
  - apply Forall_forall. intros found Hin. apply list_elem_of_In, repeat_spec in Hin. by left.
  - vm_compute. lia.
  - vm_compute. lia.
  - exists st'. rewrite H1, H2. reflexivity.
Defined.

End PageInfoMessages.
